(** * TD3 (Twin Delayed DDPG) trainer of rl-medical: a shallow embedding

    Source: [src/TD3Model.py] (classes [Actor], [Critic], [TD3]).

    Tensors are nested lists in the layout the code uses (batch-major, then
    the per-agent axis).  Scalars are kept abstract behind the [Scalar]
    interface, so every structural statement holds for any interpretation of
    the arithmetic; the numeric statements are proved for the interpretation
    [xreal] (real numbers with one extra non-finite value, exact arithmetic:
    neither rounding nor overflow).  The operations the code takes from the
    tensor library without the repository defining them (3D convolution,
    automatic differentiation, the Adam step, the Gaussian sampler) are
    fields of the interfaces [Conv3dPrim] and [Runtime].

    Python exceptions the code itself can run into are results
    ([ZeroDivisionError] for [policy_freq = 0], [AttributeError] for a
    missing logger, the errors of [torch.load] and [load_state_dict]).  Shape
    errors inside tensor operations are not modelled: on ill-shaped input the
    list functions truncate, or index with a default, where the library
    raises.  Elementwise operations are taken on tensors of equal shape (the
    replay buffer is taken to deliver [reward] and [not_done] in the layout
    of the critic's output); broadcasting is not modelled. *)

From Stdlib Require Import ZArith Reals Lra.
From stdpp Require Import base option list strings gmap.

(** ** Scalars *)

Class Scalar (T : Type) : Type := {
  szero : T;
  sone : T;
  sadd : T → T → T;
  ssub : T → T → T;
  smul : T → T → T;
  sdiv : T → T → T;
  sneg : T → T;
  smin : T → T → T;
  smax : T → T → T;
  stanh : T → T;
  selu : T → T;
  sof_nat : nat → T;
}.

Declare Scope scalar_scope.
Delimit Scope scalar_scope with S.
Infix "+" := sadd : scalar_scope.
Infix "-" := ssub : scalar_scope.
Infix "*" := smul : scalar_scope.
Infix "/" := sdiv : scalar_scope.
Notation "- x" := (sneg x) : scalar_scope.

(** ** Tensors as nested lists *)

Section tensor.
Context {T : Type} `{!Scalar T}.

(** [torch.clamp(x, lo, hi)] on one element: [min(max(x, lo), hi)]. *)
Definition clamp (lo hi x : T) : T := smin (smax x lo) hi.

Definition map2d {A B} (f : A → B) (t : list (list A)) : list (list B) :=
  (λ row : list A, f <$> row) <$> t.
Definition map3d {A B} (f : A → B) (t : list (list (list A))) :
    list (list (list B)) :=
  map2d f <$> t.
Definition map5d {A B} (f : A → B) (t : list (list (list (list (list A))))) :
    list (list (list (list (list B)))) :=
  (λ sample : list (list (list (list A))), map3d f <$> sample) <$> t.

Definition zip2d {A B C} (f : A → B → C)
    (s : list (list A)) (t : list (list B)) : list (list C) :=
  zip_with (zip_with f) s t.
Definition zip3d {A B C} (f : A → B → C)
    (s : list (list (list A))) (t : list (list (list B))) :
    list (list (list C)) :=
  zip_with (zip2d f) s t.

(** [t[:, i]]: entry [i] along axis 1 of every batch row (the library raises
    [IndexError] when [i] is out of range; the model yields the default). *)
Definition select1 {A} `{!Inhabited A} (i : nat) (t : list (list A)) : list A :=
  (λ row, row !!! i) <$> t.

(** [t.unsqueeze(2)] on a tensor whose axes 0 and 1 are batch and agent. *)
Definition unsqueeze2 {A} (t : list (list A)) : list (list (list A)) :=
  map2d (λ v, [v]) t.

(** [torch.stack(ts, dim=1)] for a Python list [ts] of tensors with equal
    leading axis: entry [b] of the result lists [t[b]] for each [t] of [ts]. *)
Fixpoint stack1 {A} (ts : list (list A)) : list (list A) :=
  match ts with
  | [] => []
  | [t] => (λ x, [x]) <$> t
  | t :: ts' => zip_with cons t (stack1 ts')
  end.

(** [torch.cat([x, y], 1)] on two matrices. *)
Definition cat1 {A} (x y : list (list A)) : list (list A) :=
  zip_with app x y.

(** Contiguous data of a 5-axis tensor, and [x.view(-1, n)]: rows of [n]
    consecutive elements. *)
Definition flatten3 {A} (t : list (list (list A))) : list A :=
  concat (concat t).
Definition flatten5 {A} (t : list (list (list (list (list A))))) : list A :=
  concat (concat (concat (concat t))).

Fixpoint rows_of {A} (rows n : nat) (data : list A) : list (list A) :=
  match rows with
  | O => []
  | S r => take n data :: rows_of r n (drop n data)
  end.

Definition view_rows {A} (n : nat) (t : list (list (list (list (list A))))) :
    list (list A) :=
  let data := flatten5 t in rows_of (length data `div` n) n data.

(** Sum and mean over a flat list, in storage order. *)
Definition ssum (l : list T) : T := foldl sadd szero l.
Definition smean (l : list T) : T := (ssum l / sof_nat (length l))%S.

(** [F.mse_loss(input, target)] with the default mean reduction. *)
Definition mse_loss (input target : list (list (list T))) : T :=
  smean (flatten3 (zip3d (λ x y, ((x - y) * (x - y))%S) input target)).

(** [t[b, i, k]], if the position exists. *)
Definition at3 {A} (t : list (list (list A))) (b i k : nat) : option A :=
  match t !! b with
  | Some m => match m !! i with Some r => r !! k | None => None end
  | None => None
  end.

End tensor.

(** ** Layers *)

Section layers.
Context {T : Type} `{!Scalar T}.

(** A feature map of one sample: channel, depth, height, width. *)
Definition volume : Type := list (list (list (list T))).

(** [nn.Conv3d]: weight (out, in, k, k, k) and bias (out), with the stride and
    padding it was constructed with. *)
Record Conv3d : Type := {
  conv_weight : list volume;
  conv_bias : list T;
  conv_stride : nat;
  conv_padding : nat;
}.

(** [nn.Linear]: weight (out, in) and bias (out). *)
Record Linear : Type := {
  lin_weight : list (list T);
  lin_bias : list T;
}.

Global Instance Linear_inhabited : Inhabited Linear :=
  populate {| lin_weight := []; lin_bias := [] |}.

Definition dot (x w : list T) : T := ssum (zip_with smul x w).

(** Applying a linear layer to a batch of rows: [x @ W^T + b]. *)
Definition linear (l : Linear) (x : list (list T)) : list (list T) :=
  (λ row, zip_with sadd ((λ w, dot row w) <$> lin_weight l) (lin_bias l)) <$> x.

End layers.

Arguments volume : clear implicits.
Arguments Conv3d : clear implicits.
Arguments Linear : clear implicits.

(** The convolution itself is the tensor library's. *)
Class Conv3dPrim (T : Type) : Type := {
  conv3d : Conv3d T → list (volume T) → list (volume T);
}.

(** ** Shapes and parameter-wise combination *)

Section shapes.
Context {T : Type} `{!Scalar T}.

(** The shape of a tensor: the tensor with its elements erased. *)
Definition shape1 (l : list T) : list () := (λ _, ()) <$> l.
Definition shape2 (m : list (list T)) : list (list ()) := shape1 <$> m.
Definition shape5 (w : list (volume T)) :
    list (list (list (list (list ())))) :=
  map5d (λ _, ()) w.

Definition conv_shape (c : Conv3d T) :
    list (list (list (list (list ())))) * list () :=
  (shape5 (conv_weight c), shape1 (conv_bias c)).
Definition linear_shape (l : Linear T) : list (list ()) * list () :=
  (shape2 (lin_weight l), shape1 (lin_bias l)).

Definition zip5d (f : T → T → T) (s t : list (volume T)) : list (volume T) :=
  zip_with (zip_with (zip3d f)) s t.

(** The elementwise combination [f] of the parameters of two layers; the
    layer keeps the construction-time attributes of the second one, whose
    storage the code overwrites. *)
Definition conv_zip (f : T → T → T) (c d : Conv3d T) : Conv3d T :=
  {| conv_weight := zip5d f (conv_weight c) (conv_weight d);
     conv_bias := zip_with f (conv_bias c) (conv_bias d);
     conv_stride := conv_stride d;
     conv_padding := conv_padding d |}.
Definition linear_zip (f : T → T → T) (l k : Linear T) : Linear T :=
  {| lin_weight := zip2d f (lin_weight l) (lin_weight k);
     lin_bias := zip_with f (lin_bias l) (lin_bias k) |}.

(** The parameter tensors of a layer, each as its contiguous data, in
    registration order (weight, then bias). *)
Definition conv_parameters (c : Conv3d T) : list (list T) :=
  [flatten5 (conv_weight c); conv_bias c].
Definition linear_parameters (l : Linear T) : list (list T) :=
  [concat (lin_weight l); lin_bias l].

(** One element of the soft target update:
    [tau * param + (1 - tau) * target_param]. *)
Definition lerp (tau p t : T) : T := (tau * p + (sone - tau) * t)%S.

End shapes.

(** ** The Actor network *)

Module Actor.
Section defs.
Context {T : Type} `{!Scalar T, !Conv3dPrim T}.

Record t : Type := {
  agents : nat;
  conv1 : Conv3d T;
  conv2 : Conv3d T;
  conv3 : Conv3d T;
  conv4 : Conv3d T;
  actor1 : list (Linear T);
  actor2 : list (Linear T);
  max_action : T;
}.

(** [Actor.__init__].  The library draws the initial weights: [drawn]
    supplies them; the attributes are those of the constructor (stride 2
    and padding 1 for every convolution). *)
Definition init (drawn : t) (max_action : T) (agents : nat) : t :=
  let conv (c : Conv3d T) : Conv3d T :=
    {| conv_weight := conv_weight c; conv_bias := conv_bias c;
       conv_stride := 2; conv_padding := 1 |} in
  {| agents := agents;
     conv1 := conv (conv1 drawn); conv2 := conv (conv2 drawn);
     conv3 := conv (conv3 drawn); conv4 := conv (conv4 drawn);
     actor1 := actor1 drawn; actor2 := actor2 drawn;
     max_action := max_action |}.

(** [Actor.forward]; [state] has axes (batch, agent, frame, depth, height,
    width). *)
Definition forward (self : t) (state : list (list (volume T))) :
    list (list (list T)) :=
  let actions :=
    foldl (λ (actions : list (list (list T))) (i : nat),
      let x := select1 i state in
      let x := map5d selu (conv3d (conv1 self) x) in
      let x := map5d selu (conv3d (conv2 self) x) in
      let x := map5d selu (conv3d (conv3 self) x) in
      let x := map5d selu (conv3d (conv4 self) x) in
      let x := view_rows (32 * 3 * 3 * 3) x in
      let action := linear (actor1 self !!! i) x in
      let action := linear (actor2 self !!! i) action in
      actions ++ [action])
    [] (seq 0 (agents self)) in
  let actions := stack1 actions in
  map3d (λ a, (max_action self * stanh a)%S) actions.

(** [parameters()], in registration order. *)
Definition parameters (self : t) : list (list T) :=
  conv_parameters (conv1 self) ++ conv_parameters (conv2 self)
  ++ conv_parameters (conv3 self) ++ conv_parameters (conv4 self)
  ++ (actor1 self ≫= linear_parameters)
  ++ (actor2 self ≫= linear_parameters).

(** Names and shapes of the parameter tensors. *)
Definition shape (self : t) :=
  (conv_shape (conv1 self), conv_shape (conv2 self),
   conv_shape (conv3 self), conv_shape (conv4 self),
   linear_shape <$> actor1 self, linear_shape <$> actor2 self).

Definition same_shape (a b : t) : bool := bool_decide (shape a = shape b).

(** Every parameter tensor of [b] overwritten by [f param_a param_b]
    ([for pa, pb in zip(a.parameters(), b.parameters()): pb.data.copy_(...)]). *)
Definition zip_parameters (f : T → T → T) (a b : t) : t :=
  {| agents := agents b;
     conv1 := conv_zip f (conv1 a) (conv1 b);
     conv2 := conv_zip f (conv2 a) (conv2 b);
     conv3 := conv_zip f (conv3 a) (conv3 b);
     conv4 := conv_zip f (conv4 a) (conv4 b);
     actor1 := zip_with (linear_zip f) (actor1 a) (actor1 b);
     actor2 := zip_with (linear_zip f) (actor2 a) (actor2 b);
     max_action := max_action b |}.

(** The attributes fixed at construction, which no state dict carries. *)
Definition same_attributes (a b : t) : Prop :=
  agents a = agents b ∧ max_action a = max_action b
  ∧ conv_stride (conv1 a) = conv_stride (conv1 b)
  ∧ conv_padding (conv1 a) = conv_padding (conv1 b)
  ∧ conv_stride (conv2 a) = conv_stride (conv2 b)
  ∧ conv_padding (conv2 a) = conv_padding (conv2 b)
  ∧ conv_stride (conv3 a) = conv_stride (conv3 b)
  ∧ conv_padding (conv3 a) = conv_padding (conv3 b)
  ∧ conv_stride (conv4 a) = conv_stride (conv4 b)
  ∧ conv_padding (conv4 a) = conv_padding (conv4 b).

(** [state_dict()]: the snapshot is the module record, of which
    [load_state_dict] reads the parameter tensors only. *)
Definition state_dict (self : t) : t := self.

(** [load_state_dict(sd)] (strict): raises unless the snapshot has the same
    parameter names and shapes; else copies every parameter into [self]. *)
Definition load_state_dict (self sd : t) : option t :=
  if same_shape sd self then Some (zip_parameters (λ p _, p) sd self) else None.

End defs.
End Actor.

(** ** The twin Critic network *)

Module Critic.
Section defs.
Context {T : Type} `{!Scalar T, !Conv3dPrim T}.

Record t : Type := {
  agents : nat;
  conv1 : Conv3d T;
  conv2 : Conv3d T;
  conv3 : Conv3d T;
  conv4 : Conv3d T;
  critic_11 : list (Linear T);
  critic_12 : list (Linear T);
  critic_21 : list (Linear T);
  critic_22 : list (Linear T);
}.

(** [Critic.__init__], with the weights [drawn] by the library. *)
Definition init (drawn : t) (agents : nat) : t :=
  let conv (c : Conv3d T) : Conv3d T :=
    {| conv_weight := conv_weight c; conv_bias := conv_bias c;
       conv_stride := 2; conv_padding := 1 |} in
  {| agents := agents;
     conv1 := conv (conv1 drawn); conv2 := conv (conv2 drawn);
     conv3 := conv (conv3 drawn); conv4 := conv (conv4 drawn);
     critic_11 := critic_11 drawn; critic_12 := critic_12 drawn;
     critic_21 := critic_21 drawn; critic_22 := critic_22 drawn |}.

(** [Critic.forward]; [action] has axes (batch, agent, action_dim). *)
Definition forward (self : t) (state : list (list (volume T)))
    (action : list (list (list T))) :
    list (list (list T)) * list (list (list T)) :=
  let '(q1_s, q2_s) :=
    foldl (λ '((q1_s, q2_s) : list (list (list T)) * list (list (list T)))
             (i : nat),
      let act := select1 i action in
      let x := select1 i state in
      let x := map5d selu (conv3d (conv1 self) x) in
      let x := map5d selu (conv3d (conv2 self) x) in
      let x := map5d selu (conv3d (conv3 self) x) in
      let x := map5d selu (conv3d (conv4 self) x) in
      let x := view_rows (32 * 3 * 3 * 3) x in
      let sa := cat1 x act in
      let q1 := linear (critic_11 self !!! i) sa in
      let q1 := linear (critic_12 self !!! i) q1 in
      let q2 := linear (critic_21 self !!! i) sa in
      let q2 := linear (critic_22 self !!! i) q2 in
      (q1_s ++ [q1], q2_s ++ [q2]))
    ([], []) (seq 0 (agents self)) in
  let q1_s := stack1 q1_s in
  let q2_s := stack1 q2_s in
  (q1_s, q2_s).

(** [Critic.Q1]: the first head only. *)
Definition Q1 (self : t) (state : list (list (volume T)))
    (action : list (list (list T))) : list (list (list T)) :=
  let q1_s :=
    foldl (λ (q1_s : list (list (list T))) (i : nat),
      let act := select1 i action in
      let x := select1 i state in
      let x := map5d selu (conv3d (conv1 self) x) in
      let x := map5d selu (conv3d (conv2 self) x) in
      let x := map5d selu (conv3d (conv3 self) x) in
      let x := map5d selu (conv3d (conv4 self) x) in
      let x := view_rows (32 * 3 * 3 * 3) x in
      let sa := cat1 x act in
      let q1 := linear (critic_11 self !!! i) sa in
      let q1 := linear (critic_12 self !!! i) q1 in
      q1_s ++ [q1])
    [] (seq 0 (agents self)) in
  let q1_s := stack1 q1_s in
  q1_s.

Definition parameters (self : t) : list (list T) :=
  conv_parameters (conv1 self) ++ conv_parameters (conv2 self)
  ++ conv_parameters (conv3 self) ++ conv_parameters (conv4 self)
  ++ (critic_11 self ≫= linear_parameters)
  ++ (critic_12 self ≫= linear_parameters)
  ++ (critic_21 self ≫= linear_parameters)
  ++ (critic_22 self ≫= linear_parameters).

Definition shape (self : t) :=
  (conv_shape (conv1 self), conv_shape (conv2 self),
   conv_shape (conv3 self), conv_shape (conv4 self),
   linear_shape <$> critic_11 self, linear_shape <$> critic_12 self,
   linear_shape <$> critic_21 self, linear_shape <$> critic_22 self).

Definition same_shape (a b : t) : bool := bool_decide (shape a = shape b).

Definition zip_parameters (f : T → T → T) (a b : t) : t :=
  {| agents := agents b;
     conv1 := conv_zip f (conv1 a) (conv1 b);
     conv2 := conv_zip f (conv2 a) (conv2 b);
     conv3 := conv_zip f (conv3 a) (conv3 b);
     conv4 := conv_zip f (conv4 a) (conv4 b);
     critic_11 := zip_with (linear_zip f) (critic_11 a) (critic_11 b);
     critic_12 := zip_with (linear_zip f) (critic_12 a) (critic_12 b);
     critic_21 := zip_with (linear_zip f) (critic_21 a) (critic_21 b);
     critic_22 := zip_with (linear_zip f) (critic_22 a) (critic_22 b) |}.

Definition same_attributes (a b : t) : Prop :=
  agents a = agents b
  ∧ conv_stride (conv1 a) = conv_stride (conv1 b)
  ∧ conv_padding (conv1 a) = conv_padding (conv1 b)
  ∧ conv_stride (conv2 a) = conv_stride (conv2 b)
  ∧ conv_padding (conv2 a) = conv_padding (conv2 b)
  ∧ conv_stride (conv3 a) = conv_stride (conv3 b)
  ∧ conv_padding (conv3 a) = conv_padding (conv3 b)
  ∧ conv_stride (conv4 a) = conv_stride (conv4 b)
  ∧ conv_padding (conv4 a) = conv_padding (conv4 b).

Definition state_dict (self : t) : t := self.

Definition load_state_dict (self sd : t) : option t :=
  if same_shape sd self then Some (zip_parameters (λ p _, p) sd self) else None.

End defs.
End Critic.

Arguments Actor.t : clear implicits.
Arguments Critic.t : clear implicits.

(** ** What the runtime provides *)

(** Automatic differentiation, the Adam optimizer and the Gaussian sampler.
    [backward loss p] is the gradient of the scalar [loss] with respect to the
    parameters, taken at [p]; an optimizer over parameters [P] is the state
    [torch.optim.Adam] keeps for them, and [optimizer_step o p grad] is one
    [step()] on parameters [p] with gradients [grad]. *)
Class Runtime (T : Type) : Type := {
  backward : ∀ P : Type, (P → T) → P → P;
  optimizer : Type → Type;
  Adam : ∀ P : Type, P → T → optimizer P;
  optimizer_step : ∀ P : Type, optimizer P → P → P → optimizer P * P;
  generator : Type;
  randn_like :
    generator → list (list (list T)) → list (list (list T)) * generator;
}.

Arguments backward {T _ P} _ _.
Arguments Adam {T _ P} _ _.
Arguments optimizer_step {T _ P} _ _ _.

(** ** Exceptions and the effect monad *)

Inductive exn : Type :=
  | ZeroDivisionError
  | AttributeError
  | FileNotFoundError
  | RuntimeError.

Inductive outcome (A : Type) : Type :=
  | Returned (a : A)
  | Raised (e : exn).
Arguments Returned {A} a.
Arguments Raised {A} e.

(** A computation over a mutable state [S] that may raise: the state it
    leaves behind is kept also when it raises. *)
Definition M (S A : Type) : Type := S → S * outcome A.

Definition ret {S A} (a : A) : M S A := λ s, (s, Returned a).
Definition raise {S A} (e : exn) : M S A := λ s, (s, Raised e).
Definition bind {S A B} (c : M S A) (k : A → M S B) : M S B :=
  λ s, match c s with
       | (s', Returned a) => k a s'
       | (s', Raised e) => (s', Raised e)
       end.
Definition get {S} : M S S := λ s, (s, Returned s).
Definition modify {S} (f : S → S) : M S unit := λ s, (f s, Returned tt).
Definition from_option {S A} (e : exn) (o : option A) : M S A :=
  match o with Some a => ret a | None => raise e end.

Notation "x <~ c ;; k" := (bind c (λ x, k))
  (at level 20, c at level 99, k at level 200, only parsing).
Notation "c ;; k" := (bind c (λ _, k))
  (at level 100, k at level 200, right associativity, only parsing).

(** Python's [a % b] on integers. *)
Definition py_mod (a b : Z) : option Z :=
  if decide (b = 0%Z) then None else Some (a `mod` b)%Z.

(** [t.squeeze(0)]: axis 0 is dropped exactly when its size is 1. *)
Inductive squeezed (A : Type) : Type :=
  | Squeezed (x : A)
  | Unchanged (t : list A).
Arguments Squeezed {A} x.
Arguments Unchanged {A} t.

Definition squeeze0 {A} (t : list A) : squeezed A :=
  match t with
  | [x] => Squeezed x
  | _ => Unchanged t
  end.

(** ** Collaborators: replay buffer, checkpoint files, logger *)

Section collaborators.
Context {T : Type} `{!Scalar T, !Conv3dPrim T, !Runtime T}.

(** What [replay_buffer.sample] returns.  [state] and [next_state] have axes
    (batch, agent, depth, height, width); [action] (batch, agent,
    action_dim); [reward] and [not_done] carry one scalar per batch row and
    agent, laid out like the critic's output (batch, agent, 1). *)
Record Batch : Type := {
  b_state : list (list (list (list (list T))));
  b_action : list (list (list T));
  b_next_state : list (list (list (list (list T))));
  b_reward : list (list (list T));
  b_not_done : list (list (list T));
}.

Record ReplayBuffer : Type := {
  sample : nat → Batch;
}.

(** What a checkpoint file holds. *)
Inductive snapshot : Type :=
  | CriticSnapshot (sd : Critic.t T)
  | CriticOptimizerSnapshot (sd : optimizer (Critic.t T))
  | ActorSnapshot (sd : Actor.t T)
  | ActorOptimizerSnapshot (sd : optimizer (Actor.t T)).

(** The files [torch.load] reads, by path. *)
Definition files : Type := gmap string snapshot.

(** The logger object: its [save_model(state_dict, name, forced)] acts on the
    files. *)
Record Logger : Type := {
  save_model : snapshot → string → bool → files → files;
}.

End collaborators.

Arguments Batch : clear implicits.
Arguments ReplayBuffer : clear implicits.
Arguments snapshot T {_}.
Arguments files T {_}.
Arguments Logger T {_}.

(** ** The trainer *)

Module TD3.
Section defs.
Context {T : Type} `{!Scalar T, !Conv3dPrim T, !Runtime T}.

Record t : Type := {
  actor : Actor.t T;
  actor_target : Actor.t T;
  actor_optimizer : optimizer (Actor.t T);
  critic : Critic.t T;
  critic_target : Critic.t T;
  critic_optimizer : optimizer (Critic.t T);
  max_action : T;
  discount : T;
  tau : T;
  policy_noise : T;
  noise_clip : T;
  policy_freq : Z;
  total_it : Z;
  logger : option (Logger T);
}.

Definition set_total_it (n : Z) (self : t) : t :=
  {| actor := actor self; actor_target := actor_target self;
     actor_optimizer := actor_optimizer self;
     critic := critic self; critic_target := critic_target self;
     critic_optimizer := critic_optimizer self;
     max_action := max_action self; discount := discount self;
     tau := tau self; policy_noise := policy_noise self;
     noise_clip := noise_clip self; policy_freq := policy_freq self;
     total_it := n; logger := logger self |}.

Definition set_critic (o : optimizer (Critic.t T)) (c : Critic.t T)
    (self : t) : t :=
  {| actor := actor self; actor_target := actor_target self;
     actor_optimizer := actor_optimizer self;
     critic := c; critic_target := critic_target self;
     critic_optimizer := o;
     max_action := max_action self; discount := discount self;
     tau := tau self; policy_noise := policy_noise self;
     noise_clip := noise_clip self; policy_freq := policy_freq self;
     total_it := total_it self; logger := logger self |}.

Definition set_actor (o : optimizer (Actor.t T)) (a : Actor.t T)
    (self : t) : t :=
  {| actor := a; actor_target := actor_target self;
     actor_optimizer := o;
     critic := critic self; critic_target := critic_target self;
     critic_optimizer := critic_optimizer self;
     max_action := max_action self; discount := discount self;
     tau := tau self; policy_noise := policy_noise self;
     noise_clip := noise_clip self; policy_freq := policy_freq self;
     total_it := total_it self; logger := logger self |}.

Definition set_critic_target (c : Critic.t T) (self : t) : t :=
  {| actor := actor self; actor_target := actor_target self;
     actor_optimizer := actor_optimizer self;
     critic := critic self; critic_target := c;
     critic_optimizer := critic_optimizer self;
     max_action := max_action self; discount := discount self;
     tau := tau self; policy_noise := policy_noise self;
     noise_clip := noise_clip self; policy_freq := policy_freq self;
     total_it := total_it self; logger := logger self |}.

Definition set_actor_target (a : Actor.t T) (self : t) : t :=
  {| actor := actor self; actor_target := a;
     actor_optimizer := actor_optimizer self;
     critic := critic self; critic_target := critic_target self;
     critic_optimizer := critic_optimizer self;
     max_action := max_action self; discount := discount self;
     tau := tau self; policy_noise := policy_noise self;
     noise_clip := noise_clip self; policy_freq := policy_freq self;
     total_it := total_it self; logger := logger self |}.

(** [TD3.__init__].  [actor0] and [critic0] carry the weights the library
    draws for the two networks; the targets are deep copies, the optimizers
    are Adam with learning rate 3e-4 (3 / (100 * 100)). *)
Definition init (actor0 : Actor.t T) (critic0 : Critic.t T)
    (max_action discount tau policy_noise noise_clip : T) (policy_freq : Z)
    (agents : nat) (logger : option (Logger T)) : t :=
  let actor := Actor.init actor0 max_action agents in
  let critic := Critic.init critic0 agents in
  {| actor := actor;
     actor_target := actor;
     actor_optimizer := Adam actor (sof_nat 3 / (sof_nat 100 * sof_nat 100))%S;
     critic := critic;
     critic_target := critic;
     critic_optimizer :=
       Adam critic (sof_nat 3 / (sof_nat 100 * sof_nat 100))%S;
     max_action := max_action; discount := discount; tau := tau;
     policy_noise := policy_noise; noise_clip := noise_clip;
     policy_freq := policy_freq;
     total_it := 0; logger := logger |}.

(** [TD3.select_action]. *)
Definition select_action (self : t) (state : list (list (volume T))) :
    squeezed (list (list T)) :=
  squeeze0 (Actor.forward (actor self) state).

(** *** The pieces of [TD3.train], in the order of the code *)

(** Lines 189-192: the clamped reward. *)
Definition train_reward (self : t) (batch : Batch T) : list (list (list T)) :=
  map3d (clamp (- max_action self)%S (max_action self)) (b_reward batch).

(** Lines 196-198: the clipped noise, from the sample [eps] of
    [torch.randn_like(action)]. *)
Definition train_noise (self : t) (eps : list (list (list T))) :
    list (list (list T)) :=
  map3d (clamp (- noise_clip self)%S (noise_clip self))
    (map3d (λ e, (e * policy_noise self)%S) eps).

(** Lines 201-203. *)
Definition train_next_action (self : t) (batch : Batch T)
    (noise : list (list (list T))) : list (list (list T)) :=
  map3d (clamp (- max_action self)%S (max_action self))
    (zip3d sadd
       (Actor.forward (actor_target self) (unsqueeze2 (b_next_state batch)))
       noise).

(** Lines 206-208. *)
Definition train_target_Q (self : t) (batch : Batch T)
    (reward next_action : list (list (list T))) : list (list (list T)) :=
  let '(target_Q1, target_Q2) :=
    Critic.forward (critic_target self) (unsqueeze2 (b_next_state batch))
      next_action in
  let target_Q := zip3d smin target_Q1 target_Q2 in
  zip3d sadd reward
    (zip3d smul (map3d (λ nd, (nd * discount self)%S) (b_not_done batch))
       target_Q).

(** Lines 189-208 together: the bootstrapped target of a call that sampled
    [batch] and drew [eps]. *)
Definition bootstrapped_target (self : t) (batch : Batch T)
    (eps : list (list (list T))) : list (list (list T)) :=
  train_target_Q self batch (train_reward self batch)
    (train_next_action self batch (train_noise self eps)).

(** Lines 211-214, as a function of the critic's parameters: [target_Q] was
    computed under [torch.no_grad()] and is a constant of it. *)
Definition critic_loss (batch : Batch T) (target_Q : list (list (list T)))
    (critic : Critic.t T) : T :=
  let '(current_Q1, current_Q2) :=
    Critic.forward critic (unsqueeze2 (b_state batch)) (b_action batch) in
  (mse_loss current_Q1 target_Q + mse_loss current_Q2 target_Q)%S.

(** Line 225, as a function of the actor's parameters. *)
Definition actor_loss (batch : Batch T) (critic : Critic.t T)
    (actor : Actor.t T) : T :=
  (- smean (flatten3
      (Critic.Q1 critic (unsqueeze2 (b_state batch))
         (Actor.forward actor (unsqueeze2 (b_state batch))))))%S.

(** Lines 216-219: one optimizer step on the critic, along the gradient of
    the critic loss. *)
Definition optimize_critic (self : t) (batch : Batch T)
    (target_Q : list (list (list T))) : t :=
  let grad := backward (critic_loss batch target_Q) (critic self) in
  let '(o, c) := optimizer_step (critic_optimizer self) (critic self) grad in
  set_critic o c self.

(** Lines 225-230: one optimizer step on the actor, along the gradient of
    the actor loss through the live critic. *)
Definition optimize_actor (self : t) (batch : Batch T) : t :=
  let grad := backward (actor_loss batch (critic self)) (actor self) in
  let '(o, a) := optimizer_step (actor_optimizer self) (actor self) grad in
  set_actor o a self.

(** Lines 233-237: the soft update of both target networks. *)
Definition update_targets (self : t) : t :=
  let self :=
    set_critic_target
      (Critic.zip_parameters (lerp (tau self)) (critic self)
         (critic_target self)) self in
  set_actor_target
    (Actor.zip_parameters (lerp (tau self)) (actor self) (actor_target self))
    self.

(** [TD3.train].  [g] is the state of the global random generator. *)
Definition train (self : t) (g : generator) (replay_buffer : ReplayBuffer T)
    (batch_size : nat) : t * generator * outcome T :=
  let self := set_total_it (total_it self + 1) self in
  let batch := sample replay_buffer batch_size in
  let reward := train_reward self batch in
  let '(eps, g) := randn_like g (b_action batch) in
  let noise := train_noise self eps in
  let next_action := train_next_action self batch noise in
  let target_Q := train_target_Q self batch reward next_action in
  let loss := critic_loss batch target_Q (critic self) in
  let self := optimize_critic self batch target_Q in
  match py_mod (total_it self) (policy_freq self) with
  | None => (self, g, Raised ZeroDivisionError)
  | Some r =>
    if decide (r = 0%Z) then
      let self := optimize_actor self batch in
      let self := update_targets self in
      (self, g, Returned loss)
    else (self, g, Returned loss)
  end.

(** [TD3.save]: four calls of the logger, which acts on the files. *)
Definition save (self : t) (name : string) (forced : bool) : M (files T) unit :=
  lg <~ from_option AttributeError (logger self) ;;
  modify (save_model lg (CriticSnapshot (Critic.state_dict (critic self)))
            (name +:+ "_critic.pt") forced) ;;
  modify (save_model lg (CriticOptimizerSnapshot (critic_optimizer self))
            (name +:+ "_critic_optimizer.pt") forced) ;;
  modify (save_model lg (ActorSnapshot (Actor.state_dict (actor self)))
            (name +:+ "_actor.pt") forced) ;;
  modify (save_model lg (ActorOptimizerSnapshot (actor_optimizer self))
            (name +:+ "_actor_optimizer.pt") forced).

(** [torch.load(path)]. *)
Definition torch_load (fs : files T) (path : string) : M t (snapshot T) :=
  from_option FileNotFoundError (fs !! path).

(** [TD3.load]: reads the files [fs], mutates the trainer. *)
Definition load (fs : files T) (filename : string) : M t unit :=
  sd <~ torch_load fs (filename +:+ "_critic") ;;
  self <~ get ;;
  c <~ from_option RuntimeError
         match sd with
         | CriticSnapshot sd => Critic.load_state_dict (critic self) sd
         | _ => None
         end ;;
  modify (set_critic (critic_optimizer self) c) ;;
  sd <~ torch_load fs (filename +:+ "_critic_optimizer") ;;
  o <~ from_option RuntimeError
         match sd with
         | CriticOptimizerSnapshot sd => Some sd
         | _ => None
         end ;;
  modify (set_critic o c) ;;
  modify (set_critic_target c) ;;
  sd <~ torch_load fs (filename +:+ "_actor") ;;
  self <~ get ;;
  a <~ from_option RuntimeError
         match sd with
         | ActorSnapshot sd => Actor.load_state_dict (actor self) sd
         | _ => None
         end ;;
  modify (set_actor (actor_optimizer self) a) ;;
  sd <~ torch_load fs (filename +:+ "_actor_optimizer") ;;
  o <~ from_option RuntimeError
         match sd with
         | ActorOptimizerSnapshot sd => Some sd
         | _ => None
         end ;;
  modify (set_actor o a) ;;
  modify (set_actor_target a).

End defs.
End TD3.

Arguments TD3.t T {_}.

(** ** The operations of a trainer as a transition system *)

Section transitions.
Context {T : Type} `{!Scalar T, !Conv3dPrim T, !Runtime T}.

Inductive op : Type :=
  | Train (g : generator) (replay_buffer : ReplayBuffer T) (batch_size : nat)
  | Load (fs : files T) (filename : string)
  | Save (name : string) (forced : bool) (fs : files T)
  | SelectAction (state : list (list (volume T))).

(** The trainer an operation leaves behind (also when it raises). *)
Definition step (o : op) (self : TD3.t T) : TD3.t T :=
  match o with
  | Train g replay_buffer batch_size =>
      (TD3.train self g replay_buffer batch_size).1.1
  | Load fs filename => (TD3.load fs filename self).1
  | Save _ _ _ => self
  | SelectAction _ => self
  end.

Inductive reachable : TD3.t T → Prop :=
  | reachable_init actor0 critic0 max_action discount tau policy_noise
      noise_clip policy_freq agents logger :
      reachable (TD3.init actor0 critic0 max_action discount tau policy_noise
                   noise_clip policy_freq agents logger)
  | reachable_step o self :
      reachable self → reachable (step o self).

(** Live and target networks have the same parameter names and shapes. *)
Definition same_architecture (self : TD3.t T) : Prop :=
  Critic.shape (TD3.critic_target self) = Critic.shape (TD3.critic self)
  ∧ Actor.shape (TD3.actor_target self) = Actor.shape (TD3.actor self).

(** The optimizer updates parameters in place: a step never changes the
    shape of a parameter tensor. *)
Class RuntimeLaws : Prop := {
  critic_step_shape (o : optimizer (Critic.t T)) (p grad : Critic.t T) :
    Critic.shape (optimizer_step o p grad).2 = Critic.shape p;
  actor_step_shape (o : optimizer (Actor.t T)) (p grad : Actor.t T) :
    Actor.shape (optimizer_step o p grad).2 = Actor.shape p;
}.

End transitions.

Arguments op T {_}.
Arguments RuntimeLaws T {_}.

(** ** The update rules in the words of the specification *)

Module Spec.
Section defs.
Context {T : Type} `{!Scalar T}.

(** Gaussian noise scaled by [policy_noise], clamped to
    [[-noise_clip, noise_clip]]. *)
Definition noise (policy_noise noise_clip eps : T) : T :=
  clamp (- noise_clip)%S noise_clip (eps * policy_noise)%S.

(** The target Actor's output plus the noise, clamped to
    [[-max_action, max_action]]. *)
Definition next_action (max_action mu noise : T) : T :=
  clamp (- max_action)%S max_action (mu + noise)%S.

(** [target_Q = reward + not_done * discount * min(Q1_target, Q2_target)]. *)
Definition target_Q (reward not_done discount q1_target q2_target : T) : T :=
  (reward + not_done * discount * smin q1_target q2_target)%S.

(** The raw reward clamped into [[-max_action, max_action]]. *)
Definition clamped_reward (max_action reward : T) : T :=
  clamp (- max_action)%S max_action reward.

(** [tau * live_param + (1 - tau) * old_target_param]. *)
Definition soft_update (tau live_param old_target_param : T) : T :=
  (tau * live_param + (sone - tau) * old_target_param)%S.

(** The mean of the squared errors of [estimate] against [target]: the sum
    of [(q - y)^2] over all positions, divided by their number. *)
Definition mean_squared_error (estimate target : list (list (list T))) : T :=
  let errors :=
    flatten3 (zip3d (λ q y, ((q - y) * (q - y))%S) estimate target) in
  (foldr sadd szero errors / sof_nat (length errors))%S.

(** Sum of the mean-squared errors of the two heads' estimates against the
    one [target_Q]. *)
Definition critic_loss (q1 q2 target_Q : list (list (list T))) : T :=
  (mean_squared_error q1 target_Q + mean_squared_error q2 target_Q)%S.

End defs.
End Spec.

(** ** Predicates on whole tensors and networks *)

Section predicates.
Context {T : Type} `{!Scalar T, !Conv3dPrim T}.
Variable P : T → Prop.

Definition all2 (t : list (list T)) : Prop := Forall (Forall P) t.
Definition all3 (t : list (list (list T))) : Prop := Forall all2 t.
Definition all_volume (v : volume T) : Prop := Forall all3 v.
Definition all5 (t : list (volume T)) : Prop := Forall all_volume t.

Definition all_conv (c : Conv3d T) : Prop :=
  all5 (conv_weight c) ∧ Forall P (conv_bias c).
Definition all_linear (l : Linear T) : Prop :=
  all2 (lin_weight l) ∧ Forall P (lin_bias l).

Definition all_actor (a : Actor.t T) : Prop :=
  all_conv (Actor.conv1 a) ∧ all_conv (Actor.conv2 a)
  ∧ all_conv (Actor.conv3 a) ∧ all_conv (Actor.conv4 a)
  ∧ Forall all_linear (Actor.actor1 a) ∧ Forall all_linear (Actor.actor2 a)
  ∧ P (Actor.max_action a).

Definition all_critic (c : Critic.t T) : Prop :=
  all_conv (Critic.conv1 c) ∧ all_conv (Critic.conv2 c)
  ∧ all_conv (Critic.conv3 c) ∧ all_conv (Critic.conv4 c)
  ∧ Forall all_linear (Critic.critic_11 c)
  ∧ Forall all_linear (Critic.critic_12 c)
  ∧ Forall all_linear (Critic.critic_21 c)
  ∧ Forall all_linear (Critic.critic_22 c).

Definition all_batch (batch : Batch T) : Prop :=
  Forall (Forall all3) (b_state batch) ∧ all3 (b_action batch)
  ∧ Forall (Forall all3) (b_next_state batch)
  ∧ all3 (b_reward batch) ∧ all3 (b_not_done batch).

(** [P] is kept by the arithmetic the networks use. *)
Class Closed : Prop := {
  closed_zero : P szero;
  closed_add x y : P x → P y → P (x + y)%S;
  closed_sub x y : P x → P y → P (x - y)%S;
  closed_mul x y : P x → P y → P (x * y)%S;
  closed_neg x : P x → P (- x)%S;
  closed_min x y : P x → P y → P (smin x y);
  closed_max x y : P x → P y → P (smax x y);
  closed_tanh x : P x → P (stanh x);
  closed_elu x : P x → P (selu x);
}.

(** [P] is kept by the convolution. *)
Class ConvClosed : Prop := {
  closed_conv3d c x : all_conv c → all5 x → all5 (conv3d c x);
}.

End predicates.

(** Every parameter and hyperparameter that one call of [train] reads
    before its first optimizer step satisfies [P]. *)
Definition all_trainer {T : Type} `{!Scalar T, !Conv3dPrim T, !Runtime T}
    (P : T → Prop) (self : TD3.t T) : Prop :=
  all_critic P (TD3.critic self) ∧ all_critic P (TD3.critic_target self)
  ∧ all_actor P (TD3.actor_target self)
  ∧ P (TD3.max_action self) ∧ P (TD3.discount self)
  ∧ P (TD3.policy_noise self) ∧ P (TD3.noise_clip self).

(** ** Scalars as real numbers with one non-finite value *)

(** [None] stands for every non-finite value (an infinity or NaN); the
    arithmetic is exact, every operation is strict in [None], and dividing
    by zero gives [None].  Rounding and overflow are not part of this
    interpretation. *)
Definition xreal : Type := option R.

Definition xlift2 (f : R → R → R) (x y : xreal) : xreal :=
  match x, y with
  | Some a, Some b => Some (f a b)
  | _, _ => None
  end.

Definition xdiv (x y : xreal) : xreal :=
  match x, y with
  | Some a, Some b => if Req_dec_T b 0 then None else Some (a / b)%R
  | _, _ => None
  end.

(** [F.elu] with its default [alpha = 1]. *)
Definition elu (x : R) : R := if Rlt_dec 0 x then x else (exp x - 1)%R.

Global Instance xreal_scalar : Scalar xreal := {|
  szero := Some 0%R;
  sone := Some 1%R;
  sadd := xlift2 Rplus;
  ssub := xlift2 Rminus;
  smul := xlift2 Rmult;
  sdiv := xdiv;
  sneg := fmap Ropp;
  smin := xlift2 Rmin;
  smax := xlift2 Rmax;
  stanh := fmap tanh;
  selu := fmap elu;
  sof_nat := λ n, Some (INR n);
|}.

Definition finite (x : xreal) : Prop := is_Some x.

(** [x] is a real number of [[-m, m]]. *)
Definition within (m : R) (x : xreal) : Prop :=
  ∃ r, x = Some r ∧ (- m <= r <= m)%R.

(** [x] is a non-negative real number. *)
Definition finite_nonneg (x : xreal) : Prop :=
  ∃ r, x = Some r ∧ (0 <= r)%R.

(** ** A concrete trainer for closed examples *)

(** Modelled from the spec: the logger's [save_model], a collaborator whose
    code is not in the repository's source given here; it "persists a named
    parameter/optimizer snapshot", so the snapshot is stored under the name
    the trainer supplies. *)
Definition spec_logger {T : Type} `{!Scalar T, !Conv3dPrim T, !Runtime T} :
    Logger T :=
  {| save_model := λ blob name _ fs, <[name := blob]> fs |}.

(** A stand-in for the tensor library, for closed examples only: the
    convolution passes its input through, the gradient handed to the
    optimizer is the parameter itself, an optimizer counts its steps and
    leaves the parameters where they are, and the sampler returns zeros. *)
Definition demo_conv : Conv3dPrim xreal := {| conv3d := λ _ x, x |}.

Definition demo_runtime : Runtime xreal := {|
  backward := λ P _ p, p;
  optimizer := λ _, nat;
  Adam := λ P _ _, 0%nat;
  optimizer_step := λ P o p _, (S o, p);
  generator := nat;
  randn_like := λ g t, (map3d (λ _, Some 0%R) t, S g);
|}.

Section example.
Local Existing Instances demo_conv demo_runtime.

(** One agent, three action components, the layer widths of the code, all
    weights [w] and all biases [b]. *)
Definition example_conv (out inp : nat) (w b : R) : Conv3d xreal :=
  {| conv_weight :=
       replicate out (replicate inp (replicate 3 (replicate 3
         (replicate 3 (Some w)))));
     conv_bias := replicate out (Some b);
     conv_stride := 2; conv_padding := 1 |}.

Definition example_linear (out inp : nat) (w b : R) : Linear xreal :=
  {| lin_weight := replicate out (replicate inp (Some w));
     lin_bias := replicate out (Some b) |}.

Definition example_actor (w b : R) : Actor.t xreal :=
  {| Actor.agents := 1;
     Actor.conv1 := example_conv 32 1 w b;
     Actor.conv2 := example_conv 32 32 w b;
     Actor.conv3 := example_conv 32 32 w b;
     Actor.conv4 := example_conv 32 32 w b;
     Actor.actor1 := [example_linear 256 (32 * 3 * 3 * 3) w b];
     Actor.actor2 := [example_linear 3 256 w b];
     Actor.max_action := Some 1%R |}.

Definition example_critic (w b : R) : Critic.t xreal :=
  {| Critic.agents := 1;
     Critic.conv1 := example_conv 32 1 w b;
     Critic.conv2 := example_conv 32 32 w b;
     Critic.conv3 := example_conv 32 32 w b;
     Critic.conv4 := example_conv 32 32 w b;
     Critic.critic_11 := [example_linear 256 (32 * 3 * 3 * 3 + 3) w b];
     Critic.critic_12 := [example_linear 1 256 w b];
     Critic.critic_21 := [example_linear 256 (32 * 3 * 3 * 3 + 3) w b];
     Critic.critic_22 := [example_linear 1 256 w b] |}.

(** A freshly constructed trainer: [max_action = 1], [discount = 99/100],
    [tau = 5/1000], [policy_noise = 2/10], [noise_clip = 5/10]. *)
Definition example_td3 (policy_freq : Z) : TD3.t xreal :=
  TD3.init (example_actor 0 0) (example_critic 0 0)
    (Some 1%R) (Some (99 / 100)%R) (Some (5 / 1000)%R) (Some (2 / 10)%R)
    (Some (5 / 10)%R) policy_freq 1 (Some spec_logger).

(** The same trainer once its target critic has drifted from the live one,
    as it does while training: the biases of the target critic are 1. *)
Definition example_drifted : TD3.t xreal :=
  TD3.set_critic_target (Critic.init (example_critic 0 1) 1) (example_td3 2).

(** One transition, for the pass-through convolution: a state of 864 voxels,
    an action of three components, reward [r]. *)
Definition example_state : list (list (list (list (list xreal)))) :=
  [[ [[ replicate (32 * 3 * 3 * 3) (Some 0%R) ]] ]].

Definition example_batch (r : R) : Batch xreal :=
  {| b_state := example_state;
     b_action := [[ [Some 0%R; Some 0%R; Some 0%R] ]];
     b_next_state := example_state;
     b_reward := [[ [Some r] ]];
     b_not_done := [[ [Some 1%R] ]] |}.

Definition example_buffer (r : R) : ReplayBuffer xreal :=
  {| sample := λ _, example_batch r |}.

End example.

(** ** Runs of operations *)

Section runs.
Context {T : Type} `{!Scalar T, !Conv3dPrim T, !Runtime T}.

(** The trainer after a sequence of operations, each applied to what the
    previous one left. *)
Definition run (ops : list (op T)) (self : TD3.t T) : TD3.t T :=
  foldl (λ self o, step o self) self ops.

Definition is_train (o : op T) : bool :=
  match o with
  | Train _ _ _ => true
  | _ => false
  end.

(** The number of calls of [train] in a sequence of operations. *)
Definition train_calls (ops : list (op T)) : nat :=
  length (filter (λ o, is_train o = true) ops).

End runs.

(** [t[j][k]] of a list of flat tensors, if the position exists. *)
Definition at2 {A} (t : list (list A)) (j k : nat) : option A :=
  match t !! j with
  | Some r => r !! k
  | None => None
  end.

(** ** More concrete data for closed examples *)

Section more_examples.
Local Existing Instances demo_conv demo_runtime.

(** The example trainer as the constructor builds it by default, without a
    logger. *)
Definition example_td3_no_logger : TD3.t xreal :=
  TD3.init (example_actor 0 0) (example_critic 0 0)
    (Some 1%R) (Some (99 / 100)%R) (Some (5 / 1000)%R) (Some (2 / 10)%R)
    (Some (5 / 10)%R) 2 1 None.

(** The example trainer with another smoothing rate [tau]. *)
Definition example_td3_tau (tau : R) : TD3.t xreal :=
  TD3.init (example_actor 0 0) (example_critic 0 0)
    (Some 1%R) (Some (99 / 100)%R) (Some tau) (Some (2 / 10)%R)
    (Some (5 / 10)%R) 1 1 (Some spec_logger).

(** An actor for two agents whose heads for the second agent have weights
    [w] and biases [b]. *)
Definition example_actor_two_agents (w b : R) : Actor.t xreal :=
  {| Actor.agents := 2;
     Actor.conv1 := example_conv 32 1 0 0;
     Actor.conv2 := example_conv 32 32 0 0;
     Actor.conv3 := example_conv 32 32 0 0;
     Actor.conv4 := example_conv 32 32 0 0;
     Actor.actor1 :=
       [example_linear 256 (32 * 3 * 3 * 3) 0 0;
        example_linear 256 (32 * 3 * 3 * 3) w b];
     Actor.actor2 := [example_linear 3 256 0 0; example_linear 3 256 w b];
     Actor.max_action := Some 1%R |}.

(** A critic of another architecture: one output row more in the first
    layer of the first head. *)
Definition example_critic_wider : Critic.t xreal :=
  {| Critic.agents := 1;
     Critic.conv1 := example_conv 32 1 0 0;
     Critic.conv2 := example_conv 32 32 0 0;
     Critic.conv3 := example_conv 32 32 0 0;
     Critic.conv4 := example_conv 32 32 0 0;
     Critic.critic_11 := [example_linear 257 (32 * 3 * 3 * 3 + 3) 0 0];
     Critic.critic_12 := [example_linear 1 257 0 0];
     Critic.critic_21 := [example_linear 256 (32 * 3 * 3 * 3 + 3) 0 0];
     Critic.critic_22 := [example_linear 1 256 0 0] |}.

(** A terminal transition: [not_done = 0]. *)
Definition example_terminal_batch (r : R) : Batch xreal :=
  {| b_state := example_state;
     b_action := [[ [Some 0%R; Some 0%R; Some 0%R] ]];
     b_next_state := example_state;
     b_reward := [[ [Some r] ]];
     b_not_done := [[ [Some 0%R] ]] |}.

(** The trainer with smoothing rate [tau] and [policy_freq = 1] once the
    biases of its target critic have drifted to 1. *)
Definition example_drifted_tau (tau : R) : TD3.t xreal :=
  TD3.set_critic_target (Critic.init (example_critic 0 1) 1)
    (example_td3_tau tau).

(** The same trainer with a live critic whose parameters are all
    non-finite, as after a diverged optimizer step. *)
Definition example_diverged : TD3.t xreal :=
  let self := example_td3_tau (5 / 1000) in
  TD3.set_critic (TD3.critic_optimizer self)
    (Critic.zip_parameters (λ _ _, None) (TD3.critic self) (TD3.critic self))
    self.

(** The four snapshots of [example_td3 1] under the names that [load] reads
    for the prefix ["ckpt"]. *)
Definition example_checkpoint : files xreal :=
  <["ckpt_critic" :=
      CriticSnapshot (Critic.state_dict (TD3.critic (example_td3 1)))]>
    (<["ckpt_critic_optimizer" :=
         CriticOptimizerSnapshot (TD3.critic_optimizer (example_td3 1))]>
       (<["ckpt_actor" :=
            ActorSnapshot (Actor.state_dict (TD3.actor (example_td3 1)))]>
          (<["ckpt_actor_optimizer" :=
               ActorOptimizerSnapshot (TD3.actor_optimizer (example_td3 1))]>
             ∅))).


(** A critic with one non-finite parameter: the first weight of the output
    layer of its first head. *)
Definition example_critic_non_finite : Critic.t xreal :=
  {| Critic.agents := 1;
     Critic.conv1 := example_conv 32 1 0 0;
     Critic.conv2 := example_conv 32 32 0 0;
     Critic.conv3 := example_conv 32 32 0 0;
     Critic.conv4 := example_conv 32 32 0 0;
     Critic.critic_11 := [example_linear 256 (32 * 3 * 3 * 3 + 3) 0 0];
     Critic.critic_12 :=
       [{| lin_weight := [None :: replicate 255 (Some 0%R)];
           lin_bias := [Some 0%R] |}];
     Critic.critic_21 := [example_linear 256 (32 * 3 * 3 * 3 + 3) 0 0];
     Critic.critic_22 := [example_linear 1 256 0 0] |}.


Definition example_td3_non_finite_critic : TD3.t xreal :=
  TD3.init (example_actor 0 0) example_critic_non_finite
    (Some 1%R) (Some (99 / 100)%R) (Some (5 / 1000)%R) (Some (2 / 10)%R)
    (Some (5 / 10)%R) 2 1 (Some spec_logger).

(** One state for two agents, after [unsqueeze(2)]: the first agent observes
    zeros, the second agent voxels of value [v]. *)
Definition example_two_agent_state (v : R) : list (list (volume xreal)) :=
  unsqueeze2
    [[ [[ replicate (32 * 3 * 3 * 3) (Some 0%R) ]];
       [[ replicate (32 * 3 * 3 * 3) (Some v) ]] ]].

End more_examples.

(** * Properties *)

(** ** Elementwise access to nested tensors *)

Section tensor_facts.
Context {T : Type} `{!Scalar T}.

Lemma at3_map3d {A B} (f : A → B) (t : list (list (list A))) b i k :
  at3 (map3d f t) b i k = f <$> at3 t b i k.
Proof.
  unfold at3, map3d, map2d. rewrite !list_lookup_fmap.
  destruct (t !! b) as [m|]; simpl; [|done].
  rewrite list_lookup_fmap. destruct (m !! i) as [r|]; simpl; [|done].
  by rewrite list_lookup_fmap.
Qed.

Lemma at3_zip3d {A B C} (f : A → B → C) s t b i k :
  at3 (zip3d f s t) b i k =
    match at3 s b i k, at3 t b i k with
    | Some x, Some y => Some (f x y)
    | _, _ => None
    end.
Proof.
  unfold at3, zip3d, zip2d. rewrite lookup_zip_with.
  destruct (s !! b) as [m|]; simpl; [|done].
  destruct (t !! b) as [m'|]; simpl.
  2:{ destruct (m !! i) as [r|]; simpl; [|done]. by destruct (r !! k). }
  rewrite lookup_zip_with.
  destruct (m !! i) as [r|]; simpl; [|done].
  destruct (m' !! i) as [r'|]; simpl.
  2:{ by destruct (r !! k). }
  rewrite lookup_zip_with. by destruct (r !! k).
Qed.

Lemma at2_zip_with {A B C} (f : A → B → C) (s : list (list A))
    (t : list (list B)) j k :
  at2 (zip_with (zip_with f) s t) j k =
    match at2 s j k, at2 t j k with
    | Some x, Some y => Some (f x y)
    | _, _ => None
    end.
Proof.
  unfold at2. rewrite lookup_zip_with.
  destruct (s !! j) as [r|]; simpl; [|done].
  destruct (t !! j) as [r'|]; simpl; [|by destruct (r !! k)].
  rewrite lookup_zip_with.
  destruct (r !! k); simpl; [|done]. by destruct (r' !! k).
Qed.

Lemma all3_at3 {A} (P : A → Prop) (t : list (list (list A))) b i k x :
  Forall (Forall (Forall P)) t → at3 t b i k = Some x → P x.
Proof.
  unfold at3. intros Ht E.
  destruct (t !! b) as [m|] eqn:Eb; [|done].
  destruct (m !! i) as [r|] eqn:Ei; [|done].
  eapply Forall_lookup_1; [|exact E].
  eapply Forall_lookup_1; [|exact Ei].
  by eapply Forall_lookup_1.
Qed.

End tensor_facts.

(** ** The two entry points of the Critic *)

Section critic_facts.
Context {T : Type} `{!Scalar T, !Conv3dPrim T}.

(** The loop of [Critic.forward] keeps, in its first accumulator, what the
    loop of [Critic.Q1] accumulates. *)
Lemma forward_loop_fst (self : Critic.t T) state action idx q1_s q2_s :
  (foldl (λ '((q1_s, q2_s) : list (list (list T)) * list (list (list T)))
            (i : nat),
      let act := select1 i action in
      let x := select1 i state in
      let x := map5d selu (conv3d (Critic.conv1 self) x) in
      let x := map5d selu (conv3d (Critic.conv2 self) x) in
      let x := map5d selu (conv3d (Critic.conv3 self) x) in
      let x := map5d selu (conv3d (Critic.conv4 self) x) in
      let x := view_rows (32 * 3 * 3 * 3) x in
      let sa := cat1 x act in
      let q1 := linear (Critic.critic_11 self !!! i) sa in
      let q1 := linear (Critic.critic_12 self !!! i) q1 in
      let q2 := linear (Critic.critic_21 self !!! i) sa in
      let q2 := linear (Critic.critic_22 self !!! i) q2 in
      (q1_s ++ [q1], q2_s ++ [q2]))
    (q1_s, q2_s) idx).1
  = foldl (λ (q1_s : list (list (list T))) (i : nat),
      let act := select1 i action in
      let x := select1 i state in
      let x := map5d selu (conv3d (Critic.conv1 self) x) in
      let x := map5d selu (conv3d (Critic.conv2 self) x) in
      let x := map5d selu (conv3d (Critic.conv3 self) x) in
      let x := map5d selu (conv3d (Critic.conv4 self) x) in
      let x := view_rows (32 * 3 * 3 * 3) x in
      let sa := cat1 x act in
      let q1 := linear (Critic.critic_11 self !!! i) sa in
      let q1 := linear (Critic.critic_12 self !!! i) q1 in
      q1_s ++ [q1])
    q1_s idx.
Proof.
  revert q1_s q2_s. induction idx as [|i idx IH]; intros q1_s q2_s; [done|].
  cbn [foldl]. apply IH.
Qed.

(** C10: [Critic.Q1] returns the first component of [Critic.forward], for
    every state, action and parameter setting. *)
Theorem Q1_is_first_head (self : Critic.t T) state action :
  Critic.Q1 self state action = (Critic.forward self state action).1.
Proof.
  unfold Critic.Q1, Critic.forward.
  rewrite <- (forward_loop_fst self state action _ [] []).
  by destruct (foldl _ _ _).
Qed.

End critic_facts.

(** ** One call of [TD3.train] *)

Section train_facts.
Context {T : Type} `{!Scalar T, !Conv3dPrim T, !Runtime T}.
Implicit Types (self : TD3.t T) (g : generator) (batch : Batch T).

Lemma optimize_critic_total_it self batch tq :
  TD3.total_it (TD3.optimize_critic self batch tq) = TD3.total_it self
  ∧ TD3.policy_freq (TD3.optimize_critic self batch tq) = TD3.policy_freq self.
Proof. unfold TD3.optimize_critic. by destruct (optimizer_step _ _ _). Qed.

(** [TD3.train] in one equation: what it leaves and returns, by the value of
    [total_it % policy_freq]. *)
Lemma train_unfold self g replay_buffer batch_size :
  let batch := sample replay_buffer batch_size in
  let draw := randn_like g (b_action batch) in
  let self0 := TD3.set_total_it (TD3.total_it self + 1) self in
  let target_Q := TD3.bootstrapped_target self batch draw.1 in
  let loss := TD3.critic_loss batch target_Q (TD3.critic self) in
  let self1 := TD3.optimize_critic self0 batch target_Q in
  TD3.train self g replay_buffer batch_size =
    match py_mod (TD3.total_it self + 1) (TD3.policy_freq self) with
    | None => (self1, draw.2, Raised ZeroDivisionError)
    | Some r =>
        if decide (r = 0%Z)
        then (TD3.update_targets (TD3.optimize_actor self1 batch), draw.2,
              Returned loss)
        else (self1, draw.2, Returned loss)
    end.
Proof.
  intros batch draw self0 target_Q loss self1.
  unfold TD3.train. fold batch. fold draw. destruct draw as [eps g'].
  cbn [fst snd]. fold self0.
  change (TD3.train_target_Q self0 batch (TD3.train_reward self0 batch)
            (TD3.train_next_action self0 batch (TD3.train_noise self0 eps)))
    with target_Q.
  fold self1.
  destruct (optimize_critic_total_it self0 batch target_Q) as [E1 E2].
  fold self1 in E1, E2. rewrite E1, E2. done.
Qed.

Lemma optimize_critic_eq self batch tq :
  TD3.optimize_critic self batch tq =
    let critic_step :=
      optimizer_step (TD3.critic_optimizer self) (TD3.critic self)
        (backward (TD3.critic_loss batch tq) (TD3.critic self)) in
    TD3.set_critic critic_step.1 critic_step.2 self.
Proof. unfold TD3.optimize_critic. by destruct (optimizer_step _ _ _). Qed.

Lemma optimize_actor_eq self batch :
  TD3.optimize_actor self batch =
    let actor_step :=
      optimizer_step (TD3.actor_optimizer self) (TD3.actor self)
        (backward (TD3.actor_loss batch (TD3.critic self)) (TD3.actor self)) in
    TD3.set_actor actor_step.1 actor_step.2 self.
Proof. unfold TD3.optimize_actor. by destruct (optimizer_step _ _ _). Qed.

(** The trainer after a call, field by field. *)
Lemma train_fields self g replay_buffer batch_size :
  let batch := sample replay_buffer batch_size in
  let target_Q :=
    TD3.bootstrapped_target self batch (randn_like g (b_action batch)).1 in
  let critic_step :=
    optimizer_step (TD3.critic_optimizer self) (TD3.critic self)
      (backward (TD3.critic_loss batch target_Q) (TD3.critic self)) in
  let actor_step :=
    optimizer_step (TD3.actor_optimizer self) (TD3.actor self)
      (backward (TD3.actor_loss batch critic_step.2) (TD3.actor self)) in
  let self' := (TD3.train self g replay_buffer batch_size).1.1 in
  TD3.total_it self' = (TD3.total_it self + 1)%Z
  ∧ TD3.critic self' = critic_step.2
  ∧ TD3.critic_optimizer self' = critic_step.1
  ∧ (py_mod (TD3.total_it self + 1) (TD3.policy_freq self) = Some 0%Z →
      TD3.actor self' = actor_step.2
      ∧ TD3.actor_optimizer self' = actor_step.1
      ∧ TD3.critic_target self' =
          Critic.zip_parameters (lerp (TD3.tau self)) critic_step.2
            (TD3.critic_target self)
      ∧ TD3.actor_target self' =
          Actor.zip_parameters (lerp (TD3.tau self)) actor_step.2
            (TD3.actor_target self))
  ∧ (py_mod (TD3.total_it self + 1) (TD3.policy_freq self) ≠ Some 0%Z →
      TD3.actor self' = TD3.actor self
      ∧ TD3.actor_optimizer self' = TD3.actor_optimizer self
      ∧ TD3.critic_target self' = TD3.critic_target self
      ∧ TD3.actor_target self' = TD3.actor_target self).
Proof.
  intros batch target_Q critic_step actor_step self'.
  subst self'. rewrite train_unfold. fold batch. fold target_Q.
  rewrite optimize_actor_eq, optimize_critic_eq.
  unfold TD3.update_targets.
  destruct (py_mod _ _) as [r|]; [destruct (decide (r = 0%Z)) as [->|]|];
    cbn; repeat split; try done; try congruence.
Qed.

(** A call leaves the hyperparameters and the logger alone. *)
Lemma train_hyperparameters self g replay_buffer batch_size :
  let self' := (TD3.train self g replay_buffer batch_size).1.1 in
  TD3.max_action self' = TD3.max_action self
  ∧ TD3.discount self' = TD3.discount self
  ∧ TD3.tau self' = TD3.tau self
  ∧ TD3.policy_noise self' = TD3.policy_noise self
  ∧ TD3.noise_clip self' = TD3.noise_clip self
  ∧ TD3.policy_freq self' = TD3.policy_freq self
  ∧ TD3.logger self' = TD3.logger self.
Proof.
  cbn zeta. rewrite train_unfold.
  rewrite optimize_actor_eq, optimize_critic_eq. unfold TD3.update_targets.
  by destruct (py_mod _ _) as [r|]; [destruct (decide (r = 0%Z))|].
Qed.

Lemma py_mod_2 (n : Z) :
  (n `mod` 2 = 0)%Z →
  py_mod (n + 1) 2 ≠ Some 0%Z ∧ py_mod (n + 1 + 1) 2 = Some 0%Z.
Proof.
  intros Hn. unfold py_mod. rewrite decide_False by done. split.
  - intros [= E]. revert Hn E. Z.div_mod_to_equations. lia.
  - f_equal. revert Hn. Z.div_mod_to_equations. lia.
Qed.

(** With [policy_freq = 2] and an even counter, of two successive calls the
    first steps the critic only and the second steps critic, actor and both
    targets. *)
Lemma two_calls self g rb1 n1 rb2 n2 :
  TD3.policy_freq self = 2%Z →
  (TD3.total_it self `mod` 2 = 0)%Z →
  let call1 := TD3.train self g rb1 n1 in
  let self1 := call1.1.1 in
  let call2 := TD3.train self1 call1.1.2 rb2 n2 in
  let self2 := call2.1.1 in
  let batch1 := sample rb1 n1 in
  let batch2 := sample rb2 n2 in
  let target1 :=
    TD3.bootstrapped_target self batch1 (randn_like g (b_action batch1)).1 in
  let target2 :=
    TD3.bootstrapped_target self1 batch2
      (randn_like call1.1.2 (b_action batch2)).1 in
  (TD3.actor self1 = TD3.actor self
   ∧ TD3.actor_target self1 = TD3.actor_target self
   ∧ TD3.critic_target self1 = TD3.critic_target self
   ∧ TD3.critic self1 =
       (optimizer_step (TD3.critic_optimizer self) (TD3.critic self)
          (backward (TD3.critic_loss batch1 target1) (TD3.critic self))).2)
  ∧ (TD3.critic self2 =
       (optimizer_step (TD3.critic_optimizer self1) (TD3.critic self1)
          (backward (TD3.critic_loss batch2 target2) (TD3.critic self1))).2
     ∧ TD3.actor self2 =
         (optimizer_step (TD3.actor_optimizer self) (TD3.actor self)
            (backward (TD3.actor_loss batch2 (TD3.critic self2))
               (TD3.actor self))).2
     ∧ TD3.critic_target self2 =
         Critic.zip_parameters (lerp (TD3.tau self)) (TD3.critic self2)
           (TD3.critic_target self)
     ∧ TD3.actor_target self2 =
         Actor.zip_parameters (lerp (TD3.tau self)) (TD3.actor self2)
           (TD3.actor_target self)).
Proof.
  intros Hfreq Heven. cbn zeta.
  destruct (py_mod_2 _ Heven) as [Hodd Hdue].
  destruct (train_fields self g rb1 n1) as (Hit1 & Hc1 & _ & _ & Hskip).
  destruct (train_hyperparameters self g rb1 n1)
    as (_ & _ & Htau & _ & _ & Hpf & _).
  rewrite Hfreq in Hskip. destruct (Hskip Hodd) as (Ha1 & Hao1 & Hct1 & Hat1).
  set (self1 := (TD3.train self g rb1 n1).1.1) in *.
  set (g1 := (TD3.train self g rb1 n1).1.2) in *.
  destruct (train_fields self1 g1 rb2 n2) as (_ & Hc2 & _ & Hdo & _).
  rewrite Hpf, Hfreq, Hit1 in Hdo.
  destruct (Hdo Hdue) as (Ha2 & _ & Hct2 & Hat2).
  set (self2 := (TD3.train self1 g1 rb2 n2).1.1) in *.
  split; [by repeat split|].
  rewrite Hc2. repeat split.
  - rewrite Ha2. by rewrite Hao1, Ha1.
  - rewrite Hct2. by rewrite Htau, Hct1.
  - rewrite Hat2, Ha2. by rewrite Htau, Hat1, Hao1, Ha1.
Qed.

(** C3: every call increments [total_it] by one and steps the critic; the
    actor step and the soft update of both targets happen exactly on the
    calls whose incremented counter satisfies
    [total_it % policy_freq == 0], all other calls leaving actor and targets
    unchanged; with [policy_freq = 2], of two successive calls from an even
    counter the second one alone updates actor and targets, and both update
    the critic. *)
Theorem delayed_policy_updates :
  (∀ self g replay_buffer batch_size,
    let batch := sample replay_buffer batch_size in
    let target_Q :=
      TD3.bootstrapped_target self batch (randn_like g (b_action batch)).1 in
    let critic_step :=
      optimizer_step (TD3.critic_optimizer self) (TD3.critic self)
        (backward (TD3.critic_loss batch target_Q) (TD3.critic self)) in
    let actor_step :=
      optimizer_step (TD3.actor_optimizer self) (TD3.actor self)
        (backward (TD3.actor_loss batch critic_step.2) (TD3.actor self)) in
    let self' := (TD3.train self g replay_buffer batch_size).1.1 in
    TD3.total_it self' = (TD3.total_it self + 1)%Z
    ∧ TD3.critic self' = critic_step.2
    ∧ TD3.critic_optimizer self' = critic_step.1
    ∧ (py_mod (TD3.total_it self') (TD3.policy_freq self) = Some 0%Z →
        TD3.actor self' = actor_step.2
        ∧ TD3.actor_optimizer self' = actor_step.1
        ∧ TD3.critic_target self' =
            Critic.zip_parameters (lerp (TD3.tau self)) (TD3.critic self')
              (TD3.critic_target self)
        ∧ TD3.actor_target self' =
            Actor.zip_parameters (lerp (TD3.tau self)) (TD3.actor self')
              (TD3.actor_target self))
    ∧ (py_mod (TD3.total_it self') (TD3.policy_freq self) ≠ Some 0%Z →
        TD3.actor self' = TD3.actor self
        ∧ TD3.actor_optimizer self' = TD3.actor_optimizer self
        ∧ TD3.critic_target self' = TD3.critic_target self
        ∧ TD3.actor_target self' = TD3.actor_target self))
  ∧ (∀ self g rb1 n1 rb2 n2,
    TD3.policy_freq self = 2%Z →
    (TD3.total_it self `mod` 2 = 0)%Z →
    let call1 := TD3.train self g rb1 n1 in
    let self1 := call1.1.1 in
    let call2 := TD3.train self1 call1.1.2 rb2 n2 in
    let self2 := call2.1.1 in
    let batch1 := sample rb1 n1 in
    let batch2 := sample rb2 n2 in
    let target1 :=
      TD3.bootstrapped_target self batch1 (randn_like g (b_action batch1)).1 in
    let target2 :=
      TD3.bootstrapped_target self1 batch2
        (randn_like call1.1.2 (b_action batch2)).1 in
    (TD3.actor self1 = TD3.actor self
     ∧ TD3.actor_target self1 = TD3.actor_target self
     ∧ TD3.critic_target self1 = TD3.critic_target self
     ∧ TD3.critic self1 =
         (optimizer_step (TD3.critic_optimizer self) (TD3.critic self)
            (backward (TD3.critic_loss batch1 target1) (TD3.critic self))).2)
    ∧ (TD3.critic self2 =
         (optimizer_step (TD3.critic_optimizer self1) (TD3.critic self1)
            (backward (TD3.critic_loss batch2 target2) (TD3.critic self1))).2
       ∧ TD3.actor self2 =
           (optimizer_step (TD3.actor_optimizer self) (TD3.actor self)
              (backward (TD3.actor_loss batch2 (TD3.critic self2))
                 (TD3.actor self))).2
       ∧ TD3.critic_target self2 =
           Critic.zip_parameters (lerp (TD3.tau self)) (TD3.critic self2)
             (TD3.critic_target self)
       ∧ TD3.actor_target self2 =
           Actor.zip_parameters (lerp (TD3.tau self)) (TD3.actor self2)
             (TD3.actor_target self))).
Proof.
  split.
  - intros self g replay_buffer batch_size.
    destruct (train_fields self g replay_buffer batch_size)
      as (Hit & Hc & Ho & Hdo & Hskip).
    cbn zeta. rewrite Hit, Hc. do 3 (split; [done|]). split; [|done].
    intros Hdue. destruct (Hdo Hdue) as (Ha & Hao & Hct & Hat).
    by rewrite Ha.
  - apply two_calls.
Qed.

(** What a call returns: the critic loss against the bootstrapped target,
    unless [policy_freq] is zero. *)
Lemma train_outcome self g replay_buffer batch_size :
  let batch := sample replay_buffer batch_size in
  let target_Q :=
    TD3.bootstrapped_target self batch (randn_like g (b_action batch)).1 in
  (TD3.train self g replay_buffer batch_size).2 =
    match py_mod (TD3.total_it self + 1) (TD3.policy_freq self) with
    | None => Raised ZeroDivisionError
    | Some _ => Returned (TD3.critic_loss batch target_Q (TD3.critic self))
    end.
Proof.
  cbn zeta. rewrite train_unfold.
  by destruct (py_mod _ _) as [r|]; [destruct (decide (r = 0%Z))|].
Qed.

Lemma at3_train_noise self eps b i k :
  at3 (TD3.train_noise self eps) b i k =
    Spec.noise (TD3.policy_noise self) (TD3.noise_clip self) <$> at3 eps b i k.
Proof.
  unfold TD3.train_noise. rewrite !at3_map3d. by destruct (at3 eps b i k).
Qed.

Lemma at3_train_next_action self batch noise b i k :
  at3 (TD3.train_next_action self batch noise) b i k =
    match
      at3 (Actor.forward (TD3.actor_target self)
             (unsqueeze2 (b_next_state batch))) b i k,
      at3 noise b i k
    with
    | Some mu, Some z => Some (Spec.next_action (TD3.max_action self) mu z)
    | _, _ => None
    end.
Proof.
  unfold TD3.train_next_action. rewrite at3_map3d, at3_zip3d.
  by destruct (at3 (Actor.forward _ _) b i k), (at3 noise b i k).
Qed.

Lemma at3_train_reward self batch b i k :
  at3 (TD3.train_reward self batch) b i k =
    Spec.clamped_reward (TD3.max_action self) <$> at3 (b_reward batch) b i k.
Proof. unfold TD3.train_reward. by rewrite at3_map3d. Qed.

Lemma at3_train_target_Q self batch reward next_action b i k :
  let q :=
    Critic.forward (TD3.critic_target self) (unsqueeze2 (b_next_state batch))
      next_action in
  at3 (TD3.train_target_Q self batch reward next_action) b i k =
    match
      at3 reward b i k, at3 (b_not_done batch) b i k,
      at3 q.1 b i k, at3 q.2 b i k
    with
    | Some r, Some nd, Some q1, Some q2 =>
        Some (Spec.target_Q r nd (TD3.discount self) q1 q2)
    | _, _, _, _ => None
    end.
Proof.
  intros q. unfold TD3.train_target_Q. fold q. destruct q as [q1 q2].
  rewrite !at3_zip3d, at3_map3d. cbn [fst snd].
  by destruct (at3 reward b i k), (at3 (b_not_done batch) b i k),
    (at3 q1 b i k), (at3 q2 b i k).
Qed.

(** C1: the bootstrapped target of a call.  Elementwise, the noise is the
    Gaussian sample scaled by [policy_noise] and clamped to
    [[-noise_clip, noise_clip]]; the next action is the target Actor's output
    on [next_state] plus that noise, clamped to [[-max_action, max_action]];
    the target is [reward + not_done * discount * min(Q1, Q2)] of the target
    Critic at that action.  The call uses this target as a constant: the
    returned loss and the gradient of the critic step are those of
    [critic_loss batch target_Q], a function of the live critic alone. *)
Theorem target_value_computation self g replay_buffer batch_size b i k :
  let batch := sample replay_buffer batch_size in
  let eps := (randn_like g (b_action batch)).1 in
  let noise := TD3.train_noise self eps in
  let next_action := TD3.train_next_action self batch noise in
  let mu :=
    Actor.forward (TD3.actor_target self) (unsqueeze2 (b_next_state batch)) in
  let q :=
    Critic.forward (TD3.critic_target self) (unsqueeze2 (b_next_state batch))
      next_action in
  let target_Q := TD3.bootstrapped_target self batch eps in
  at3 noise b i k =
    Spec.noise (TD3.policy_noise self) (TD3.noise_clip self) <$> at3 eps b i k
  ∧ at3 next_action b i k =
      match at3 mu b i k, at3 noise b i k with
      | Some m, Some z => Some (Spec.next_action (TD3.max_action self) m z)
      | _, _ => None
      end
  ∧ at3 target_Q b i k =
      match
        at3 (TD3.train_reward self batch) b i k,
        at3 (b_not_done batch) b i k, at3 q.1 b i k, at3 q.2 b i k
      with
      | Some r, Some nd, Some q1, Some q2 =>
          Some (Spec.target_Q r nd (TD3.discount self) q1 q2)
      | _, _, _, _ => None
      end
  ∧ (TD3.train self g replay_buffer batch_size).2 =
      match py_mod (TD3.total_it self + 1) (TD3.policy_freq self) with
      | None => Raised ZeroDivisionError
      | Some _ => Returned (TD3.critic_loss batch target_Q (TD3.critic self))
      end
  ∧ TD3.critic (TD3.train self g replay_buffer batch_size).1.1 =
      (optimizer_step (TD3.critic_optimizer self) (TD3.critic self)
         (backward (TD3.critic_loss batch target_Q) (TD3.critic self))).2.
Proof.
  intros batch eps noise next_action mu q target_Q.
  split; [apply at3_train_noise|].
  split; [apply at3_train_next_action|].
  split; [apply at3_train_target_Q|].
  split; [apply train_outcome|].
  by destruct (train_fields self g replay_buffer batch_size) as (_ & -> & _).
Qed.

(** A call reads the sampled reward through its clamp only: two buffers whose
    samples differ in the reward alone, with the same clamped reward, give
    the same call. *)
Lemma train_reward_clamped_only self g rb rb' n :
  b_state (sample rb' n) = b_state (sample rb n) →
  b_action (sample rb' n) = b_action (sample rb n) →
  b_next_state (sample rb' n) = b_next_state (sample rb n) →
  b_not_done (sample rb' n) = b_not_done (sample rb n) →
  TD3.train_reward self (sample rb' n) = TD3.train_reward self (sample rb n) →
  TD3.train self g rb' n = TD3.train self g rb n.
Proof.
  intros Hs Ha Hns Hnd Hr. rewrite !train_unfold.
  destruct (sample rb n) as [st ac ns r nd], (sample rb' n) as [st' ac' ns' r' nd'].
  cbn in Hs, Ha, Hns, Hnd. subst st' ac' ns' nd'.
  rewrite !optimize_actor_eq, !optimize_critic_eq.
  unfold TD3.bootstrapped_target. rewrite Hr.
  done.
Qed.

(** C5: the sampled reward is clamped elementwise into
    [[-max_action, max_action]]; the target is formed from the clamped
    value; and the raw reward is used nowhere else in the call. *)
Theorem reward_clamped_before_use :
  (∀ self g replay_buffer batch_size b i k,
    let batch := sample replay_buffer batch_size in
    let eps := (randn_like g (b_action batch)).1 in
    let next_action :=
      TD3.train_next_action self batch (TD3.train_noise self eps) in
    let q :=
      Critic.forward (TD3.critic_target self)
        (unsqueeze2 (b_next_state batch)) next_action in
    at3 (TD3.train_reward self batch) b i k =
      Spec.clamped_reward (TD3.max_action self) <$> at3 (b_reward batch) b i k
    ∧ at3 (TD3.bootstrapped_target self batch eps) b i k =
        match
          at3 (b_reward batch) b i k, at3 (b_not_done batch) b i k,
          at3 q.1 b i k, at3 q.2 b i k
        with
        | Some raw, Some nd, Some q1, Some q2 =>
            Some (Spec.target_Q
                    (Spec.clamped_reward (TD3.max_action self) raw) nd
                    (TD3.discount self) q1 q2)
        | _, _, _, _ => None
        end)
  ∧ (∀ self g rb rb' n,
    b_state (sample rb' n) = b_state (sample rb n) →
    b_action (sample rb' n) = b_action (sample rb n) →
    b_next_state (sample rb' n) = b_next_state (sample rb n) →
    b_not_done (sample rb' n) = b_not_done (sample rb n) →
    map3d (Spec.clamped_reward (TD3.max_action self)) (b_reward (sample rb' n))
      = map3d (Spec.clamped_reward (TD3.max_action self))
          (b_reward (sample rb n)) →
    TD3.train self g rb' n = TD3.train self g rb n).
Proof.
  split.
  - intros self g replay_buffer batch_size b i k batch eps next_action q.
    split; [apply at3_train_reward|].
    unfold TD3.bootstrapped_target. fold next_action.
    rewrite at3_train_target_Q. fold q. rewrite at3_train_reward.
    by destruct (at3 (b_reward batch) b i k).
  - intros self g rb rb' n Hs Ha Hns Hnd Hr.
    by apply train_reward_clamped_only.
Qed.

(** C9: action selection is a function of the live actor and the input state
    alone, and draws nothing from the random generator; a call of [train]
    depends on the generator only through the one sample it draws with
    [randn_like], and leaves the generator as that draw left it. *)
Theorem stochasticity_confined_to_noise :
  (∀ (self1 self2 : TD3.t T) state,
    TD3.actor self1 = TD3.actor self2 →
    TD3.select_action self1 state = TD3.select_action self2 state
    ∧ TD3.select_action self1 state =
        squeeze0 (Actor.forward (TD3.actor self1) state))
  ∧ (∀ self g1 g2 replay_buffer batch_size,
    let action := b_action (sample replay_buffer batch_size) in
    (randn_like g1 action).1 = (randn_like g2 action).1 →
    (TD3.train self g1 replay_buffer batch_size).1.1 =
      (TD3.train self g2 replay_buffer batch_size).1.1
    ∧ (TD3.train self g1 replay_buffer batch_size).2 =
        (TD3.train self g2 replay_buffer batch_size).2
    ∧ (TD3.train self g1 replay_buffer batch_size).1.2 =
        (randn_like g1 action).2).
Proof.
  split.
  - intros self1 self2 state Hactor. unfold TD3.select_action.
    by rewrite Hactor.
  - intros self g1 g2 replay_buffer batch_size action Heps.
    rewrite !train_unfold. fold action. rewrite Heps.
    by destruct (py_mod _ _) as [r|]; [destruct (decide (r = 0%Z))|].
Qed.

End train_facts.

(** ** Shapes *)

Section shape_facts.
Context {T : Type} `{!Scalar T}.

Lemma fmap_eq_Forall2 {A B C} (f : A → C) (g : B → C) (R : A → B → Prop)
    (l : list A) (k : list B) :
  (∀ a b, f a = g b → R a b) → f <$> l = g <$> k → Forall2 R l k.
Proof.
  intros HR. revert k. induction l as [|a l IH]; intros [|b k] E;
    try done; simplify_eq/=.
  constructor; auto.
Qed.

Lemma Forall2_concat_rel {A B} (R : A → B → Prop) x y :
  Forall2 (Forall2 R) x y → Forall2 R (concat x) (concat y).
Proof. induction 1; simpl; [constructor|]. by apply Forall2_app. Qed.

Lemma concat_zip_with {A B C} (f : A → B → C) (R : A → B → Prop)
    (x : list (list A)) (y : list (list B)) :
  Forall2 (Forall2 R) x y →
  concat (zip_with (zip_with f) x y) = zip_with f (concat x) (concat y).
Proof.
  induction 1 as [|a b x y Hab _ IH]; simpl; [done|].
  rewrite zip_with_app by by eapply Forall2_length. by rewrite IH.
Qed.

(** Where [f] gives back its first argument on related elements, so does
    [zip_with f] on related lists. *)
Lemma zip_with_first {A B} (f : A → B → A) (R : A → B → Prop) l k :
  (∀ a b, R a b → f a b = a) → Forall2 R l k → zip_with f l k = l.
Proof. intros Hf. induction 1; simpl; [done|]. f_equal; auto. Qed.

(** Where [f] keeps the shape of its second argument on related elements,
    so does [zip_with f] on related lists. *)
Lemma erase_zip_with {A B C D} (e : C → D) (e' : B → D) (f : A → B → C)
    (R : A → B → Prop) l k :
  (∀ a b, R a b → e (f a b) = e' b) →
  Forall2 R l k → e <$> zip_with f l k = e' <$> k.
Proof. intros Hf. induction 1; simpl; [done|]. f_equal; auto. Qed.

Lemma shape1_Forall2 (l k : list T) :
  shape1 l = shape1 k → Forall2 (λ _ _, True) l k.
Proof. by apply fmap_eq_Forall2. Qed.

Lemma shape2_Forall2 (l k : list (list T)) :
  shape2 l = shape2 k → Forall2 (Forall2 (λ _ _, True)) l k.
Proof. apply fmap_eq_Forall2. intros a b. apply shape1_Forall2. Qed.

Lemma shape5_Forall2 (l k : list (volume T)) :
  shape5 l = shape5 k →
  Forall2 (Forall2 (Forall2 (Forall2 (Forall2 (λ _ _, True))))) l k.
Proof.
  unfold shape5, map5d, map3d, map2d.
  do 5 (apply fmap_eq_Forall2; intros ? ?). done.
Qed.

Lemma flatten5_zip5d (f : T → T → T) (x y : list (volume T)) :
  shape5 x = shape5 y →
  flatten5 (zip5d f x y) = zip_with f (flatten5 x) (flatten5 y).
Proof.
  intros H%shape5_Forall2. unfold flatten5, zip5d, zip3d, zip2d.
  erewrite concat_zip_with by done.
  apply Forall2_concat_rel in H. erewrite concat_zip_with by done.
  apply Forall2_concat_rel in H. erewrite concat_zip_with by done.
  apply Forall2_concat_rel in H. by erewrite concat_zip_with.
Qed.

Lemma conv_parameters_zip (f : T → T → T) (c d : Conv3d T) :
  conv_shape c = conv_shape d →
  conv_parameters (conv_zip f c d) =
    zip_with (zip_with f) (conv_parameters c) (conv_parameters d).
Proof.
  intros [= Hw Hb]. unfold conv_parameters, conv_zip.
  cbn [conv_weight conv_bias]. by rewrite flatten5_zip5d.
Qed.

Lemma linear_parameters_zip (f : T → T → T) (l k : Linear T) :
  linear_shape l = linear_shape k →
  linear_parameters (linear_zip f l k) =
    zip_with (zip_with f) (linear_parameters l) (linear_parameters k).
Proof.
  intros [= Hw%shape2_Forall2 Hb]. unfold linear_parameters, linear_zip, zip2d.
  cbn [lin_weight lin_bias]. by erewrite concat_zip_with.
Qed.

Lemma linears_parameters_zip (f : T → T → T) (ls ks : list (Linear T)) :
  linear_shape <$> ls = linear_shape <$> ks →
  zip_with (linear_zip f) ls ks ≫= linear_parameters =
    zip_with (zip_with f) (ls ≫= linear_parameters) (ks ≫= linear_parameters).
Proof.
  intros H. apply (fmap_eq_Forall2 _ _ (λ l k, linear_shape l = linear_shape k))
    in H; [|done].
  induction H as [|l k ls ks Hlk _ IH]; [done|].
  cbn [zip_with]. rewrite !bind_cons, IH, zip_with_app by done.
  by rewrite linear_parameters_zip.
Qed.

(** Shapes of the combined layers: those of the second argument. *)
Lemma shape1_zip (f : T → T → T) (l k : list T) :
  shape1 l = shape1 k → shape1 (zip_with f l k) = shape1 k.
Proof.
  intros H%shape1_Forall2. unfold shape1. by eapply erase_zip_with.
Qed.

Lemma shape2_zip (f : T → T → T) (l k : list (list T)) :
  shape2 l = shape2 k → shape2 (zip2d f l k) = shape2 k.
Proof.
  intros H. unfold shape2, zip2d.
  eapply (erase_zip_with _ _ _ (λ a b, shape1 a = shape1 b)).
  - intros a b. apply shape1_zip.
  - by eapply fmap_eq_Forall2.
Qed.

Lemma shape5_zip (f : T → T → T) (l k : list (volume T)) :
  shape5 l = shape5 k → shape5 (zip5d f l k) = shape5 k.
Proof.
  intros H%shape5_Forall2. unfold shape5, map5d, map3d, map2d, zip5d, zip3d, zip2d.
  eapply erase_zip_with; [|exact H]. cbn beta. intros a b Hab.
  eapply erase_zip_with; [|exact Hab]. cbn beta. intros a1 b1 Hab1.
  eapply erase_zip_with; [|exact Hab1]. cbn beta. intros a2 b2 Hab2.
  eapply erase_zip_with; [|exact Hab2]. cbn beta. intros a3 b3 Hab3.
  by eapply erase_zip_with.
Qed.

Lemma conv_shape_zip (f : T → T → T) (c d : Conv3d T) :
  conv_shape c = conv_shape d → conv_shape (conv_zip f c d) = conv_shape d.
Proof.
  intros [= Hw Hb]. unfold conv_shape, conv_zip.
  cbn [conv_weight conv_bias]. by rewrite shape5_zip, shape1_zip.
Qed.

Lemma linear_shape_zip (f : T → T → T) (l k : Linear T) :
  linear_shape l = linear_shape k →
  linear_shape (linear_zip f l k) = linear_shape k.
Proof.
  intros [= Hw Hb]. unfold linear_shape, linear_zip.
  cbn [lin_weight lin_bias]. by rewrite shape2_zip, shape1_zip.
Qed.

Lemma linears_shape_zip (f : T → T → T) (ls ks : list (Linear T)) :
  linear_shape <$> ls = linear_shape <$> ks →
  linear_shape <$> zip_with (linear_zip f) ls ks = linear_shape <$> ks.
Proof.
  intros H. eapply (erase_zip_with _ _ _ (λ l k, linear_shape l = linear_shape k)).
  - intros l k. apply linear_shape_zip.
  - by eapply fmap_eq_Forall2.
Qed.

(** Copying the parameters of [c] over those of a layer [d] of the same
    shape gives [c]'s parameters with [d]'s attributes. *)
Lemma zip5d_first (l k : list (volume T)) :
  shape5 l = shape5 k → zip5d (λ p _, p) l k = l.
Proof.
  intros H%shape5_Forall2. unfold zip5d, zip3d, zip2d.
  eapply zip_with_first; [|exact H]. cbn beta. intros a b Hab.
  eapply zip_with_first; [|exact Hab]. cbn beta. intros a1 b1 Hab1.
  eapply zip_with_first; [|exact Hab1]. cbn beta. intros a2 b2 Hab2.
  eapply zip_with_first; [|exact Hab2]. cbn beta. intros a3 b3 Hab3.
  by eapply zip_with_first.
Qed.

Lemma zip1_first (l k : list T) :
  shape1 l = shape1 k → zip_with (λ p _, p) l k = l.
Proof. intros H%shape1_Forall2. by eapply zip_with_first. Qed.

Lemma zip2d_first (l k : list (list T)) :
  shape2 l = shape2 k → zip2d (λ p _, p) l k = l.
Proof.
  intros H%shape2_Forall2. unfold zip2d.
  eapply zip_with_first; [|exact H]. cbn beta. intros a b Hab.
  by eapply zip_with_first.
Qed.

Lemma conv_zip_first (c d : Conv3d T) :
  conv_shape c = conv_shape d →
  conv_stride c = conv_stride d → conv_padding c = conv_padding d →
  conv_zip (λ p _, p) c d = c.
Proof.
  intros [= Hw Hb] Hs Hp. destruct c, d. unfold conv_zip.
  cbn [conv_weight conv_bias conv_stride conv_padding] in *.
  rewrite zip5d_first, zip1_first by done. by subst.
Qed.

Lemma linears_zip_first (ls ks : list (Linear T)) :
  linear_shape <$> ls = linear_shape <$> ks →
  zip_with (linear_zip (λ p _, p)) ls ks = ls.
Proof.
  intros H. eapply (zip_with_first _ (λ l k, linear_shape l = linear_shape k)).
  - intros [w b] [w' b'] [= Hw Hb]. unfold linear_zip.
    cbn [lin_weight lin_bias] in *. by rewrite zip2d_first, zip1_first.
  - by eapply fmap_eq_Forall2.
Qed.

End shape_facts.

(** ** Parameter-wise updates of the two networks *)

Section network_facts.
Context {T : Type} `{!Scalar T}.

Lemma length_linears_parameters (ls ks : list (Linear T)) :
  linear_shape <$> ls = linear_shape <$> ks →
  length (ls ≫= linear_parameters) = length (ks ≫= linear_parameters).
Proof.
  intros H%(f_equal length). rewrite !length_fmap in H.
  revert ks H. induction ls as [|l ls IH]; intros [|k ks] H; try done.
  rewrite !bind_cons, !length_app. cbn in *. f_equal. f_equal. apply IH. lia.
Qed.

Lemma Critic_parameters_zip (f : T → T → T) (a b : Critic.t T) :
  Critic.shape a = Critic.shape b →
  Critic.parameters (Critic.zip_parameters f a b) =
    zip_with (zip_with f) (Critic.parameters a) (Critic.parameters b).
Proof.
  intros [= H1 H1' H2 H2' H3 H3' H4 H4' H11 H12 H21 H22].
  unfold Critic.parameters, Critic.zip_parameters.
  cbn [Critic.conv1 Critic.conv2 Critic.conv3 Critic.conv4 Critic.critic_11
       Critic.critic_12 Critic.critic_21 Critic.critic_22].
  rewrite !conv_parameters_zip by by unfold conv_shape; f_equal.
  rewrite !linears_parameters_zip by done.
  by rewrite !(zip_with_app (zip_with f))
    by (done || by apply length_linears_parameters).
Qed.

Lemma Actor_parameters_zip (f : T → T → T) (a b : Actor.t T) :
  Actor.shape a = Actor.shape b →
  Actor.parameters (Actor.zip_parameters f a b) =
    zip_with (zip_with f) (Actor.parameters a) (Actor.parameters b).
Proof.
  intros [= H1 H1' H2 H2' H3 H3' H4 H4' Ha1 Ha2].
  unfold Actor.parameters, Actor.zip_parameters.
  cbn [Actor.conv1 Actor.conv2 Actor.conv3 Actor.conv4 Actor.actor1
       Actor.actor2].
  rewrite !conv_parameters_zip by by unfold conv_shape; f_equal.
  rewrite !linears_parameters_zip by done.
  by rewrite !(zip_with_app (zip_with f))
    by (done || by apply length_linears_parameters).
Qed.

Lemma Critic_shape_zip (f : T → T → T) (a b : Critic.t T) :
  Critic.shape a = Critic.shape b →
  Critic.shape (Critic.zip_parameters f a b) = Critic.shape b.
Proof.
  intros [= H1 H1' H2 H2' H3 H3' H4 H4' H11 H12 H21 H22].
  unfold Critic.shape, Critic.zip_parameters.
  cbn [Critic.conv1 Critic.conv2 Critic.conv3 Critic.conv4 Critic.critic_11
       Critic.critic_12 Critic.critic_21 Critic.critic_22].
  rewrite !conv_shape_zip by by unfold conv_shape; f_equal.
  by rewrite !linears_shape_zip.
Qed.

Lemma Actor_shape_zip (f : T → T → T) (a b : Actor.t T) :
  Actor.shape a = Actor.shape b →
  Actor.shape (Actor.zip_parameters f a b) = Actor.shape b.
Proof.
  intros [= H1 H1' H2 H2' H3 H3' H4 H4' Ha1 Ha2].
  unfold Actor.shape, Actor.zip_parameters.
  cbn [Actor.conv1 Actor.conv2 Actor.conv3 Actor.conv4 Actor.actor1
       Actor.actor2].
  rewrite !conv_shape_zip by by unfold conv_shape; f_equal.
  by rewrite !linears_shape_zip.
Qed.

(** Loading a state dict: it succeeds exactly on equal shapes, keeps the
    shapes, and with equal construction-time attributes yields the network
    the snapshot was taken from. *)
Lemma Critic_load_state_dict_Some (self sd c : Critic.t T) :
  Critic.load_state_dict self sd = Some c →
  Critic.shape sd = Critic.shape self ∧ Critic.shape c = Critic.shape self.
Proof.
  unfold Critic.load_state_dict, Critic.same_shape.
  case_bool_decide as Hs; [|done]. intros [= <-].
  split; [done|]. by apply Critic_shape_zip.
Qed.

Lemma Actor_load_state_dict_Some (self sd a : Actor.t T) :
  Actor.load_state_dict self sd = Some a →
  Actor.shape sd = Actor.shape self ∧ Actor.shape a = Actor.shape self.
Proof.
  unfold Actor.load_state_dict, Actor.same_shape.
  case_bool_decide as Hs; [|done]. intros [= <-].
  split; [done|]. by apply Actor_shape_zip.
Qed.

Lemma Critic_load_state_dict_restores (self sd : Critic.t T) :
  Critic.shape sd = Critic.shape self →
  Critic.same_attributes sd self →
  Critic.load_state_dict self sd = Some sd.
Proof.
  intros Hs (Hag & A1 & A2 & A3 & A4 & A5 & A6 & A7 & A8).
  unfold Critic.load_state_dict, Critic.same_shape.
  rewrite bool_decide_eq_true_2 by done. f_equal.
  injection Hs as H1 H1' H2 H2' H3 H3' H4 H4' H11 H12 H21 H22.
  destruct sd. unfold Critic.zip_parameters.
  cbn [Critic.agents Critic.conv1 Critic.conv2 Critic.conv3 Critic.conv4
       Critic.critic_11 Critic.critic_12 Critic.critic_21 Critic.critic_22]
    in *.
  rewrite !conv_zip_first by (done || by unfold conv_shape; f_equal).
  rewrite !linears_zip_first by done. by rewrite <- Hag.
Qed.

Lemma Actor_load_state_dict_restores (self sd : Actor.t T) :
  Actor.shape sd = Actor.shape self →
  Actor.same_attributes sd self →
  Actor.load_state_dict self sd = Some sd.
Proof.
  intros Hs (Hag & Hma & A1 & A2 & A3 & A4 & A5 & A6 & A7 & A8).
  unfold Actor.load_state_dict, Actor.same_shape.
  rewrite bool_decide_eq_true_2 by done. f_equal.
  injection Hs as H1 H1' H2 H2' H3 H3' H4 H4' Ha1 Ha2.
  destruct sd. unfold Actor.zip_parameters.
  cbn [Actor.agents Actor.max_action Actor.conv1 Actor.conv2 Actor.conv3
       Actor.conv4 Actor.actor1 Actor.actor2] in *.
  rewrite !conv_zip_first by (done || by unfold conv_shape; f_equal).
  rewrite !linears_zip_first by done. by rewrite <- Hag, <- Hma.
Qed.

End network_facts.

(** ** Checkpoint loading *)

Section load_facts.
Context {T : Type} `{!Scalar T, !Conv3dPrim T, !Runtime T}.
Implicit Types (self : TD3.t T) (fs : files T).

Ltac run_load :=
  unfold TD3.load, TD3.torch_load, bind, from_option, get, modify, ret, raise;
  repeat (case_match; simplify_eq/=).

(** Whatever [load] does, also when it raises half-way: each target is left
    alone or is a clone of the live network, and the live networks keep
    their shapes. *)
Lemma load_fields fs filename self :
  let self' := (TD3.load fs filename self).1 in
  (TD3.critic_target self' = TD3.critic_target self
   ∨ TD3.critic_target self' = TD3.critic self')
  ∧ (TD3.actor_target self' = TD3.actor_target self
     ∨ TD3.actor_target self' = TD3.actor self')
  ∧ Critic.shape (TD3.critic self') = Critic.shape (TD3.critic self)
  ∧ Actor.shape (TD3.actor self') = Actor.shape (TD3.actor self)
  ∧ TD3.tau self' = TD3.tau self.
Proof.
  cbn zeta. run_load;
    repeat match goal with
    | H : Critic.load_state_dict _ _ = Some _ |- _ =>
        apply Critic_load_state_dict_Some in H as [_ ?]
    | H : Actor.load_state_dict _ _ = Some _ |- _ =>
        apply Actor_load_state_dict_Some in H as [_ ?]
    end; auto 10.
Qed.

End load_facts.

(** ** The target networks over the life of a trainer *)

Section target_facts.
Context {T : Type} `{!Scalar T, !Conv3dPrim T, !Runtime T}.
Context `{!RuntimeLaws T}.
Implicit Types (self : TD3.t T).

Lemma train_same_architecture self g replay_buffer batch_size :
  same_architecture self →
  same_architecture (TD3.train self g replay_buffer batch_size).1.1.
Proof.
  intros [Hc Ha].
  destruct (train_fields self g replay_buffer batch_size)
    as (_ & Ec & _ & Hdo & Hskip).
  set (self' := (TD3.train self g replay_buffer batch_size).1.1) in *.
  assert (Critic.shape (TD3.critic self') = Critic.shape (TD3.critic self))
    as Hc' by (rewrite Ec; apply critic_step_shape).
  destruct (decide (py_mod (TD3.total_it self + 1) (TD3.policy_freq self)
                    = Some 0%Z)) as [Hdue|Hnot].
  - destruct (Hdo Hdue) as (Ea & _ & Ect & Eat).
    assert (Actor.shape (TD3.actor self') = Actor.shape (TD3.actor self))
      as Ha' by (rewrite Ea; apply actor_step_shape).
    split.
    + rewrite Ect, Critic_shape_zip; [congruence|].
      rewrite critic_step_shape. congruence.
    + rewrite Eat, Actor_shape_zip; [congruence|].
      rewrite actor_step_shape. congruence.
  - destruct (Hskip Hnot) as (Ea & _ & Ect & Eat). split; congruence.
Qed.

Lemma load_same_architecture fs filename self :
  same_architecture self →
  same_architecture (TD3.load fs filename self).1.
Proof.
  intros [Hc Ha].
  destruct (load_fields fs filename self) as ([Ec|Ec] & [Ea|Ea] & Hc' & Ha' & _);
    split; congruence.
Qed.

Lemma reachable_same_architecture self :
  reachable self → same_architecture self.
Proof.
  induction 1 as [|o self _ IH]; [done|].
  destruct o; cbn [step]; auto using train_same_architecture,
    load_same_architecture.
Qed.

(** The soft update of a policy-update step, parameter tensor by parameter
    tensor, for live and target networks of equal shapes. *)
Lemma policy_step_targets self g replay_buffer batch_size :
  same_architecture self →
  py_mod (TD3.total_it self + 1) (TD3.policy_freq self) = Some 0%Z →
  let batch := sample replay_buffer batch_size in
  let target_Q :=
    TD3.bootstrapped_target self batch (randn_like g (b_action batch)).1 in
  let self' := (TD3.train self g replay_buffer batch_size).1.1 in
  TD3.critic self' =
    (optimizer_step (TD3.critic_optimizer self) (TD3.critic self)
       (backward (TD3.critic_loss batch target_Q) (TD3.critic self))).2
  ∧ TD3.actor self' =
      (optimizer_step (TD3.actor_optimizer self) (TD3.actor self)
         (backward (TD3.actor_loss batch (TD3.critic self'))
            (TD3.actor self))).2
  ∧ Critic.parameters (TD3.critic_target self') =
      zip_with (zip_with (Spec.soft_update (TD3.tau self)))
        (Critic.parameters (TD3.critic self'))
        (Critic.parameters (TD3.critic_target self))
  ∧ Actor.parameters (TD3.actor_target self') =
      zip_with (zip_with (Spec.soft_update (TD3.tau self)))
        (Actor.parameters (TD3.actor self'))
        (Actor.parameters (TD3.actor_target self))
  ∧ Critic.shape (TD3.critic_target self') =
      Critic.shape (TD3.critic_target self)
  ∧ Actor.shape (TD3.actor_target self') =
      Actor.shape (TD3.actor_target self).
Proof.
  intros [Hc Ha] Hdue. cbn zeta.
  destruct (train_fields self g replay_buffer batch_size)
    as (_ & Ec & _ & Hdo & _).
  destruct (Hdo Hdue) as (Ea & _ & Ect & Eat).
  set (self' := (TD3.train self g replay_buffer batch_size).1.1) in *.
  assert (Critic.shape (TD3.critic self') = Critic.shape (TD3.critic_target self))
    as Hc' by (rewrite Ec, critic_step_shape; congruence).
  assert (Actor.shape (TD3.actor self') = Actor.shape (TD3.actor_target self))
    as Ha' by (rewrite Ea, actor_step_shape; congruence).
  rewrite <- Ec in Ect, Ea, Eat. rewrite <- Ea in Eat.
  split; [done|]. split; [done|]. rewrite Ect, Eat.
  split; [by apply Critic_parameters_zip|].
  split; [by apply Actor_parameters_zip|].
  split; [by apply Critic_shape_zip|by apply Actor_shape_zip].
Qed.

(** C2: on a policy-update step (the incremented counter is a multiple of
    [policy_freq]) of a trainer reached from construction, every parameter
    tensor of the target Critic and of the target Actor ends as
    [tau * live + (1 - tau) * old_target] elementwise, [live] being the live
    network after its optimizer step of this call. *)
Theorem soft_update_on_policy_steps self g replay_buffer batch_size :
  reachable self →
  py_mod (TD3.total_it self + 1) (TD3.policy_freq self) = Some 0%Z →
  let batch := sample replay_buffer batch_size in
  let target_Q :=
    TD3.bootstrapped_target self batch (randn_like g (b_action batch)).1 in
  let self' := (TD3.train self g replay_buffer batch_size).1.1 in
  TD3.critic self' =
    (optimizer_step (TD3.critic_optimizer self) (TD3.critic self)
       (backward (TD3.critic_loss batch target_Q) (TD3.critic self))).2
  ∧ TD3.actor self' =
      (optimizer_step (TD3.actor_optimizer self) (TD3.actor self)
         (backward (TD3.actor_loss batch (TD3.critic self'))
            (TD3.actor self))).2
  ∧ Critic.parameters (TD3.critic_target self') =
      zip_with (zip_with (Spec.soft_update (TD3.tau self)))
        (Critic.parameters (TD3.critic self'))
        (Critic.parameters (TD3.critic_target self))
  ∧ Actor.parameters (TD3.actor_target self') =
      zip_with (zip_with (Spec.soft_update (TD3.tau self)))
        (Actor.parameters (TD3.actor self'))
        (Actor.parameters (TD3.actor_target self))
  ∧ Critic.shape (TD3.critic_target self') =
      Critic.shape (TD3.critic_target self)
  ∧ Actor.shape (TD3.actor_target self') =
      Actor.shape (TD3.actor_target self).
Proof.
  intros Hreach Hdue. apply policy_step_targets; [|done].
  by apply reachable_same_architecture.
Qed.

(** The three ways in which a target network is written.  Construction
    makes both targets clones of the live networks; after that, any
    operation on a reachable trainer leaves a target alone, or ([load] only)
    makes it a clone of the live network, or ([train] on a policy-update
    step only) makes every parameter tensor of it
    [tau * live + (1 - tau) * previous].  The optimizer steps of [train] act
    on the live networks. *)
Lemma target_writes :
  (∀ actor0 critic0 max_action discount tau policy_noise noise_clip
     policy_freq agents logger,
    let self :=
      TD3.init actor0 critic0 max_action discount tau policy_noise noise_clip
        policy_freq agents logger in
    TD3.actor_target self = TD3.actor self
    ∧ TD3.critic_target self = TD3.critic self)
  ∧ (∀ self o,
    reachable self →
    let self' := step o self in
    (TD3.critic_target self' = TD3.critic_target self
     ∨ (∃ fs filename, o = Load fs filename)
       ∧ TD3.critic_target self' = TD3.critic self'
     ∨ (∃ g replay_buffer batch_size, o = Train g replay_buffer batch_size)
       ∧ py_mod (TD3.total_it self + 1) (TD3.policy_freq self) = Some 0%Z
       ∧ Critic.parameters (TD3.critic_target self') =
           zip_with (zip_with (Spec.soft_update (TD3.tau self)))
             (Critic.parameters (TD3.critic self'))
             (Critic.parameters (TD3.critic_target self)))
    ∧ (TD3.actor_target self' = TD3.actor_target self
       ∨ (∃ fs filename, o = Load fs filename)
         ∧ TD3.actor_target self' = TD3.actor self'
       ∨ (∃ g replay_buffer batch_size, o = Train g replay_buffer batch_size)
         ∧ py_mod (TD3.total_it self + 1) (TD3.policy_freq self) = Some 0%Z
         ∧ Actor.parameters (TD3.actor_target self') =
             zip_with (zip_with (Spec.soft_update (TD3.tau self)))
               (Actor.parameters (TD3.actor self'))
               (Actor.parameters (TD3.actor_target self)))
    ∧ (∀ g replay_buffer batch_size,
        o = Train g replay_buffer batch_size →
        ∃ critic_grad actor_grad,
          TD3.critic self' =
            (optimizer_step (TD3.critic_optimizer self) (TD3.critic self)
               critic_grad).2
          ∧ (TD3.actor self' = TD3.actor self
             ∨ TD3.actor self' =
                 (optimizer_step (TD3.actor_optimizer self) (TD3.actor self)
                    actor_grad).2))).
Proof.
  split; [done|]. intros self o Hreach self'.
  destruct o as [g rb n|fs filename|name forced fs|state]; subst self';
    cbn [step].
  - destruct (train_fields self g rb n) as (_ & Ec & _ & Hdo & Hskip).
    destruct (decide (py_mod (TD3.total_it self + 1) (TD3.policy_freq self)
                      = Some 0%Z)) as [Hdue|Hnot].
    + destruct (policy_step_targets self g rb n
                  (reachable_same_architecture self Hreach) Hdue)
        as (_ & Ea & Hct & Hat & _).
      split; [right; right; eauto 10|].
      split; [right; right; eauto 10|].
      intros g' rb' n' [= <- <- <-].
      eexists _, (backward (TD3.actor_loss (sample rb n)
                    (TD3.critic (TD3.train self g rb n).1.1)) (TD3.actor self)).
      split; [exact Ec|right; exact Ea].
    + destruct (Hskip Hnot) as (Ea & _ & Ect & Eat).
      split; [by left|]. split; [by left|].
      intros g' rb' n' [= <- <- <-].
      eexists _, (TD3.actor self). split; [exact Ec|by left].
  - destruct (load_fields fs filename self) as (Hc & Ha & _).
    split; [destruct Hc; eauto 10|]. split; [destruct Ha; eauto 10|]. done.
  - by repeat split; [left|left|].
  - by repeat split; [left|left|].
Qed.

End target_facts.

(** ** Predicates kept by the networks *)

Section closure_facts.
Context {T : Type} `{!Scalar T, !Conv3dPrim T}.

Lemma Forall_zip_with_2 {A B C} (PA : A → Prop) (PB : B → Prop)
    (Q : C → Prop) (f : A → B → C) l k :
  (∀ x y, PA x → PB y → Q (f x y)) →
  Forall PA l → Forall PB k → Forall Q (zip_with f l k).
Proof.
  intros Hf Hl. revert k. induction Hl; intros k Hk; destruct Hk; simpl;
    constructor; auto.
Qed.

Lemma Forall_concat_1 {A} (Q : A → Prop) (l : list (list A)) :
  Forall (Forall Q) l → Forall Q (concat l).
Proof. induction 1; simpl; [constructor|]. by apply Forall_app. Qed.

Lemma Forall_lookup_total {A} `{!Inhabited A} (Q : A → Prop) l i :
  Q inhabitant → Forall Q l → Q (l !!! i).
Proof.
  intros Hd Hl. rewrite list_lookup_total_alt.
  destruct (l !! i) as [x|] eqn:E; simpl; [|done].
  by eapply Forall_lookup_1.
Qed.

Lemma Forall_select1 {A} `{!Inhabited A} (Q : A → Prop) i t :
  Q inhabitant → Forall (Forall Q) t → Forall Q (select1 i t).
Proof.
  intros Hd Ht. unfold select1. apply Forall_fmap.
  eapply Forall_impl; [exact Ht|]. intros row Hrow. cbn.
  by apply Forall_lookup_total.
Qed.

Lemma Forall_stack1 {A} (Q : A → Prop) (ts : list (list A)) :
  Forall (Forall Q) ts → Forall (Forall Q) (stack1 ts).
Proof.
  induction 1 as [|t ts Ht Hts IH]; [constructor|].
  cbn [stack1]. destruct ts as [|t' ts].
  - apply Forall_fmap. eapply Forall_impl; [exact Ht|].
    intros x Hx. cbn. by constructor.
  - eapply Forall_zip_with_2; [|exact Ht|exact IH]. by constructor.
Qed.

Lemma Forall_rows_of {A} (Q : A → Prop) rows n data :
  Forall Q data → Forall (Forall Q) (rows_of rows n data).
Proof.
  revert data. induction rows as [|r IH]; intros data Hd; [constructor|].
  cbn [rows_of]. constructor; [by apply Forall_take|].
  apply IH. by apply Forall_drop.
Qed.

Lemma Forall_foldl_app {A} (Q : A → Prop) (f : nat → A) idx acc :
  (∀ i, Q (f i)) → Forall Q acc →
  Forall Q (foldl (λ acc i, acc ++ [f i]) acc idx).
Proof.
  intros Hf. revert acc. induction idx as [|i idx IH]; intros acc Hacc;
    [done|].
  cbn [foldl]. apply IH. apply Forall_app. split; [done|].
  constructor; [apply Hf|constructor].
Qed.

Lemma foldl_invariant {A B} (I : A → Prop) (f : A → B → A) l a :
  (∀ a b, I a → I (f a b)) → I a → I (foldl f a l).
Proof.
  intros Hf. revert a. induction l as [|b l IH]; intros a Ha; [done|].
  cbn [foldl]. auto.
Qed.

Section with_predicate.
Variable P : T → Prop.
Context `{!Closed P}.

Lemma all3_map3d (Q : T → Prop) (f : T → T) t :
  (∀ x, P x → Q (f x)) → all3 P t → all3 Q (map3d f t).
Proof.
  intros Hf Ht. unfold map3d, map2d.
  apply Forall_fmap. eapply Forall_impl; [exact Ht|]. intros m Hm. cbn.
  apply Forall_fmap. eapply Forall_impl; [exact Hm|]. intros r Hr. cbn.
  apply Forall_fmap. eapply Forall_impl; [exact Hr|]. done.
Qed.

Lemma all3_zip3d (Q : T → Prop) (f : T → T → T) s t :
  (∀ x y, P x → P y → Q (f x y)) →
  all3 P s → all3 P t → all3 Q (zip3d f s t).
Proof.
  intros Hf Hs Ht. unfold zip3d, zip2d.
  eapply Forall_zip_with_2; [|exact Hs|exact Ht]. intros m m' Hm Hm'.
  eapply Forall_zip_with_2; [|exact Hm|exact Hm']. intros r r' Hr Hr'.
  by eapply Forall_zip_with_2.
Qed.

Lemma all5_map5d_elu t : all5 P t → all5 P (map5d selu t).
Proof.
  intros Ht. unfold map5d.
  apply Forall_fmap. eapply Forall_impl; [exact Ht|]. intros v Hv. cbn.
  apply Forall_fmap. eapply Forall_impl; [exact Hv|]. intros w Hw. cbn.
  apply (all3_map3d P); [|done]. intros x Hx. exact (closed_elu P x Hx).
Qed.

Lemma all2_view_rows n t : all5 P t → all2 P (view_rows n t).
Proof.
  intros Ht. unfold view_rows. apply Forall_rows_of. unfold flatten5.
  do 4 apply Forall_concat_1. exact Ht.
Qed.

Lemma closed_ssum l : Forall P l → P (ssum l).
Proof.
  unfold ssum. generalize (closed_zero P). generalize szero.
  intros z Hz Hl. revert z Hz. induction Hl as [|x l Hx _ IH]; intros z Hz;
    [done|].
  cbn [foldl]. apply IH. exact (closed_add P z x Hz Hx).
Qed.

Lemma closed_dot x w : Forall P x → Forall P w → P (dot x w).
Proof.
  intros Hx Hw. apply closed_ssum.
  eapply Forall_zip_with_2; [|exact Hx|exact Hw].
  intros a b Ha Hb. exact (closed_mul P a b Ha Hb).
Qed.

Lemma all2_linear l x : all_linear P l → all2 P x → all2 P (linear l x).
Proof.
  intros [Hw Hb] Hx. unfold linear.
  apply Forall_fmap. eapply Forall_impl; [exact Hx|]. intros row Hrow. cbn.
  eapply Forall_zip_with_2;
    [intros a b Ha Hb'; exact (closed_add P a b Ha Hb')| |exact Hb].
  apply Forall_fmap. eapply Forall_impl; [exact Hw|]. intros w Hw'. cbn.
  by apply closed_dot.
Qed.

Lemma all_linear_lookup_total ls i :
  Forall (all_linear P) ls → all_linear P (ls !!! i).
Proof.
  apply Forall_lookup_total. split; constructor.
Qed.

Lemma all2_cat1 x y : all2 P x → all2 P y → all2 P (cat1 x y).
Proof.
  intros Hx Hy. eapply Forall_zip_with_2; [|exact Hx|exact Hy].
  intros r r' Hr Hr'. apply Forall_app. by split.
Qed.

Lemma all_unsqueeze2 (t : list (list (list (list (list T))))) :
  Forall (Forall (all3 P)) t → Forall (Forall (all_volume P)) (unsqueeze2 t).
Proof.
  intros Ht. unfold unsqueeze2, map2d.
  apply Forall_fmap. eapply Forall_impl; [exact Ht|]. intros row Hrow. cbn.
  apply Forall_fmap. eapply Forall_impl; [exact Hrow|]. intros v Hv. cbn.
  by constructor.
Qed.

Context `{!ConvClosed P}.

(** The shared encoder: four convolutions, each followed by ELU, then the
    flattening into feature rows. *)
Lemma all2_features c1 c2 c3 c4 x :
  all_conv P c1 → all_conv P c2 → all_conv P c3 → all_conv P c4 →
  all5 P x →
  all2 P (view_rows (32 * 3 * 3 * 3)
            (map5d selu (conv3d c4 (map5d selu (conv3d c3
               (map5d selu (conv3d c2 (map5d selu (conv3d c1 x))))))))).
Proof.
  intros H1 H2 H3 H4 Hx. apply all2_view_rows.
  do 4 (apply all5_map5d_elu; apply (closed_conv3d P); [done|]). done.
Qed.

(** The output of the Actor is [max_action * tanh a] for values [a] that
    satisfy [P]. *)
Lemma Actor_forward_all (Q : T → Prop) (a : Actor.t T) state :
  (∀ x, P x → Q (Actor.max_action a * stanh x)%S) →
  all_actor P a → Forall (Forall (all_volume P)) state →
  all3 Q (Actor.forward a state).
Proof.
  intros HQ (H1 & H2 & H3 & H4 & Ha1 & Ha2 & _) Hstate. unfold Actor.forward.
  apply (all3_map3d Q); [done|]. apply Forall_stack1.
  apply (Forall_foldl_app (all2 P)); [|constructor]. intros i.
  do 2 (apply all2_linear; [by apply all_linear_lookup_total|]).
  apply all2_features; try done.
  apply Forall_select1; [constructor|done].
Qed.

Lemma Critic_Q1_all (c : Critic.t T) state action :
  all_critic P c → Forall (Forall (all_volume P)) state → all3 P action →
  all3 P (Critic.Q1 c state action).
Proof.
  intros (H1 & H2 & H3 & H4 & H11 & H12 & H21 & H22) Hstate Haction.
  unfold Critic.Q1. apply Forall_stack1.
  apply (Forall_foldl_app (all2 P)); [|constructor]. intros i.
  do 2 (apply all2_linear; [by apply all_linear_lookup_total|]).
  apply all2_cat1.
  - apply all2_features; try done.
    apply Forall_select1; [constructor|done].
  - apply Forall_select1; [constructor|done].
Qed.

Lemma Critic_forward_all (c : Critic.t T) state action :
  all_critic P c → Forall (Forall (all_volume P)) state → all3 P action →
  all3 P (Critic.forward c state action).1
  ∧ all3 P (Critic.forward c state action).2.
Proof.
  intros (H1 & H2 & H3 & H4 & H11 & H12 & H21 & H22) Hstate Haction.
  unfold Critic.forward.
  match goal with
  | |- context [foldl ?f ?a ?l] =>
      assert (Forall (all2 P) (foldl f a l).1
              ∧ Forall (all2 P) (foldl f a l).2) as Hloop;
      [|destruct (foldl f a l) as [q1_s q2_s]]
  end.
  - apply (foldl_invariant
             (λ acc, Forall (all2 P) acc.1 ∧ Forall (all2 P) acc.2));
      [|by split; constructor].
    intros [q1_s q2_s] i [Hq1 Hq2]. cbn [fst snd] in *.
    assert (all2 P (cat1
      (view_rows (32 * 3 * 3 * 3)
         (map5d selu (conv3d (Critic.conv4 c) (map5d selu
            (conv3d (Critic.conv3 c) (map5d selu (conv3d (Critic.conv2 c)
               (map5d selu (conv3d (Critic.conv1 c)
                  (select1 i state)))))))))) (select1 i action))) as Hsa.
    { apply all2_cat1.
      - apply all2_features; try done.
        apply Forall_select1; [constructor|done].
      - apply Forall_select1; [constructor|done]. }
    split; apply Forall_app; (split; [done|]); (constructor; [|constructor]);
      do 2 (apply all2_linear; [by apply all_linear_lookup_total|]); done.
  - destruct Hloop as [Hq1 Hq2]. cbn [fst snd] in *.
    split; by apply Forall_stack1.
Qed.

End with_predicate.
End closure_facts.

(** ** Predicates kept by the bootstrapped target *)

Section target_closure.
Context {T : Type} `{!Scalar T, !Conv3dPrim T, !Runtime T}.
Variable P : T → Prop.
Context `{!Closed P, !ConvClosed P}.

Lemma closed_clamp lo hi x : P lo → P hi → P x → P (clamp lo hi x).
Proof.
  intros Hlo Hhi Hx. unfold clamp.
  apply (closed_min P); [|done]. by apply (closed_max P).
Qed.

Lemma bootstrapped_target_all (self : TD3.t T) batch eps :
  all_trainer P self → all_batch P batch → all3 P eps →
  all3 P (TD3.bootstrapped_target self batch eps).
Proof.
  intros (_ & Hct & Hat & Hma & Hd & Hpn & Hnc) (_ & _ & Hns & Hr & Hnd) Heps.
  assert (P (- TD3.max_action self)%S) as Hma' by by apply (closed_neg P).
  assert (P (- TD3.noise_clip self)%S) as Hnc' by by apply (closed_neg P).
  unfold TD3.bootstrapped_target, TD3.train_target_Q.
  assert (all3 P (TD3.train_next_action self batch (TD3.train_noise self eps)))
    as Hna.
  { unfold TD3.train_next_action, TD3.train_noise.
    apply (all3_map3d P); [intros x Hx; by apply closed_clamp|].
    apply (all3_zip3d P); [intros x y Hx Hy; by apply (closed_add P)| |].
    - apply (Actor_forward_all P); [|done|by apply all_unsqueeze2].
      intros x Hx. apply (closed_mul P); [|by apply (closed_tanh P)].
      by destruct Hat as (_ & _ & _ & _ & _ & _ & ?).
    - apply (all3_map3d P); [intros x Hx; by apply closed_clamp|].
      apply (all3_map3d P); [|done]. intros x Hx. by apply (closed_mul P). }
  destruct (Critic_forward_all P (TD3.critic_target self)
              (unsqueeze2 (b_next_state batch))
              (TD3.train_next_action self batch (TD3.train_noise self eps)))
    as [Hq1 Hq2]; [done|by apply all_unsqueeze2|done|].
  destruct (Critic.forward _ _ _) as [q1 q2]. cbn [fst snd] in *.
  apply (all3_zip3d P); [intros x y Hx Hy; by apply (closed_add P)| |].
  - unfold TD3.train_reward.
    apply (all3_map3d P); [intros x Hx; by apply closed_clamp|done].
  - apply (all3_zip3d P); [intros x y Hx Hy; by apply (closed_mul P)| |].
    + apply (all3_map3d P); [|done]. intros x Hx. by apply (closed_mul P).
    + by apply (all3_zip3d P); [intros x y Hx Hy; apply (closed_min P)| |].
Qed.

End target_closure.

(** ** The real-number interpretation *)

Section real_facts.
Local Open Scope R_scope.


Global Instance finite_closed : Closed finite.
Proof.
  split; unfold finite; cbn; try done;
    by (intros [x|] [y|] [??] [??] || intros [x|] [??]).
Qed.

Lemma clamp_finite (lo hi x : xreal) :
  finite lo → finite hi → finite x → finite (clamp lo hi x).
Proof.
  intros Hlo Hhi Hx. unfold clamp.
  by apply (closed_min finite); [apply (closed_max finite)|].
Qed.

(** The clamp into [[-m, m]] for [0 <= m] lands there. *)
Lemma clamp_within (m r : R) :
  0 <= m → within m (clamp (- Some m)%S (Some m) (Some r)).
Proof.
  intros Hm. eexists. split; [done|].
  split; [apply Rmin_glb; [|lra]; apply Rmax_r|apply Rmin_r].
Qed.


(** For [tau] in [[0, 1]] the soft update is a convex combination: it lies
    between the old target value and the live value. *)
Lemma soft_update_between (tau p t : R) :
  0 <= tau <= 1 →
  ∃ r, Spec.soft_update (Some tau) (Some p) (Some t) = Some r
       ∧ Rmin p t <= r <= Rmax p t.
Proof.
  intros Htau. exists (tau * p + (1 - tau) * t). split; [done|].
  unfold Rmin, Rmax. destruct (Rle_dec p t); nra.
Qed.

Lemma xreal_add_assoc (x y z : xreal) : (x + (y + z) = x + y + z)%S.
Proof. destruct x, y, z; cbn; try done. f_equal. lra. Qed.

Lemma xreal_add_0_r (x : xreal) : (x + szero = x)%S.
Proof. destruct x; cbn; [|done]. f_equal. lra. Qed.

Lemma xreal_add_0_l (x : xreal) : (szero + x = x)%S.
Proof. destruct x; cbn; [|done]. f_equal. lra. Qed.

(** In exact arithmetic the sum in storage order is the sum. *)
Lemma ssum_foldr (l : list xreal) : ssum l = foldr sadd szero l.
Proof.
  unfold ssum.
  assert (∀ a, foldl sadd a l = (a + foldr sadd szero l)%S) as H.
  { induction l as [|x l IH]; intros a; cbn [foldl foldr].
    - by rewrite xreal_add_0_r.
    - by rewrite IH, xreal_add_assoc. }
  by rewrite H, xreal_add_0_l.
Qed.

Lemma mse_loss_spec (input target : list (list (list xreal))) :
  mse_loss input target = Spec.mean_squared_error input target.
Proof.
  unfold mse_loss, Spec.mean_squared_error, smean. by rewrite ssum_foldr.
Qed.

End real_facts.

(** ** Bounds on actions and on the critic loss *)

Section real_claims.
Context `{!Conv3dPrim xreal, !Runtime xreal, !ConvClosed finite}.
Local Open Scope R_scope.


Lemma finite_nonneg_ssum (l : list xreal) :
  Forall finite_nonneg l → finite_nonneg (ssum l).
Proof.
  unfold ssum. assert (finite_nonneg szero) as Hz by (exists 0; split; [done|lra]).
  revert Hz. generalize (szero : xreal). intros z Hz Hl. revert z Hz.
  induction Hl as [|x l (r & -> & Hr) _ IH]; intros z (a & -> & Ha); [by exists a|].
  cbn [foldl]. apply IH. exists (a + r). split; [done|lra].
Qed.

Lemma finite_nonneg_smean (l : list xreal) :
  l ≠ [] → Forall finite_nonneg l → finite_nonneg (smean l).
Proof.
  intros Hne Hl. destruct (finite_nonneg_ssum l Hl) as (r & E & Hr).
  unfold smean. rewrite E. cbn. unfold xdiv.
  assert (0 < INR (length l)) as Hlen.
  { apply lt_0_INR. destruct l; [done|cbn; lia]. }
  destruct (Req_dec_T _ _) as [E0|_]; [lra|].
  eexists. split; [done|]. apply Rle_mult_inv_pos; lra.
Qed.

Lemma elem_of_concat_2 {A} (l : list (list A)) r x :
  x ∈ r → r ∈ l → x ∈ concat l.
Proof.
  intros Hx Hr. induction l as [|y l IH]; [by apply elem_of_nil in Hr|].
  cbn [concat]. apply elem_of_app.
  apply elem_of_cons in Hr as [<-|Hr]; auto.
Qed.

Lemma at3_flatten3 {A} (t : list (list (list A))) b i k x :
  at3 t b i k = Some x → flatten3 t ≠ [].
Proof.
  unfold at3, flatten3. intros E.
  destruct (t !! b) as [m|] eqn:Eb; [|done].
  destruct (m !! i) as [r|] eqn:Ei; [|done].
  assert (x ∈ concat (concat t)) as Hx.
  { eapply elem_of_concat_2; [by eapply list_elem_of_lookup_2|].
    eapply elem_of_concat_2; by eapply list_elem_of_lookup_2. }
  intros E0. rewrite E0 in Hx. by apply elem_of_nil in Hx.
Qed.

Lemma mse_loss_finite_nonneg (input target : list (list (list xreal))) b i k :
  all3 finite input → all3 finite target →
  is_Some (at3 input b i k) → is_Some (at3 target b i k) →
  finite_nonneg (mse_loss input target).
Proof.
  intros Hin Htg [x Ex] [y Ey]. unfold mse_loss.
  apply finite_nonneg_smean.
  - eapply (at3_flatten3 _ b i k). by rewrite at3_zip3d, Ex, Ey.
  - unfold flatten3. do 2 apply Forall_concat_1.
    apply (all3_zip3d finite); [|done..].
    intros [u|] [v|] [??] [??]; try done.
    exists ((u - v) * (u - v)). split; [done|]. exact (Rle_0_sqr (u - v)).
Qed.

(** C4: as amended.  The value a call returns is the sum of the mean squared
    errors of the two live critic heads on [(state, action)] against the one
    bootstrapped target; for a trainer with finite parameters and
    hyperparameters, a finite batch and a finite noise sample, over
    non-empty tensors, it is a non-negative real number (in exact
    arithmetic: rounding and overflow are not modelled). *)
Theorem critic_loss_finite_nonneg (self : TD3.t xreal) g replay_buffer
    batch_size b i k :
  let batch := sample replay_buffer batch_size in
  let eps := (randn_like g (b_action batch)).1 in
  let target_Q := TD3.bootstrapped_target self batch eps in
  let current_Q :=
    Critic.forward (TD3.critic self) (unsqueeze2 (b_state batch))
      (b_action batch) in
  all_trainer finite self →
  all_batch finite batch →
  all3 finite eps →
  is_Some (at3 current_Q.1 b i k) →
  is_Some (at3 current_Q.2 b i k) →
  is_Some (at3 target_Q b i k) →
  finite_nonneg (Spec.critic_loss current_Q.1 current_Q.2 target_Q)
  ∧ (TD3.train self g replay_buffer batch_size).2 =
      match py_mod (TD3.total_it self + 1) (TD3.policy_freq self) with
      | None => Raised ZeroDivisionError
      | Some _ =>
          Returned (Spec.critic_loss current_Q.1 current_Q.2 target_Q)
      end.
Proof.
  intros batch eps target_Q current_Q Hself Hbatch Heps H1 H2 Ht.
  assert (all3 finite target_Q) as Htarget
    by by apply (bootstrapped_target_all finite).
  destruct (Critic_forward_all finite (TD3.critic self)
              (unsqueeze2 (b_state batch)) (b_action batch))
    as [Hq1 Hq2].
  { by destruct Hself as (? & _). }
  { apply (all_unsqueeze2 finite). by destruct Hbatch as (? & _). }
  { by destruct Hbatch as (_ & ? & _). }
  fold current_Q in Hq1, Hq2. unfold Spec.critic_loss.
  rewrite <- !mse_loss_spec. split.
  - destruct (mse_loss_finite_nonneg current_Q.1 target_Q b i k)
      as (r1 & -> & Hr1); [done..|].
    destruct (mse_loss_finite_nonneg current_Q.2 target_Q b i k)
      as (r2 & -> & Hr2); [done..|].
    exists (r1 + r2). split; [done|lra].
  - rewrite train_outcome. fold batch. fold eps. fold target_Q.
    unfold TD3.critic_loss. fold current_Q. by destruct current_Q.
Qed.

End real_claims.

(** ** The writes to the target networks *)

Section target_invariant.
Context `{!Conv3dPrim xreal, !Runtime xreal, !RuntimeLaws xreal}.
Local Open Scope R_scope.

(** A soft update with [tau] in [[0, 1]] puts every finite parameter
    between the live and the previous target value. *)
Lemma soft_update_parameters_between (rate : xreal) (tau : R)
    (live previous target : list (list xreal)) :
  rate = Some tau →
  0 <= tau <= 1 →
  target = zip_with (zip_with (Spec.soft_update rate)) live previous →
  ∀ j k (p t : R),
    at2 live j k = Some (Some p) →
    at2 previous j k = Some (Some t) →
    ∃ r, at2 target j k = Some (Some r) ∧ Rmin p t <= r <= Rmax p t.
Proof.
  intros -> Htau -> j k p t Hp Ht.
  destruct (soft_update_between tau p t Htau) as (r & Er & Hr).
  exists r. split; [|done]. rewrite at2_zip_with, Hp, Ht. f_equal. exact Er.
Qed.

(** C8: a target network is written in three ways only.  Construction makes
    both targets clones of the live networks; after that, any operation on a
    reachable trainer whose [tau] is in [(0, 1]] leaves a target alone, or
    ([load] only) makes it a clone of the live network, or ([train] on a
    policy-update step only) makes every parameter tensor of it the convex
    combination [tau * live + (1 - tau) * previous], so that every finite
    parameter lands between the live and the previous target value.  The
    optimizer steps of [train] act on the live networks. *)
Theorem target_written_by_clone_or_soft_update :
  (∀ actor0 critic0 max_action discount tau policy_noise noise_clip
     policy_freq agents logger,
    let self : TD3.t xreal :=
      TD3.init actor0 critic0 max_action discount tau policy_noise noise_clip
        policy_freq agents logger in
    TD3.actor_target self = TD3.actor self
    ∧ TD3.critic_target self = TD3.critic self)
  ∧ (∀ (self : TD3.t xreal) o (tau : R),
    reachable self →
    TD3.tau self = Some tau →
    0 < tau <= 1 →
    let self' := step o self in
    (TD3.critic_target self' = TD3.critic_target self
     ∨ (∃ fs filename, o = Load fs filename)
       ∧ TD3.critic_target self' = TD3.critic self'
     ∨ (∃ g replay_buffer batch_size, o = Train g replay_buffer batch_size)
       ∧ py_mod (TD3.total_it self + 1) (TD3.policy_freq self) = Some 0%Z
       ∧ Critic.parameters (TD3.critic_target self') =
           zip_with (zip_with (Spec.soft_update (TD3.tau self)))
             (Critic.parameters (TD3.critic self'))
             (Critic.parameters (TD3.critic_target self))
       ∧ ∀ j k (p t : R),
           at2 (Critic.parameters (TD3.critic self')) j k = Some (Some p) →
           at2 (Critic.parameters (TD3.critic_target self)) j k
             = Some (Some t) →
           ∃ r, at2 (Critic.parameters (TD3.critic_target self')) j k
                = Some (Some r)
                ∧ Rmin p t <= r <= Rmax p t)
    ∧ (TD3.actor_target self' = TD3.actor_target self
       ∨ (∃ fs filename, o = Load fs filename)
         ∧ TD3.actor_target self' = TD3.actor self'
       ∨ (∃ g replay_buffer batch_size, o = Train g replay_buffer batch_size)
         ∧ py_mod (TD3.total_it self + 1) (TD3.policy_freq self) = Some 0%Z
         ∧ Actor.parameters (TD3.actor_target self') =
             zip_with (zip_with (Spec.soft_update (TD3.tau self)))
               (Actor.parameters (TD3.actor self'))
               (Actor.parameters (TD3.actor_target self))
         ∧ ∀ j k (p t : R),
             at2 (Actor.parameters (TD3.actor self')) j k = Some (Some p) →
             at2 (Actor.parameters (TD3.actor_target self)) j k
               = Some (Some t) →
             ∃ r, at2 (Actor.parameters (TD3.actor_target self')) j k
                  = Some (Some r)
                  ∧ Rmin p t <= r <= Rmax p t)
    ∧ (∀ g replay_buffer batch_size,
        o = Train g replay_buffer batch_size →
        ∃ critic_grad actor_grad,
          TD3.critic self' =
            (optimizer_step (TD3.critic_optimizer self) (TD3.critic self)
               critic_grad).2
          ∧ (TD3.actor self' = TD3.actor self
             ∨ TD3.actor self' =
                 (optimizer_step (TD3.actor_optimizer self) (TD3.actor self)
                    actor_grad).2))).
Proof.
  split; [done|]. intros self o tau Hreach Htau Hrange self'.
  assert (0 <= tau <= 1) as Hrange' by lra.
  destruct (proj2 target_writes self o Hreach) as (Hc & Ha & Hopt).
  fold self' in Hc, Ha, Hopt.
  split; [|split; [|exact Hopt]].
  - destruct Hc as [Hc|[Hc|(Hop & Hdue & Hc)]]; [by left|by right; left|].
    right; right. do 3 (split; [done|]).
    by apply (soft_update_parameters_between (TD3.tau self) tau).
  - destruct Ha as [Ha|[Ha|(Hop & Hdue & Ha)]]; [by left|by right; left|].
    right; right. do 3 (split; [done|]).
    by apply (soft_update_parameters_between (TD3.tau self) tau).
Qed.

End target_invariant.

(** ** Checkpoints *)

Section checkpoint_facts.
Context {T : Type} `{!Scalar T, !Conv3dPrim T, !Runtime T}.
Implicit Types (self saved : TD3.t T) (fs : files T).

(** [save] is four calls of the logger, in this order and with these
    snapshots. *)
Lemma save_calls saved lg name forced fs :
  TD3.logger saved = Some lg →
  TD3.save saved name forced fs =
    (save_model lg (ActorOptimizerSnapshot (TD3.actor_optimizer saved))
       (name +:+ "_actor_optimizer.pt") forced
       (save_model lg (ActorSnapshot (Actor.state_dict (TD3.actor saved)))
          (name +:+ "_actor.pt") forced
          (save_model lg
             (CriticOptimizerSnapshot (TD3.critic_optimizer saved))
             (name +:+ "_critic_optimizer.pt") forced
             (save_model lg
                (CriticSnapshot (Critic.state_dict (TD3.critic saved)))
                (name +:+ "_critic.pt") forced fs))),
     Returned tt).
Proof. intros Hlg. unfold TD3.save, bind, from_option. by rewrite Hlg. Qed.

(** X22: without a logger (the default of the constructor) [save] raises
    [AttributeError] at its first statement and writes nothing. *)
Lemma save_without_logger saved name forced fs :
  TD3.logger saved = None →
  TD3.save saved name forced fs = (fs, Raised AttributeError).
Proof. intros Hlg. unfold TD3.save, bind, from_option. by rewrite Hlg. Qed.

(** [load] on files that hold the four snapshots of [saved] under the names
    it reads. *)
Lemma load_unfold saved self fs filename :
  fs !! (filename +:+ "_critic") =
    Some (CriticSnapshot (Critic.state_dict (TD3.critic saved))) →
  fs !! (filename +:+ "_critic_optimizer") =
    Some (CriticOptimizerSnapshot (TD3.critic_optimizer saved)) →
  fs !! (filename +:+ "_actor") =
    Some (ActorSnapshot (Actor.state_dict (TD3.actor saved))) →
  fs !! (filename +:+ "_actor_optimizer") =
    Some (ActorOptimizerSnapshot (TD3.actor_optimizer saved)) →
  Critic.shape (TD3.critic saved) = Critic.shape (TD3.critic self) →
  Critic.same_attributes (TD3.critic saved) (TD3.critic self) →
  Actor.shape (TD3.actor saved) = Actor.shape (TD3.actor self) →
  Actor.same_attributes (TD3.actor saved) (TD3.actor self) →
  TD3.load fs filename self =
    (TD3.set_actor_target (TD3.actor saved)
       (TD3.set_actor (TD3.actor_optimizer saved) (TD3.actor saved)
          (TD3.set_critic_target (TD3.critic saved)
             (TD3.set_critic (TD3.critic_optimizer saved) (TD3.critic saved)
                self))),
     Returned tt).
Proof.
  intros Hc Hco Ha Hao Hcs Hca Has Haa.
  unfold TD3.load, TD3.torch_load, bind, from_option, get, modify, ret.
  rewrite Hc. cbn.
  unfold Critic.state_dict. rewrite Critic_load_state_dict_restores by done.
  cbn. rewrite Hco. cbn. rewrite Ha. cbn.
  unfold Actor.state_dict. rewrite Actor_load_state_dict_restores by done.
  cbn. rewrite Hao. done.
Qed.

(** C7, as the code has it by design: [save] hands the logger exactly four
    snapshots (critic, critic optimizer, actor, actor optimizer); [load]
    restores the live networks and both optimizers from the snapshots stored
    under [<filename>_critic], [<filename>_critic_optimizer],
    [<filename>_actor] and [<filename>_actor_optimizer], and makes both
    targets clones of the restored live networks; [select_action] then agrees
    with the saved trainer on every input, and the next critic gradient
    agrees with the saved trainer's when that trainer's targets were clones
    of its live networks and the hyperparameters are the same. *)
Theorem load_restores_live_networks saved self fs filename :
  fs !! (filename +:+ "_critic") =
    Some (CriticSnapshot (Critic.state_dict (TD3.critic saved))) →
  fs !! (filename +:+ "_critic_optimizer") =
    Some (CriticOptimizerSnapshot (TD3.critic_optimizer saved)) →
  fs !! (filename +:+ "_actor") =
    Some (ActorSnapshot (Actor.state_dict (TD3.actor saved))) →
  fs !! (filename +:+ "_actor_optimizer") =
    Some (ActorOptimizerSnapshot (TD3.actor_optimizer saved)) →
  Critic.shape (TD3.critic saved) = Critic.shape (TD3.critic self) →
  Critic.same_attributes (TD3.critic saved) (TD3.critic self) →
  Actor.shape (TD3.actor saved) = Actor.shape (TD3.actor self) →
  Actor.same_attributes (TD3.actor saved) (TD3.actor self) →
  let self' := (TD3.load fs filename self).1 in
  (∀ lg name forced fs0,
    TD3.logger saved = Some lg →
    ∃ n1 n2 n3 n4,
      TD3.save saved name forced fs0 =
        (save_model lg (ActorOptimizerSnapshot (TD3.actor_optimizer saved))
           n4 forced
           (save_model lg (ActorSnapshot (Actor.state_dict (TD3.actor saved)))
              n3 forced
              (save_model lg
                 (CriticOptimizerSnapshot (TD3.critic_optimizer saved))
                 n2 forced
                 (save_model lg
                    (CriticSnapshot (Critic.state_dict (TD3.critic saved)))
                    n1 forced fs0))),
         Returned tt))
  ∧ (TD3.load fs filename self).2 = Returned tt
  ∧ TD3.critic self' = TD3.critic saved
  ∧ TD3.critic_optimizer self' = TD3.critic_optimizer saved
  ∧ TD3.actor self' = TD3.actor saved
  ∧ TD3.actor_optimizer self' = TD3.actor_optimizer saved
  ∧ TD3.critic_target self' = TD3.critic saved
  ∧ TD3.actor_target self' = TD3.actor saved
  ∧ (∀ state, TD3.select_action self' state = TD3.select_action saved state)
  ∧ (TD3.critic_target saved = TD3.critic saved →
     TD3.actor_target saved = TD3.actor saved →
     TD3.max_action self = TD3.max_action saved →
     TD3.discount self = TD3.discount saved →
     TD3.policy_noise self = TD3.policy_noise saved →
     TD3.noise_clip self = TD3.noise_clip saved →
     ∀ batch eps,
       backward
         (TD3.critic_loss batch (TD3.bootstrapped_target self' batch eps))
         (TD3.critic self')
       = backward
           (TD3.critic_loss batch (TD3.bootstrapped_target saved batch eps))
           (TD3.critic saved)).
Proof.
  intros Hc Hco Ha Hao Hcs Hca Has Haa self'. subst self'.
  rewrite (load_unfold saved) by done. cbn [fst snd].
  split.
  { intros lg name forced fs0 Hlg. eexists _, _, _, _. by apply save_calls. }
  do 8 (split; [done|]).
  intros Hct Hat Hma Hd Hpn Hnc batch eps. f_equal.
  unfold TD3.bootstrapped_target, TD3.train_target_Q, TD3.train_reward,
    TD3.train_next_action, TD3.train_noise. cbn.
  by rewrite Hct, Hat, Hma, Hd, Hpn, Hnc.
Qed.

End checkpoint_facts.

(** ** Closed examples on the concrete trainer *)

Section closed_examples.
Local Existing Instances demo_conv demo_runtime.
Local Open Scope R_scope.

Local Instance demo_runtime_laws : RuntimeLaws xreal.
Proof. by split. Qed.

Local Instance demo_conv_closed : ConvClosed finite.
Proof. by split. Qed.

Lemma example_conv_finite out inp w b : all_conv finite (example_conv out inp w b).
Proof.
  split; unfold example_conv; cbn [conv_weight conv_bias];
    repeat (apply Forall_replicate); by eexists.
Qed.

Lemma example_linear_finite out inp w b :
  all_linear finite (example_linear out inp w b).
Proof.
  split; unfold example_linear; cbn [lin_weight lin_bias];
    repeat (apply Forall_replicate); by eexists.
Qed.

Lemma example_actor_finite w b : all_actor finite (example_actor w b).
Proof.
  unfold all_actor, example_actor.
  cbn [Actor.conv1 Actor.conv2 Actor.conv3 Actor.conv4 Actor.actor1
       Actor.actor2 Actor.max_action].
  do 4 (split; [apply example_conv_finite|]).
  do 2 (split; [apply Forall_singleton, example_linear_finite|]).
  by eexists.
Qed.

Lemma example_critic_finite w b : all_critic finite (example_critic w b).
Proof.
  unfold all_critic, example_critic.
  cbn [Critic.conv1 Critic.conv2 Critic.conv3 Critic.conv4 Critic.critic_11
       Critic.critic_12 Critic.critic_21 Critic.critic_22].
  do 4 (split; [apply example_conv_finite|]).
  do 3 (split; [apply Forall_singleton, example_linear_finite|]).
  apply Forall_singleton, example_linear_finite.
Qed.

(** C7 fails as stated.  After [save] under the prefix ["ckpt"] the files
    hold the four snapshots under names that end in [.pt]; nothing is stored
    under the names the claim gives, and [load] on the same prefix raises
    instead of restoring.  And where the four snapshots of a trainer whose
    target critic has drifted are stored under the names [load] reads,
    [load] succeeds and leaves a target critic that is not the saved one. *)
Lemma save_then_load_same_prefix_fails :
  (let saved := example_td3 2 in
   let fs := (TD3.save saved "ckpt" false ∅).1 in
   (TD3.save saved "ckpt" false ∅).2 = Returned tt
   ∧ fs !! "ckpt_critic.pt" =
       Some (CriticSnapshot (Critic.state_dict (TD3.critic saved)))
   ∧ fs !! "ckpt_critic" = None
   ∧ fs !! "ckpt_critic_optimizer" = None
   ∧ fs !! "ckpt_actor" = None
   ∧ fs !! "ckpt_actor_optimizer" = None
   ∧ TD3.load fs "ckpt" saved = (saved, Raised FileNotFoundError))
  ∧ (let saved := example_drifted in
     let fs : files xreal :=
       <["ckpt_critic" :=
           CriticSnapshot (Critic.state_dict (TD3.critic saved))]>
         (<["ckpt_critic_optimizer" :=
              CriticOptimizerSnapshot (TD3.critic_optimizer saved)]>
            (<["ckpt_actor" :=
                 ActorSnapshot (Actor.state_dict (TD3.actor saved))]>
               (<["ckpt_actor_optimizer" :=
                    ActorOptimizerSnapshot (TD3.actor_optimizer saved)]>
                  ∅))) in
     (TD3.load fs "ckpt" (example_td3 2)).2 = Returned tt
     ∧ TD3.critic_target (TD3.load fs "ckpt" (example_td3 2)).1
       ≠ TD3.critic_target saved).
Proof.
  split.
  - intros saved fs. subst fs.
    rewrite (save_calls saved spec_logger) by done.
    cbn [fst snd spec_logger save_model String.append].
    assert (∀ name, name ≠ "ckpt_critic.pt" →
      name ≠ "ckpt_critic_optimizer.pt" → name ≠ "ckpt_actor.pt" →
      name ≠ "ckpt_actor_optimizer.pt" →
      (<["ckpt_actor_optimizer.pt" :=
           ActorOptimizerSnapshot (TD3.actor_optimizer saved)]>
         (<["ckpt_actor.pt" :=
              ActorSnapshot (Actor.state_dict (TD3.actor saved))]>
            (<["ckpt_critic_optimizer.pt" :=
                 CriticOptimizerSnapshot (TD3.critic_optimizer saved)]>
               (<["ckpt_critic.pt" :=
                    CriticSnapshot (Critic.state_dict (TD3.critic saved))]>
                  (∅ : files xreal))))) !! name = None) as Hnone.
    { intros name H1 H2 H3 H4. unfold files.
      by rewrite !lookup_insert_ne, lookup_empty by done. }
    split; [done|]. split.
    { unfold files. by rewrite !lookup_insert_ne, lookup_insert_eq by done. }
    do 4 (split; [by apply Hnone|]).
    unfold TD3.load, TD3.torch_load, bind, from_option.
    cbn [String.append]. by rewrite Hnone.
  - intros saved fs.
    rewrite (load_unfold saved (example_td3 2) fs "ckpt").
    + split; [done|]. cbn [fst TD3.critic_target TD3.set_actor_target
        TD3.set_actor TD3.set_critic_target].
      intros E.
      apply (f_equal (λ c, lin_bias <$> Critic.critic_12 c)) in E.
      change ([[Some 0]] = [[Some 1]] :> list (list xreal)) in E.
      injection E as E. lra.
    + subst fs. unfold files. apply lookup_insert_eq.
    + subst fs. unfold files. rewrite lookup_insert_ne by (intros [=]).
      apply lookup_insert_eq.
    + subst fs. unfold files.
      do 2 (rewrite lookup_insert_ne by (intros [=])).
      apply lookup_insert_eq.
    + subst fs. unfold files.
      do 3 (rewrite lookup_insert_ne by (intros [=])).
      apply lookup_insert_eq.
    + done.
    + by repeat split.
    + done.
    + by repeat split.
Qed.

(** Witness of [delayed_policy_updates]: the fresh example trainer with
    [policy_freq = 2]. *)
Lemma delayed_policy_updates_witness :
  TD3.policy_freq (example_td3 2) = 2%Z
  ∧ (TD3.total_it (example_td3 2) `mod` 2 = 0)%Z
  ∧ let call1 := TD3.train (example_td3 2) 0%nat (example_buffer 5) 256 in
    let call2 := TD3.train call1.1.1 call1.1.2 (example_buffer 7) 256 in
    TD3.actor call1.1.1 = TD3.actor (example_td3 2)
    ∧ TD3.critic_target call2.1.1 =
        Critic.zip_parameters (lerp (TD3.tau (example_td3 2)))
          (TD3.critic call2.1.1) (TD3.critic_target (example_td3 2)).
Proof.
  split; [reflexivity|]. split; [reflexivity|].
  destruct (proj2 delayed_policy_updates (example_td3 2) 0%nat
              (example_buffer 5) 256%nat (example_buffer 7) 256%nat
              eq_refl eq_refl) as [(Ha & _) (_ & _ & Hct & _)].
  split; [exact Ha|exact Hct].
Defined.

(** Witness of [soft_update_on_policy_steps]: the fresh example trainer with
    [policy_freq = 1], whose first call is a policy-update step. *)
Lemma soft_update_on_policy_steps_witness :
  reachable (example_td3 1)
  ∧ py_mod (TD3.total_it (example_td3 1) + 1) (TD3.policy_freq (example_td3 1))
      = Some 0%Z
  ∧ let self' := (TD3.train (example_td3 1) 0%nat (example_buffer 5) 256).1.1 in
    Critic.parameters (TD3.critic_target self') =
      zip_with (zip_with (Spec.soft_update (TD3.tau (example_td3 1))))
        (Critic.parameters (TD3.critic self'))
        (Critic.parameters (TD3.critic_target (example_td3 1))).
Proof.
  split; [apply reachable_init|]. split; [reflexivity|].
  exact (proj1 (proj2 (proj2 (soft_update_on_policy_steps (example_td3 1)
    0%nat (example_buffer 5) 256%nat (reachable_init _ _ _ _ _ _ _ _ _ _)
    eq_refl)))).
Defined.

Lemma Actor_init_finite drawn m agents :
  all_actor finite drawn → all_actor finite (Actor.init drawn (Some m) agents).
Proof.
  intros (H1 & H2 & H3 & H4 & Ha1 & Ha2 & _). unfold all_actor, Actor.init.
  cbn [Actor.conv1 Actor.conv2 Actor.conv3 Actor.conv4 Actor.actor1
       Actor.actor2 Actor.max_action].
  do 6 (split; [done|]). by eexists.
Qed.

Lemma Critic_init_finite drawn agents :
  all_critic finite drawn → all_critic finite (Critic.init drawn agents).
Proof.
  intros (H1 & H2 & H3 & H4 & H5 & H6 & H7 & H8).
  unfold all_critic, Critic.init.
  cbn [Critic.conv1 Critic.conv2 Critic.conv3 Critic.conv4 Critic.critic_11
       Critic.critic_12 Critic.critic_21 Critic.critic_22].
  by do 7 (split; [done|]).
Qed.

Lemma example_td3_finite policy_freq :
  all_trainer finite (example_td3 policy_freq).
Proof.
  unfold all_trainer, example_td3, TD3.init.
  cbn [TD3.critic TD3.critic_target TD3.actor_target TD3.max_action
       TD3.discount TD3.policy_noise TD3.noise_clip].
  do 2 (split; [apply Critic_init_finite, example_critic_finite|]).
  split; [apply Actor_init_finite, example_actor_finite|].
  repeat split; by eexists.
Qed.

Lemma example_state_finite : Forall (Forall (all3 finite)) example_state.
Proof.
  unfold example_state. do 4 (apply Forall_singleton).
  apply Forall_replicate. by eexists.
Qed.

Lemma example_batch_finite r : all_batch finite (example_batch r).
Proof.
  unfold all_batch, example_batch.
  cbn [b_state b_action b_next_state b_reward b_not_done].
  split; [apply example_state_finite|].
  split; [repeat constructor; by eexists|].
  split; [apply example_state_finite|].
  split; repeat constructor; by eexists.
Qed.

Lemma clamp_xreal (lo hi x : R) :
  clamp (Some lo) (Some hi) (Some x) = Some (Rmin (Rmax x lo) hi).
Proof. reflexivity. Qed.

(** Witness of [reward_clamped_before_use]: rewards 7 and 5 both clamp to
    [max_action = 1]. *)
Lemma reward_clamped_before_use_witness :
  map3d (Spec.clamped_reward (TD3.max_action (example_td3 2)))
    (b_reward (sample (example_buffer 7) 256))
  = map3d (Spec.clamped_reward (TD3.max_action (example_td3 2)))
      (b_reward (sample (example_buffer 5) 256))
  ∧ TD3.train (example_td3 2) 0%nat (example_buffer 7) 256
    = TD3.train (example_td3 2) 0%nat (example_buffer 5) 256.
Proof.
  assert (map3d (Spec.clamped_reward (TD3.max_action (example_td3 2)))
            (b_reward (sample (example_buffer 7) 256))
          = map3d (Spec.clamped_reward (TD3.max_action (example_td3 2)))
              (b_reward (sample (example_buffer 5) 256))) as Hclamp.
  { change ([[ [clamp (Some (- 1)) (Some 1) (Some 7)] ]]
            = [[ [clamp (Some (- 1)) (Some 1) (Some 5)] ]]).
    rewrite !clamp_xreal, !Rmax_left, !Rmin_right by lra. reflexivity. }
  split; [exact Hclamp|].
  exact (proj2 reward_clamped_before_use (example_td3 2) 0%nat
           (example_buffer 5) (example_buffer 7) 256%nat
           eq_refl eq_refl eq_refl eq_refl Hclamp).
Defined.



(** Witness of [critic_loss_finite_nonneg]: one call on the example batch. *)
Lemma critic_loss_finite_nonneg_witness :
  let self := example_td3 2 in
  let batch := sample (example_buffer 5) 256 in
  let eps := (randn_like 0%nat (b_action batch)).1 in
  let target_Q := TD3.bootstrapped_target self batch eps in
  let current_Q :=
    Critic.forward (TD3.critic self) (unsqueeze2 (b_state batch))
      (b_action batch) in
  all_trainer finite self
  ∧ all_batch finite batch
  ∧ all3 finite eps
  ∧ is_Some (at3 current_Q.1 0 0 0)
  ∧ is_Some (at3 current_Q.2 0 0 0)
  ∧ is_Some (at3 target_Q 0 0 0)
  ∧ finite_nonneg (Spec.critic_loss current_Q.1 current_Q.2 target_Q)
  ∧ (TD3.train self 0%nat (example_buffer 5) 256).2
    = Returned (Spec.critic_loss current_Q.1 current_Q.2 target_Q).
Proof.
  intros self batch eps target_Q current_Q.
  assert (all_trainer finite self) as Hself by apply example_td3_finite.
  assert (all_batch finite batch) as Hbatch by apply example_batch_finite.
  assert (all3 finite eps) as Heps by (repeat constructor; by eexists).
  assert (is_Some (at3 current_Q.1 0 0 0)) as H1 by (eexists; reflexivity).
  assert (is_Some (at3 current_Q.2 0 0 0)) as H2 by (eexists; reflexivity).
  assert (is_Some (at3 target_Q 0 0 0)) as Ht by (eexists; reflexivity).
  split; [exact Hself|]. split; [exact Hbatch|]. split; [exact Heps|].
  split; [exact H1|]. split; [exact H2|]. split; [exact Ht|].
  exact (critic_loss_finite_nonneg self 0%nat (example_buffer 5) 256%nat
           0%nat 0%nat 0%nat Hself Hbatch Heps H1 H2 Ht).
Defined.

(** C4 fails as stated.  A finite batch is not enough: with one non-finite
    parameter in the live critic (the first weight of the output layer of
    its first head), on the finite example batch and a finite noise sample,
    over non-empty tensors, the value that [train] returns is not a
    number; the trainer is one the constructor builds. *)
Lemma train_returns_non_finite_loss_on_finite_batch :
  let self := example_td3_non_finite_critic in
  let batch := sample (example_buffer 5) 256 in
  let eps := (randn_like 0%nat (b_action batch)).1 in
  let current_Q :=
    Critic.forward (TD3.critic self) (unsqueeze2 (b_state batch))
      (b_action batch) in
  reachable self
  ∧ all_batch finite batch
  ∧ all3 finite eps
  ∧ is_Some (at3 current_Q.1 0 0 0)
  ∧ is_Some (at3 current_Q.2 0 0 0)
  ∧ is_Some (at3 (TD3.bootstrapped_target self batch eps) 0 0 0)
  ∧ (TD3.train self 0%nat (example_buffer 5) 256).2 = Returned None
  ∧ ¬ finite_nonneg None.
Proof.
  intros self batch eps current_Q.
  split; [apply reachable_init|]. split; [apply example_batch_finite|].
  split; [repeat constructor; by eexists|].
  do 3 (split; [eexists; reflexivity|]).
  split; [reflexivity|]. by intros (r & [=] & _).
Qed.

(** Witness of [load_restores_live_networks]: the four snapshots of one
    example trainer, stored under the names [load] reads, loaded into
    another. *)
Lemma load_restores_live_networks_witness :
  let saved := example_td3 1 in
  let self := example_td3 2 in
  let fs : files xreal :=
    <["ckpt_critic" := CriticSnapshot (Critic.state_dict (TD3.critic saved))]>
      (<["ckpt_critic_optimizer" :=
           CriticOptimizerSnapshot (TD3.critic_optimizer saved)]>
         (<["ckpt_actor" :=
              ActorSnapshot (Actor.state_dict (TD3.actor saved))]>
            (<["ckpt_actor_optimizer" :=
                 ActorOptimizerSnapshot (TD3.actor_optimizer saved)]> ∅))) in
  fs !! "ckpt_critic" =
    Some (CriticSnapshot (Critic.state_dict (TD3.critic saved)))
  ∧ fs !! "ckpt_critic_optimizer" =
      Some (CriticOptimizerSnapshot (TD3.critic_optimizer saved))
  ∧ fs !! "ckpt_actor" =
      Some (ActorSnapshot (Actor.state_dict (TD3.actor saved)))
  ∧ fs !! "ckpt_actor_optimizer" =
      Some (ActorOptimizerSnapshot (TD3.actor_optimizer saved))
  ∧ (TD3.load fs "ckpt" self).2 = Returned tt
  ∧ TD3.critic_target (TD3.load fs "ckpt" self).1 = TD3.critic saved.
Proof.
  intros saved self fs.
  assert (fs !! "ckpt_critic" =
            Some (CriticSnapshot (Critic.state_dict (TD3.critic saved))))
    as Hc by (subst fs; unfold files; apply lookup_insert_eq).
  assert (fs !! "ckpt_critic_optimizer" =
            Some (CriticOptimizerSnapshot (TD3.critic_optimizer saved)))
    as Hco by (subst fs; unfold files;
               rewrite lookup_insert_ne by (intros [=]);
               apply lookup_insert_eq).
  assert (fs !! "ckpt_actor" =
            Some (ActorSnapshot (Actor.state_dict (TD3.actor saved))))
    as Ha by (subst fs; unfold files;
              do 2 (rewrite lookup_insert_ne by (intros [=]));
              apply lookup_insert_eq).
  assert (fs !! "ckpt_actor_optimizer" =
            Some (ActorOptimizerSnapshot (TD3.actor_optimizer saved)))
    as Hao by (subst fs; unfold files;
               do 3 (rewrite lookup_insert_ne by (intros [=]));
               apply lookup_insert_eq).
  do 4 (split; [done|]).
  assert (Critic.same_attributes (TD3.critic saved) (TD3.critic self))
    as Hca by (repeat split).
  assert (Actor.same_attributes (TD3.actor saved) (TD3.actor self))
    as Haa by (repeat split).
  destruct (load_restores_live_networks saved self fs "ckpt" Hc Hco Ha Hao
              eq_refl Hca eq_refl Haa)
    as (_ & Hret & _ & _ & _ & _ & Hct & _).
  split; [exact Hret|exact Hct].
Defined.

(** Witness of [target_written_by_clone_or_soft_update]: the first call of
    [train] on a fresh trainer with [tau = 1/2] and [policy_freq = 1], a
    policy-update step. *)
Lemma target_written_by_clone_or_soft_update_witness :
  let self := example_td3_tau (1 / 2) in
  let o : op xreal := Train 0%nat (example_buffer 5) 256 in
  let self' := step o self in
  RuntimeLaws xreal
  ∧ reachable self
  ∧ TD3.tau self = Some (1 / 2)
  ∧ 0 < 1 / 2 <= 1
  ∧ py_mod (TD3.total_it self + 1) (TD3.policy_freq self) = Some 0%Z
  ∧ TD3.critic_target self = TD3.critic self
  ∧ at2 (Critic.parameters (TD3.critic self')) 1 0 = Some (Some 0)
  ∧ at2 (Critic.parameters (TD3.critic_target self)) 1 0 = Some (Some 0)
  ∧ ∃ r, at2 (Critic.parameters (TD3.critic_target self')) 1 0
         = Some (Some r)
         ∧ Rmin 0 0 <= r <= Rmax 0 0.
Proof.
  intros self o self'.
  assert (0 < 1 / 2 <= 1) as Htau by lra.
  assert (at2 (Critic.parameters (TD3.critic self')) 1 0 = Some (Some 0))
    as Hp by reflexivity.
  assert (at2 (Critic.parameters (TD3.critic_target self)) 1 0
          = Some (Some 0)) as Ht by reflexivity.
  split; [exact demo_runtime_laws|].
  split; [apply reachable_init|].
  split; [reflexivity|]. split; [exact Htau|]. split; [reflexivity|].
  split.
  { exact (proj2 (proj1 target_written_by_clone_or_soft_update
             (example_actor 0 0) (example_critic 0 0) (Some 1)
             (Some (99 / 100)) (Some (1 / 2)) (Some (2 / 10)) (Some (5 / 10))
             1%Z 1%nat (Some spec_logger))). }
  split; [exact Hp|]. split; [exact Ht|].
  destruct (proj1 (proj2 target_written_by_clone_or_soft_update self o
              (1 / 2) (reachable_init _ _ _ _ _ _ _ _ _ _) eq_refl Htau))
    as [Hsame|[[(fs & filename & [=]) _]|(_ & _ & _ & Hbetween)]].
  - exists 0. fold self' in Hsame. rewrite Hsame.
    split; [exact Ht|]. unfold Rmin, Rmax. destruct (Rle_dec 0 0); lra.
  - exact (Hbetween 1%nat 0%nat 0 0 Hp Ht).
Defined.

(** Witness of [stochasticity_confined_to_noise]: two trainers with the same
    live actor, and two generator states that yield the same sample. *)
Lemma stochasticity_confined_to_noise_witness :
  TD3.actor (example_td3 1) = TD3.actor (example_td3 2)
  ∧ (randn_like 0%nat (b_action (sample (example_buffer 5) 256))).1
    = (randn_like 7%nat (b_action (sample (example_buffer 5) 256))).1
  ∧ TD3.select_action (example_td3 1) (unsqueeze2 example_state)
    = TD3.select_action (example_td3 2) (unsqueeze2 example_state)
  ∧ (TD3.train (example_td3 2) 0%nat (example_buffer 5) 256).2
    = (TD3.train (example_td3 2) 7%nat (example_buffer 5) 256).2.
Proof.
  do 2 (split; [reflexivity|]). split.
  - exact (proj1 (proj1 stochasticity_confined_to_noise (example_td3 1)
             (example_td3 2) (unsqueeze2 example_state) eq_refl)).
  - exact (proj1 (proj2 (proj2 stochasticity_confined_to_noise (example_td3 2)
             0%nat 7%nat (example_buffer 5) 256%nat eq_refl))).
Defined.

End closed_examples.

(** * Further properties of the code *)

(** ** Calls of [train]: errors, frames and schedule *)

Section more_train_facts.
Context {T : Type} `{!Scalar T, !Conv3dPrim T, !Runtime T}.
Implicit Types (self : TD3.t T) (g : generator) (batch : Batch T).

(** X1: with [policy_freq = 0] a call of [train] raises
    [ZeroDivisionError], but only at the test [total_it % policy_freq]: by
    then the counter is incremented, the noise is drawn and the critic has
    taken its optimizer step; the actor and both targets are untouched. *)
Theorem train_raises_after_critic_step self g replay_buffer batch_size :
  TD3.policy_freq self = 0%Z →
  let batch := sample replay_buffer batch_size in
  let draw := randn_like g (b_action batch) in
  let target_Q := TD3.bootstrapped_target self batch draw.1 in
  let call := TD3.train self g replay_buffer batch_size in
  call.2 = Raised ZeroDivisionError
  ∧ call.1.2 = draw.2
  ∧ TD3.total_it call.1.1 = (TD3.total_it self + 1)%Z
  ∧ TD3.critic call.1.1 =
      (optimizer_step (TD3.critic_optimizer self) (TD3.critic self)
         (backward (TD3.critic_loss batch target_Q) (TD3.critic self))).2
  ∧ TD3.actor call.1.1 = TD3.actor self
  ∧ TD3.actor_optimizer call.1.1 = TD3.actor_optimizer self
  ∧ TD3.actor_target call.1.1 = TD3.actor_target self
  ∧ TD3.critic_target call.1.1 = TD3.critic_target self.
Proof.
  intros Hpf batch draw target_Q call.
  assert (py_mod (TD3.total_it self + 1) (TD3.policy_freq self) = None) as Hmod
    by (by rewrite Hpf).
  destruct (train_fields self g replay_buffer batch_size)
    as (Hit & Hc & _ & _ & Hskip).
  destruct Hskip as (Ha & Hao & Hct & Hat); [by rewrite Hmod|].
  subst call. split; [by rewrite train_outcome, Hmod|].
  split; [by rewrite train_unfold, Hmod|]. done.
Qed.

(** X2: the critic step of a call and the loss it returns do not read the
    live actor: two trainers that differ in the live actor and its
    optimizer alone take the same critic step and return the same loss. *)
Theorem critic_step_ignores_live_actor self self2 g replay_buffer batch_size :
  TD3.critic self2 = TD3.critic self →
  TD3.critic_optimizer self2 = TD3.critic_optimizer self →
  TD3.critic_target self2 = TD3.critic_target self →
  TD3.actor_target self2 = TD3.actor_target self →
  TD3.max_action self2 = TD3.max_action self →
  TD3.discount self2 = TD3.discount self →
  TD3.policy_noise self2 = TD3.policy_noise self →
  TD3.noise_clip self2 = TD3.noise_clip self →
  TD3.policy_freq self2 = TD3.policy_freq self →
  TD3.total_it self2 = TD3.total_it self →
  let call := TD3.train self g replay_buffer batch_size in
  let call2 := TD3.train self2 g replay_buffer batch_size in
  call2.2 = call.2
  ∧ TD3.critic call2.1.1 = TD3.critic call.1.1
  ∧ TD3.critic_optimizer call2.1.1 = TD3.critic_optimizer call.1.1.
Proof.
  intros Hc Hco Hct Hat Hma Hd Hpn Hnc Hpf Hit call call2. subst call call2.
  assert (∀ batch eps, TD3.bootstrapped_target self2 batch eps
                       = TD3.bootstrapped_target self batch eps) as Htarget.
  { intros batch eps.
    unfold TD3.bootstrapped_target, TD3.train_target_Q, TD3.train_reward,
      TD3.train_next_action, TD3.train_noise.
    by rewrite Hct, Hat, Hma, Hd, Hpn, Hnc. }
  destruct (train_fields self g replay_buffer batch_size)
    as (_ & -> & -> & _).
  destruct (train_fields self2 g replay_buffer batch_size)
    as (_ & -> & -> & _).
  rewrite !train_outcome, Htarget, Hc, Hco, Hpf, Hit. done.
Qed.

End more_train_facts.

(** ** Runs: what no operation changes, and the schedule by call number *)

Section run_facts.
Context {T : Type} `{!Scalar T, !Conv3dPrim T, !Runtime T}.
Implicit Types (self : TD3.t T).

Ltac run_load_paths :=
  unfold TD3.load, TD3.torch_load, bind, from_option, get, modify, ret, raise;
  repeat (case_match; simplify_eq/=).

Lemma load_frame (fs : files T) filename self :
  let self' := (TD3.load fs filename self).1 in
  TD3.total_it self' = TD3.total_it self
  ∧ TD3.max_action self' = TD3.max_action self
  ∧ TD3.discount self' = TD3.discount self
  ∧ TD3.tau self' = TD3.tau self
  ∧ TD3.policy_noise self' = TD3.policy_noise self
  ∧ TD3.noise_clip self' = TD3.noise_clip self
  ∧ TD3.policy_freq self' = TD3.policy_freq self
  ∧ TD3.logger self' = TD3.logger self.
Proof. cbn zeta. by run_load_paths. Qed.

Lemma step_frame (o : op T) self :
  TD3.total_it (step o self) =
    (TD3.total_it self + if is_train o then 1 else 0)%Z
  ∧ TD3.max_action (step o self) = TD3.max_action self
  ∧ TD3.discount (step o self) = TD3.discount self
  ∧ TD3.tau (step o self) = TD3.tau self
  ∧ TD3.policy_noise (step o self) = TD3.policy_noise self
  ∧ TD3.noise_clip (step o self) = TD3.noise_clip self
  ∧ TD3.policy_freq (step o self) = TD3.policy_freq self
  ∧ TD3.logger (step o self) = TD3.logger self.
Proof.
  destruct o as [g rb n|fs filename|name forced fs|state]; cbn [step is_train].
  - destruct (train_fields self g rb n) as (Hit & _).
    destruct (train_hyperparameters self g rb n)
      as (H1 & H2 & H3 & H4 & H5 & H6 & H7).
    by rewrite Hit.
  - destruct (load_frame fs filename self)
      as (H0 & H1 & H2 & H3 & H4 & H5 & H6 & H7).
    rewrite H0, Z.add_0_r. done.
  - by rewrite Z.add_0_r.
  - by rewrite Z.add_0_r.
Qed.

Lemma run_frame (ops : list (op T)) self :
  TD3.total_it (run ops self) =
    (TD3.total_it self + Z.of_nat (train_calls ops))%Z
  ∧ TD3.max_action (run ops self) = TD3.max_action self
  ∧ TD3.discount (run ops self) = TD3.discount self
  ∧ TD3.tau (run ops self) = TD3.tau self
  ∧ TD3.policy_noise (run ops self) = TD3.policy_noise self
  ∧ TD3.noise_clip (run ops self) = TD3.noise_clip self
  ∧ TD3.policy_freq (run ops self) = TD3.policy_freq self
  ∧ TD3.logger (run ops self) = TD3.logger self.
Proof.
  revert self. induction ops as [|o ops IH]; intros self.
  { cbn. by rewrite Z.add_0_r. }
  unfold run in *. cbn [foldl].
  destruct (IH (step o self)) as (H0 & H1 & H2 & H3 & H4 & H5 & H6 & H7).
  destruct (step_frame o self) as (G0 & G1 & G2 & G3 & G4 & G5 & G6 & G7).
  rewrite H0, H1, H2, H3, H4, H5, H6, H7, G0.
  split; [|done]. unfold train_calls. rewrite filter_cons.
  destruct (is_train o); [rewrite decide_True by done|rewrite decide_False by done];
    cbn [length]; lia.
Qed.

(** X3: whatever operations follow the construction of a trainer, in
    whatever order and whether they raise or not, its hyperparameters and
    its logger stay those given to the constructor, and [total_it] is the
    number of calls of [train] made so far: a [load] neither restores nor
    resets the counter. *)
Theorem hyperparameters_and_counter_over_runs (ops : list (op T))
    actor0 critic0 max_action discount tau policy_noise noise_clip
    policy_freq agents logger :
  let self :=
    run ops (TD3.init actor0 critic0 max_action discount tau policy_noise
               noise_clip policy_freq agents logger) in
  TD3.total_it self = Z.of_nat (train_calls ops)
  ∧ TD3.max_action self = max_action
  ∧ TD3.discount self = discount
  ∧ TD3.tau self = tau
  ∧ TD3.policy_noise self = policy_noise
  ∧ TD3.noise_clip self = noise_clip
  ∧ TD3.policy_freq self = policy_freq
  ∧ TD3.logger self = logger.
Proof.
  cbn zeta.
  destruct (run_frame ops (TD3.init actor0 critic0 max_action discount tau
                             policy_noise noise_clip policy_freq agents logger))
    as (H0 & H1 & H2 & H3 & H4 & H5 & H6 & H7).
  rewrite H0, H1, H2, H3, H4, H5, H6, H7. done.
Qed.

Lemma run_counter_and_schedule (ops : list (op T))
    actor0 critic0 max_action discount tau policy_noise noise_clip
    policy_freq agents logger :
  let self :=
    run ops (TD3.init actor0 critic0 max_action discount tau policy_noise
               noise_clip policy_freq agents logger) in
  TD3.total_it self = Z.of_nat (train_calls ops)
  ∧ TD3.tau self = tau
  ∧ TD3.policy_freq self = policy_freq.
Proof.
  cbn zeta.
  destruct (run_frame ops (TD3.init actor0 critic0 max_action discount tau
                             policy_noise noise_clip policy_freq agents logger))
    as (H0 & _ & _ & H3 & _ & _ & H6 & _).
  rewrite H0, H3, H6. done.
Qed.

(** X4: the schedule by call number.  Let a trainer be constructed and then
    used in any way; if [k - 1] calls of [train] were made so far (raising
    ones included), the next call soft-updates the targets when
    [k % policy_freq == 0] and leaves actor and targets unchanged when
    [k % policy_freq] is another number. *)
Theorem kth_call_is_policy_step_iff_policy_freq_divides_k
    (ops : list (op T)) actor0 critic0 max_action discount tau policy_noise
    noise_clip policy_freq agents logger g replay_buffer batch_size :
  let self :=
    run ops (TD3.init actor0 critic0 max_action discount tau policy_noise
               noise_clip policy_freq agents logger) in
  let k := Z.of_nat (train_calls ops + 1) in
  let self' := (TD3.train self g replay_buffer batch_size).1.1 in
  (py_mod k policy_freq = Some 0%Z →
    TD3.critic_target self' =
      Critic.zip_parameters (lerp tau) (TD3.critic self')
        (TD3.critic_target self)
    ∧ TD3.actor_target self' =
        Actor.zip_parameters (lerp tau) (TD3.actor self')
          (TD3.actor_target self))
  ∧ (py_mod k policy_freq ≠ Some 0%Z →
      TD3.actor self' = TD3.actor self
      ∧ TD3.critic_target self' = TD3.critic_target self
      ∧ TD3.actor_target self' = TD3.actor_target self).
Proof.
  intros self k self'.
  destruct (run_counter_and_schedule ops actor0 critic0
              max_action discount tau policy_noise noise_clip policy_freq
              agents logger) as (Hit & Htau & Hpf).
  fold self in Hit, Htau, Hpf.
  destruct (train_fields self g replay_buffer batch_size)
    as (_ & Hc & _ & Hdo & Hskip).
  fold self' in Hc, Hdo, Hskip.
  assert (TD3.total_it self + 1 = k)%Z as Hk by (subst k; lia).
  rewrite Hk, Hpf, Htau in Hdo. rewrite Hk, Hpf in Hskip.
  split.
  - intros Hdue. destruct (Hdo Hdue) as (Ha & _ & Hct & Hat).
    rewrite <- Hc in Hct, Ha. rewrite <- Hc, <- Ha in Hat. done.
  - intros Hnot. destruct (Hskip Hnot) as (Ha & _ & Hct & Hat). done.
Qed.

End run_facts.

(** ** Loading checkpoints: failures and what a load never changes *)

Section more_load_facts.
Context {T : Type} `{!Scalar T, !Conv3dPrim T, !Runtime T}.
Implicit Types (self : TD3.t T) (fs : files T).

Ltac load_paths :=
  unfold TD3.load, TD3.torch_load, bind, from_option, get, modify, ret, raise;
  repeat (case_match; simplify_eq/=).

(** X5: without the file [<filename>_critic] a [load] raises
    [FileNotFoundError] and leaves the trainer as it was. *)
Theorem load_without_critic_file fs filename self :
  fs !! (filename +:+ "_critic") = None →
  TD3.load fs filename self = (self, Raised FileNotFoundError).
Proof.
  intros Hnone. unfold TD3.load, TD3.torch_load, bind, from_option.
  by rewrite Hnone.
Qed.

(** X6: a [load] is not atomic.  Where the critic's file is there and fits
    but the file of its optimizer is missing, the call raises
    [FileNotFoundError] with the live critic already overwritten, while the
    critic's optimizer, the target critic and the whole actor side are still
    the old ones. *)
Theorem load_interrupted_after_critic fs filename self sd c :
  fs !! (filename +:+ "_critic") = Some (CriticSnapshot sd) →
  Critic.load_state_dict (TD3.critic self) sd = Some c →
  fs !! (filename +:+ "_critic_optimizer") = None →
  let self' := (TD3.load fs filename self).1 in
  (TD3.load fs filename self).2 = Raised FileNotFoundError
  ∧ TD3.critic self' = c
  ∧ TD3.critic_optimizer self' = TD3.critic_optimizer self
  ∧ TD3.critic_target self' = TD3.critic_target self
  ∧ TD3.actor self' = TD3.actor self
  ∧ TD3.actor_optimizer self' = TD3.actor_optimizer self
  ∧ TD3.actor_target self' = TD3.actor_target self.
Proof.
  intros Hc Hsd Hco. cbn zeta.
  unfold TD3.load, TD3.torch_load, bind, from_option, get, modify, ret, raise.
  rewrite Hc. cbn. rewrite Hsd. cbn. by rewrite Hco.
Qed.

(** X7: a critic snapshot whose parameter shapes are not those of the
    trainer's critic, or a file that holds another kind of snapshot, makes
    [load] raise [RuntimeError] at its first statement: the critic's
    optimizer, both targets and the whole actor side are as before. *)
Theorem load_rejects_unfit_critic_snapshot fs filename self blob :
  fs !! (filename +:+ "_critic") = Some blob →
  (∀ sd, blob = CriticSnapshot sd →
         Critic.shape sd ≠ Critic.shape (TD3.critic self)) →
  let self' := (TD3.load fs filename self).1 in
  (TD3.load fs filename self).2 = Raised RuntimeError
  ∧ TD3.critic_optimizer self' = TD3.critic_optimizer self
  ∧ TD3.critic_target self' = TD3.critic_target self
  ∧ TD3.actor self' = TD3.actor self
  ∧ TD3.actor_optimizer self' = TD3.actor_optimizer self
  ∧ TD3.actor_target self' = TD3.actor_target self.
Proof.
  intros Hc Hunfit. cbn zeta.
  unfold TD3.load, TD3.torch_load, bind, from_option, get.
  rewrite Hc. cbn. destruct blob as [sd| | |]; try done.
  unfold Critic.load_state_dict, Critic.same_shape.
  rewrite bool_decide_eq_false_2 by by apply Hunfit. done.
Qed.

(** X8: whenever [load] returns normally, whatever the files held, both
    targets are clones of the live networks it leaves. *)
Theorem load_returns_with_cloned_targets fs filename self :
  (TD3.load fs filename self).2 = Returned tt →
  let self' := (TD3.load fs filename self).1 in
  TD3.critic_target self' = TD3.critic self'
  ∧ TD3.actor_target self' = TD3.actor self'.
Proof. cbn zeta. by load_paths. Qed.

Lemma Critic_load_state_dict_attributes (self sd c : Critic.t T) :
  Critic.load_state_dict self sd = Some c → Critic.same_attributes c self.
Proof.
  unfold Critic.load_state_dict. case_match; [|done]. intros [= <-].
  by repeat split.
Qed.

Lemma Actor_load_state_dict_attributes (self sd a : Actor.t T) :
  Actor.load_state_dict self sd = Some a → Actor.same_attributes a self.
Proof.
  unfold Actor.load_state_dict. case_match; [|done]. intros [= <-].
  by repeat split.
Qed.

(** X9: a checkpoint carries parameter tensors only.  Whatever the files
    hold and however the call ends, after a [load] the live networks have
    the number of agents, the [max_action] and the convolution strides and
    paddings they had before; a snapshot taken from a network built with
    another [max_action] does not bring it along. *)
Theorem load_keeps_construction_attributes fs filename self :
  let self' := (TD3.load fs filename self).1 in
  Actor.same_attributes (TD3.actor self') (TD3.actor self)
  ∧ Critic.same_attributes (TD3.critic self') (TD3.critic self).
Proof.
  cbn zeta. load_paths;
    repeat match goal with
    | H : Critic.load_state_dict _ _ = Some _ |- _ =>
        apply Critic_load_state_dict_attributes in H
    | H : Actor.load_state_dict _ _ = Some _ |- _ =>
        apply Actor_load_state_dict_attributes in H
    end;
    (split; [first [assumption|by repeat split]
            |first [assumption|by repeat split]]).
Qed.

End more_load_facts.

(** ** Saving checkpoints *)

Section more_save_facts.
Context {T : Type} `{!Scalar T, !Conv3dPrim T, !Runtime T}.
Implicit Types (self : TD3.t T) (fs : files T).

Lemma append_inj_r (name a b : string) : name +:+ a = name +:+ b → a = b.
Proof. induction name as [|c name IH]; cbn; [done|]. intros [= E]. auto. Qed.

Lemma append_ne (name a b : string) : a ≠ b → name +:+ a ≠ name +:+ b.
Proof. intros Hab E. by apply Hab, (append_inj_r name). Qed.

(** X10: for every prefix the four names [save] hands to the logger are
    pairwise distinct, so with a logger that stores each snapshot under the
    name it is given, no snapshot of a [save] overwrites another: afterwards
    all four are in the files, and every file of another name is as
    before. *)
Theorem save_stores_all_four_snapshots self name forced fs :
  TD3.logger self = Some spec_logger →
  let fs' := (TD3.save self name forced fs).1 in
  (TD3.save self name forced fs).2 = Returned tt
  ∧ fs' !! (name +:+ "_critic.pt") =
      Some (CriticSnapshot (Critic.state_dict (TD3.critic self)))
  ∧ fs' !! (name +:+ "_critic_optimizer.pt") =
      Some (CriticOptimizerSnapshot (TD3.critic_optimizer self))
  ∧ fs' !! (name +:+ "_actor.pt") =
      Some (ActorSnapshot (Actor.state_dict (TD3.actor self)))
  ∧ fs' !! (name +:+ "_actor_optimizer.pt") =
      Some (ActorOptimizerSnapshot (TD3.actor_optimizer self))
  ∧ ∀ other,
      other ≠ name +:+ "_critic.pt" →
      other ≠ name +:+ "_critic_optimizer.pt" →
      other ≠ name +:+ "_actor.pt" →
      other ≠ name +:+ "_actor_optimizer.pt" →
      fs' !! other = fs !! other.
Proof.
  intros Hlg fs'. subst fs'. rewrite (save_calls self spec_logger) by done.
  cbn [fst snd spec_logger save_model]. unfold files in *.
  split; [done|].
  split.
  { rewrite !lookup_insert_ne by (by apply append_ne).
    apply lookup_insert_eq. }
  split.
  { rewrite !lookup_insert_ne by (by apply append_ne).
    apply lookup_insert_eq. }
  split.
  { rewrite lookup_insert_ne by (by apply append_ne).
    apply lookup_insert_eq. }
  split; [apply lookup_insert_eq|].
  intros other H1 H2 H3 H4. by rewrite !lookup_insert_ne.
Qed.

End more_save_facts.

(** ** Bounds that the clamps of [train] give *)

Section more_real_facts.
Context `{!Conv3dPrim xreal, !Runtime xreal, !ConvClosed finite}.
Local Open Scope R_scope.

Lemma train_next_action_finite (self : TD3.t xreal) batch eps :
  all_trainer finite self → all_batch finite batch → all3 finite eps →
  all3 finite (TD3.train_next_action self batch (TD3.train_noise self eps)).
Proof.
  intros (_ & _ & Hat & Hma & _ & Hpn & Hnc) (_ & _ & Hns & _) Heps.
  unfold TD3.train_next_action.
  apply (all3_map3d finite);
    [intros x Hx; apply clamp_finite; [by apply (closed_neg finite)|done..]|].
  apply (all3_zip3d finite);
    [intros x y Hx Hy; by apply (closed_add finite)| |].
  - apply (Actor_forward_all finite); [|done|by apply all_unsqueeze2].
    intros x Hx. apply (closed_mul finite); [|by apply (closed_tanh finite)].
    by destruct Hat as (_ & _ & _ & _ & _ & _ & ?).
  - unfold TD3.train_noise. apply (all3_map3d finite).
    + intros x Hx. apply clamp_finite; [by apply (closed_neg finite)|done..].
    + apply (all3_map3d finite); [|done].
      intros x Hx. by apply (closed_mul finite).
Qed.

(** X11: for finite Gaussian samples and [0 <= noise_clip], every element of
    the smoothing noise added to the target action is a real number of
    [[-noise_clip, noise_clip]], however large the sample or
    [policy_noise]. *)
Theorem smoothing_noise_within_noise_clip (self : TD3.t xreal) eps (pn nc : R) :
  TD3.policy_noise self = Some pn →
  TD3.noise_clip self = Some nc →
  0 <= nc →
  all3 finite eps →
  all3 (within nc) (TD3.train_noise self eps).
Proof.
  intros Hpn Hnc Hpos Heps. unfold TD3.train_noise. rewrite Hpn, Hnc.
  apply (all3_map3d finite).
  - intros x [r ->]. by apply clamp_within.
  - apply (all3_map3d finite); [|done].
    intros x Hx. apply (closed_mul finite); [done|by eexists].
Qed.

(** X12: for [0 <= max_action] and finite rewards, every element of the
    reward that enters the target is a real number of
    [[-max_action, max_action]]. *)
Theorem clamped_reward_within_max_action (self : TD3.t xreal) batch (m : R) :
  TD3.max_action self = Some m →
  0 <= m →
  all3 finite (b_reward batch) →
  all3 (within m) (TD3.train_reward self batch).
Proof.
  intros Hm Hpos Hr. unfold TD3.train_reward. rewrite Hm.
  apply (all3_map3d finite); [|done]. intros x [r ->]. by apply clamp_within.
Qed.

(** X13: the action handed to the target critic is always a valid action:
    for finite parameters, a finite batch and finite samples, and
    [0 <= max_action], every element of it is a real number of
    [[-max_action, max_action]], whatever noise was added. *)
Theorem next_action_within_max_action (self : TD3.t xreal) batch eps (m : R) :
  TD3.max_action self = Some m →
  0 <= m →
  all_trainer finite self →
  all_batch finite batch →
  all3 finite eps →
  all3 (within m)
    (TD3.train_next_action self batch (TD3.train_noise self eps)).
Proof.
  intros Hm Hpos (_ & _ & Hat & _ & _ & Hpn & Hnc) (_ & _ & Hns & _) Heps.
  unfold TD3.train_next_action. rewrite Hm.
  apply (all3_map3d finite); [intros x [r ->]; by apply clamp_within|].
  apply (all3_zip3d finite);
    [intros x y Hx Hy; by apply (closed_add finite)| |].
  - apply (Actor_forward_all finite); [|done|by apply all_unsqueeze2].
    intros x Hx. apply (closed_mul finite); [|by apply (closed_tanh finite)].
    by destruct Hat as (_ & _ & _ & _ & _ & _ & ?).
  - unfold TD3.train_noise.
    apply (all3_map3d finite).
    + intros x Hx. apply clamp_finite; [by apply (closed_neg finite)|done..].
    + apply (all3_map3d finite); [|done].
      intros x Hx. by apply (closed_mul finite).
Qed.

(** X14: bootstrapping stops at the end of an episode.  At a position with
    [not_done = 0] the target is the clamped reward itself, whatever finite
    values the target critic gives there. *)
Theorem terminal_target_is_clamped_reward (self : TD3.t xreal) batch eps
    b i k (r : R) :
  all_trainer finite self →
  all_batch finite batch →
  all3 finite eps →
  at3 (b_reward batch) b i k = Some (Some r) →
  at3 (b_not_done batch) b i k = Some (Some 0) →
  is_Some (at3 (TD3.bootstrapped_target self batch eps) b i k) →
  at3 (TD3.bootstrapped_target self batch eps) b i k =
    Some (Spec.clamped_reward (TD3.max_action self) (Some r)).
Proof.
  intros Hself Hbatch Heps Hr Hnd [v Hv].
  pose proof (train_next_action_finite self batch eps Hself Hbatch Heps)
    as Hna.
  destruct (Critic_forward_all finite (TD3.critic_target self)
              (unsqueeze2 (b_next_state batch))
              (TD3.train_next_action self batch (TD3.train_noise self eps)))
    as [Hq1 Hq2].
  { by destruct Hself as (_ & ? & _). }
  { apply (all_unsqueeze2 finite). by destruct Hbatch as (_ & _ & ? & _). }
  { done. }
  unfold TD3.bootstrapped_target in *.
  rewrite at3_train_target_Q, at3_train_reward, Hr, Hnd in Hv |- *.
  cbn [fmap option_fmap option_map] in Hv |- *.
  destruct (at3 (Critic.forward _ _ _).1 b i k) as [q1|] eqn:E1; [|done].
  destruct (at3 (Critic.forward _ _ _).2 b i k) as [q2|] eqn:E2; [|done].
  destruct (all3_at3 finite _ _ _ _ _ Hq1 E1) as [x1 ->].
  destruct (all3_at3 finite _ _ _ _ _ Hq2 E2) as [x2 ->].
  destruct Hself as (_ & _ & _ & [m Hm] & [d Hd] & _).
  rewrite Hm, Hd. f_equal.
  change (Spec.clamped_reward (Some m) (Some r))
    with (Some (Rmin (Rmax r (- m)) m) : xreal).
  change (Some (Rmin (Rmax r (- m)) m + 0 * d * Rmin x1 x2)
          = Some (Rmin (Rmax r (- m)) m)).
  f_equal. lra.
Qed.

End more_real_facts.

(** ** The soft update, parameter by parameter *)

Section more_soft_update_facts.
Context `{!Conv3dPrim xreal, !Runtime xreal, !RuntimeLaws xreal}.
Local Open Scope R_scope.

(** The element of the new target at a position where the stepped live
    network holds [p] and the old target holds [t]. *)
Lemma soft_update_at (self : TD3.t xreal) g replay_buffer batch_size :
  same_architecture self →
  py_mod (TD3.total_it self + 1) (TD3.policy_freq self) = Some 0%Z →
  let self' := (TD3.train self g replay_buffer batch_size).1.1 in
  (∀ j k p t,
     at2 (Critic.parameters (TD3.critic self')) j k = Some p →
     at2 (Critic.parameters (TD3.critic_target self)) j k = Some t →
     at2 (Critic.parameters (TD3.critic_target self')) j k =
       Some (Spec.soft_update (TD3.tau self) p t))
  ∧ (∀ j k p t,
       at2 (Actor.parameters (TD3.actor self')) j k = Some p →
       at2 (Actor.parameters (TD3.actor_target self)) j k = Some t →
       at2 (Actor.parameters (TD3.actor_target self')) j k =
         Some (Spec.soft_update (TD3.tau self) p t)).
Proof.
  intros Harch Hdue.
  destruct (policy_step_targets self g replay_buffer batch_size Harch Hdue)
    as (_ & _ & Ec & Ea & _).
  cbv zeta. split; intros j k p t Hp Ht.
  - by rewrite Ec, at2_zip_with, Hp, Ht.
  - by rewrite Ea, at2_zip_with, Hp, Ht.
Qed.

(** X15: for [tau] in [[0, 1]] a policy-update step moves every finite
    target parameter, of the target Critic and of the target Actor, to a
    value between its old value and the stepped live parameter at the same
    position: the targets never overshoot the live networks. *)
Theorem soft_update_stays_between (self : TD3.t xreal) g replay_buffer
    batch_size (tau : R) :
  same_architecture self →
  py_mod (TD3.total_it self + 1) (TD3.policy_freq self) = Some 0%Z →
  TD3.tau self = Some tau →
  0 <= tau <= 1 →
  let self' := (TD3.train self g replay_buffer batch_size).1.1 in
  (∀ j k (p t : R),
     at2 (Critic.parameters (TD3.critic self')) j k = Some (Some p) →
     at2 (Critic.parameters (TD3.critic_target self)) j k = Some (Some t) →
     ∃ r, at2 (Critic.parameters (TD3.critic_target self')) j k
          = Some (Some r)
          ∧ Rmin p t <= r <= Rmax p t)
  ∧ (∀ j k (p t : R),
       at2 (Actor.parameters (TD3.actor self')) j k = Some (Some p) →
       at2 (Actor.parameters (TD3.actor_target self)) j k = Some (Some t) →
       ∃ r, at2 (Actor.parameters (TD3.actor_target self')) j k
            = Some (Some r)
            ∧ Rmin p t <= r <= Rmax p t).
Proof.
  intros Harch Hdue Htau Hrange.
  destruct (soft_update_at self g replay_buffer batch_size Harch Hdue)
    as [Hc Ha].
  cbv zeta. split; intros j k p t Hp Ht;
    destruct (soft_update_between tau p t Hrange) as (r & Er & Hr);
    exists r; (split; [|done]).
  - rewrite (Hc j k _ _ Hp Ht), Htau. f_equal. exact Er.
  - rewrite (Ha j k _ _ Hp Ht), Htau. f_equal. exact Er.
Qed.

(** X16: with [tau = 1] the soft update is a hard copy: after a
    policy-update step every finite parameter of a target equals the stepped
    live parameter at the same position. *)
Theorem tau_one_copies_live_into_targets (self : TD3.t xreal) g replay_buffer
    batch_size :
  same_architecture self →
  py_mod (TD3.total_it self + 1) (TD3.policy_freq self) = Some 0%Z →
  TD3.tau self = Some 1 →
  let self' := (TD3.train self g replay_buffer batch_size).1.1 in
  (∀ j k (p t : R),
     at2 (Critic.parameters (TD3.critic self')) j k = Some (Some p) →
     at2 (Critic.parameters (TD3.critic_target self)) j k = Some (Some t) →
     at2 (Critic.parameters (TD3.critic_target self')) j k = Some (Some p))
  ∧ (∀ j k (p t : R),
       at2 (Actor.parameters (TD3.actor self')) j k = Some (Some p) →
       at2 (Actor.parameters (TD3.actor_target self)) j k = Some (Some t) →
       at2 (Actor.parameters (TD3.actor_target self')) j k = Some (Some p)).
Proof.
  intros Harch Hdue Htau.
  destruct (soft_update_at self g replay_buffer batch_size Harch Hdue)
    as [Hc Ha].
  assert (∀ p t : R, Spec.soft_update (Some 1) (Some p) (Some t) = Some p)
    as Hone.
  { intros p t. change (Some (1 * p + (1 - 1) * t) = Some p). f_equal. lra. }
  cbv zeta. split; intros j k p t Hp Ht.
  - rewrite (Hc j k _ _ Hp Ht), Htau. f_equal. apply Hone.
  - rewrite (Ha j k _ _ Hp Ht), Htau. f_equal. apply Hone.
Qed.

(** X17: with [tau = 0] the targets are frozen: a policy-update step leaves
    every finite parameter of a target as it was, wherever the stepped live
    parameter at the same position is finite. *)
Theorem tau_zero_freezes_targets (self : TD3.t xreal) g replay_buffer
    batch_size :
  same_architecture self →
  py_mod (TD3.total_it self + 1) (TD3.policy_freq self) = Some 0%Z →
  TD3.tau self = Some 0 →
  let self' := (TD3.train self g replay_buffer batch_size).1.1 in
  (∀ j k (p t : R),
     at2 (Critic.parameters (TD3.critic self')) j k = Some (Some p) →
     at2 (Critic.parameters (TD3.critic_target self)) j k = Some (Some t) →
     at2 (Critic.parameters (TD3.critic_target self')) j k = Some (Some t))
  ∧ (∀ j k (p t : R),
       at2 (Actor.parameters (TD3.actor self')) j k = Some (Some p) →
       at2 (Actor.parameters (TD3.actor_target self)) j k = Some (Some t) →
       at2 (Actor.parameters (TD3.actor_target self')) j k = Some (Some t)).
Proof.
  intros Harch Hdue Htau.
  destruct (soft_update_at self g replay_buffer batch_size Harch Hdue)
    as [Hc Ha].
  assert (∀ p t : R, Spec.soft_update (Some 0) (Some p) (Some t) = Some t)
    as Hzero.
  { intros p t. change (Some (0 * p + (1 - 0) * t) = Some t). f_equal. lra. }
  cbv zeta. split; intros j k p t Hp Ht.
  - rewrite (Hc j k _ _ Hp Ht), Htau. f_equal. apply Hzero.
  - rewrite (Ha j k _ _ Hp Ht), Htau. f_equal. apply Hzero.
Qed.

(** X18: a non-finite live parameter reaches the target: where the stepped
    live network holds a non-finite value, the target holds a non-finite
    value after a policy-update step, whatever [tau] and the old target
    value are. *)
Theorem non_finite_live_parameter_reaches_target (self : TD3.t xreal) g
    replay_buffer batch_size :
  same_architecture self →
  py_mod (TD3.total_it self + 1) (TD3.policy_freq self) = Some 0%Z →
  let self' := (TD3.train self g replay_buffer batch_size).1.1 in
  (∀ j k t,
     at2 (Critic.parameters (TD3.critic self')) j k = Some None →
     at2 (Critic.parameters (TD3.critic_target self)) j k = Some t →
     at2 (Critic.parameters (TD3.critic_target self')) j k = Some None)
  ∧ (∀ j k t,
       at2 (Actor.parameters (TD3.actor self')) j k = Some None →
       at2 (Actor.parameters (TD3.actor_target self)) j k = Some t →
       at2 (Actor.parameters (TD3.actor_target self')) j k = Some None).
Proof.
  intros Harch Hdue.
  destruct (soft_update_at self g replay_buffer batch_size Harch Hdue)
    as [Hc Ha].
  cbv zeta. split; intros j k t Hp Ht.
  - rewrite (Hc j k _ _ Hp Ht). f_equal.
    unfold Spec.soft_update. by destruct (TD3.tau self), t.
  - rewrite (Ha j k _ _ Hp Ht). f_equal.
    unfold Spec.soft_update. by destruct (TD3.tau self), t.
Qed.

End more_soft_update_facts.

(** ** One agent's action *)

Section more_forward_facts.
Context {T : Type} `{!Scalar T, !Conv3dPrim T}.

Lemma foldl_snoc_fmap {A B} (f : A → B) (l : list A) (acc : list B) :
  foldl (λ acc x, acc ++ [f x]) acc l = acc ++ (f <$> l).
Proof.
  revert acc. induction l as [|x l IH]; intros acc; cbn.
  - by rewrite app_nil_r.
  - by rewrite IH, <- app_assoc.
Qed.

Lemma stack1_lookup {A} (ts : list (list A)) b i row x :
  stack1 ts !! b = Some row → row !! i = Some x →
  ∃ t, ts !! i = Some t ∧ t !! b = Some x.
Proof.
  revert i row. induction ts as [|t ts IH]; intros i row Hrow Hx; [done|].
  destruct ts as [|t2 ts].
  - cbn in Hrow. rewrite list_lookup_fmap in Hrow.
    destruct (t !! b) as [y|] eqn:Ey; [|done]. injection Hrow as <-.
    destruct i as [|i]; [|done]. injection Hx as <-. by exists t.
  - change (stack1 (t :: t2 :: ts))
      with (zip_with cons t (stack1 (t2 :: ts))) in Hrow.
    apply lookup_zip_with_Some in Hrow as (y & rest & -> & Hy & Hrest).
    destruct i as [|i].
    + injection Hx as <-. by exists t.
    + apply (IH i rest Hrest Hx).
Qed.

(** The action of agent [i], before stacking. *)
Lemma Actor_forward_at (self : Actor.t T) state b i k y :
  at3 (Actor.forward self state) b i k = Some y →
  ∃ row x,
    linear (Actor.actor2 self !!! i)
      (linear (Actor.actor1 self !!! i)
         (view_rows (32 * 3 * 3 * 3)
            (map5d selu (conv3d (Actor.conv4 self)
               (map5d selu (conv3d (Actor.conv3 self)
                  (map5d selu (conv3d (Actor.conv2 self)
                     (map5d selu (conv3d (Actor.conv1 self)
                        (select1 i state))))))))))) !! b = Some row
    ∧ row !! k = Some x
    ∧ y = (Actor.max_action self * stanh x)%S.
Proof.
  unfold Actor.forward. rewrite at3_map3d.
  rewrite (foldl_snoc_fmap (λ i,
    linear (Actor.actor2 self !!! i)
      (linear (Actor.actor1 self !!! i)
         (view_rows (32 * 3 * 3 * 3)
            (map5d selu (conv3d (Actor.conv4 self)
               (map5d selu (conv3d (Actor.conv3 self)
                  (map5d selu (conv3d (Actor.conv2 self)
                     (map5d selu (conv3d (Actor.conv1 self)
                        (select1 i state))))))))))))).
  rewrite app_nil_l. unfold at3.
  destruct (stack1 _ !! b) as [m|] eqn:Em; [|done].
  destruct (m !! i) as [r|] eqn:Er; [|done].
  destruct (r !! k) as [x|] eqn:Ex; [|done].
  cbn. intros [= <-].
  destruct (stack1_lookup _ _ _ _ _ Em Er) as (t & Ht & Hb).
  rewrite list_lookup_fmap in Ht.
  destruct (seq 0 (Actor.agents self) !! i) as [i'|] eqn:Ei; [|done].
  apply lookup_seq in Ei as [-> _]. cbn in Ht. injection Ht as <-.
  by exists r, x.
Qed.

(** X19: the action of agent [i] is computed from agent [i]'s observations,
    the shared encoder and agent [i]'s own head alone: two actors that share
    the encoder, [max_action] and the head of agent [i], on states that
    agree on agent [i], give the same value wherever both outputs have the
    position, whatever the other agents' heads and observations and however
    many agents there are. *)
Theorem agent_action_from_own_head_and_observation (a a' : Actor.t T)
    (state state' : list (list (volume T))) b i k y y' :
  Actor.conv1 a' = Actor.conv1 a → Actor.conv2 a' = Actor.conv2 a →
  Actor.conv3 a' = Actor.conv3 a → Actor.conv4 a' = Actor.conv4 a →
  Actor.max_action a' = Actor.max_action a →
  Actor.actor1 a' !!! i = Actor.actor1 a !!! i →
  Actor.actor2 a' !!! i = Actor.actor2 a !!! i →
  select1 i state' = select1 i state →
  at3 (Actor.forward a state) b i k = Some y →
  at3 (Actor.forward a' state') b i k = Some y' →
  y' = y.
Proof.
  intros H1 H2 H3 H4 Hm Ha1 Ha2 Hs Hy Hy'.
  apply Actor_forward_at in Hy as (row & x & Hrow & Hx & ->).
  apply Actor_forward_at in Hy' as (row' & x' & Hrow' & Hx' & ->).
  rewrite H1, H2, H3, H4, Ha1, Ha2, Hs, Hrow in Hrow'.
  injection Hrow' as <-. rewrite Hx in Hx'. injection Hx' as <-.
  by rewrite Hm.
Qed.

End more_forward_facts.

(** ** The architecture over runs *)

Section more_architecture_facts.
Context {T : Type} `{!Scalar T, !Conv3dPrim T, !Runtime T, !RuntimeLaws T}.
Implicit Types (self : TD3.t T).

Lemma step_shapes (o : op T) self :
  same_architecture self →
  Critic.shape (TD3.critic (step o self)) = Critic.shape (TD3.critic self)
  ∧ Actor.shape (TD3.actor (step o self)) = Actor.shape (TD3.actor self)
  ∧ same_architecture (step o self).
Proof.
  intros Harch.
  destruct o as [g rb n|fs filename|name forced fs|state]; cbn [step];
    [| |done..].
  - split; [|split; [|by apply train_same_architecture]].
    + destruct (train_fields self g rb n) as (_ & -> & _).
      apply critic_step_shape.
    + destruct (train_fields self g rb n) as (_ & _ & _ & Hdo & Hskip).
      destruct (decide (py_mod (TD3.total_it self + 1) (TD3.policy_freq self)
                        = Some 0%Z)) as [Hdue|Hnot].
      * destruct (Hdo Hdue) as (-> & _). apply actor_step_shape.
      * by destruct (Hskip Hnot) as (-> & _).
  - destruct (load_fields fs filename self) as (_ & _ & Hc & Ha & _).
    split; [done|]. split; [done|]. by apply load_same_architecture.
Qed.

Lemma run_shapes (ops : list (op T)) self :
  same_architecture self →
  Critic.shape (TD3.critic (run ops self)) = Critic.shape (TD3.critic self)
  ∧ Actor.shape (TD3.actor (run ops self)) = Actor.shape (TD3.actor self)
  ∧ same_architecture (run ops self).
Proof.
  revert self. induction ops as [|o ops IH]; intros self Harch; [done|].
  unfold run in *. cbn [foldl].
  destruct (step_shapes o self Harch) as (Hc & Ha & Harch').
  destruct (IH _ Harch') as (Hc' & Ha' & Harch'').
  split; [congruence|]. split; [congruence|done].
Qed.

(** X20: the architecture is fixed at construction.  With an optimizer that
    updates parameters in place, after any sequence of operations on a
    freshly constructed trainer (training calls, loads of whatever files,
    saves, action selections, raising or not) the live and the target
    networks all have the parameter shapes of the networks the constructor
    was given; so no soft update ever pairs tensors of different shapes. *)
Theorem architecture_fixed_at_construction (ops : list (op T))
    actor0 critic0 max_action discount tau policy_noise noise_clip
    policy_freq agents logger :
  let self :=
    run ops (TD3.init actor0 critic0 max_action discount tau policy_noise
               noise_clip policy_freq agents logger) in
  Critic.shape (TD3.critic self) = Critic.shape critic0
  ∧ Critic.shape (TD3.critic_target self) = Critic.shape critic0
  ∧ Actor.shape (TD3.actor self) = Actor.shape actor0
  ∧ Actor.shape (TD3.actor_target self) = Actor.shape actor0.
Proof.
  cbn zeta.
  destruct (run_shapes ops (TD3.init actor0 critic0 max_action discount tau
                              policy_noise noise_clip policy_freq agents
                              logger))
    as (Hc & Ha & Hct & Hat); [done|].
  rewrite Hct, Hat, Hc, Ha. done.
Qed.

End more_architecture_facts.

(** ** Saving and loading together *)

Section more_checkpoint_facts.
Context {T : Type} `{!Scalar T, !Conv3dPrim T, !Runtime T}.
Implicit Types (self : TD3.t T) (fs : files T).

Lemma append_snoc (s t : string) (c : Ascii.ascii) :
  s +:+ (t +:+ String c EmptyString) = (s +:+ t) +:+ String c EmptyString.
Proof.
  induction s as [|a s IH]; [done|].
  change (String a (s +:+ (t +:+ String c EmptyString))
          = String a ((s +:+ t) +:+ String c EmptyString)).
  congruence.
Qed.

Lemma snoc_inj (s s' : string) (c c' : Ascii.ascii) :
  s +:+ String c EmptyString = s' +:+ String c' EmptyString → c = c'.
Proof.
  revert s'. induction s as [|a s IH]; intros [|a' s']; cbn; intros [= E].
  - done.
  - by destruct s'.
  - by destruct s.
  - apply (IH s'). congruence.
Qed.

Lemma last_differs (s s' t t' u v : string) (c c' : Ascii.ascii) :
  u = String c EmptyString → v = String c' EmptyString → c ≠ c' →
  s +:+ (t +:+ u) ≠ s' +:+ (t' +:+ v).
Proof.
  intros -> -> Hc E. rewrite !append_snoc in E. by apply snoc_inj in E.
Qed.

(** No name written by [save] is the first name read by [load]: the former
    end in [t], the latter in [c]. *)
Lemma saved_names_not_read (name filename mid : string) :
  name +:+ (mid +:+ "t") ≠ filename +:+ "_critic".
Proof.
  change "_critic" with ("_criti" +:+ "c").
  eapply last_differs; [reflexivity|reflexivity|discriminate].
Qed.

(** X21: [load] never finds what [save] wrote.  With a logger that stores
    each snapshot under the name it is given, and files that do not already
    hold [<filename>_critic], a [load] after a [save] raises
    [FileNotFoundError] and leaves the trainer as it was, for every pair of
    prefixes: [save] appends [.pt] to the names, [load] does not. *)
Theorem load_never_finds_what_save_wrote self self2 name filename forced fs :
  TD3.logger self = Some spec_logger →
  fs !! (filename +:+ "_critic") = None →
  TD3.load (TD3.save self name forced fs).1 filename self2
  = (self2, Raised FileNotFoundError).
Proof.
  intros Hlg Hnone. rewrite (save_calls self spec_logger) by done.
  cbn [fst snd spec_logger save_model].
  unfold TD3.load, TD3.torch_load, bind, from_option. unfold files in *.
  rewrite lookup_insert_ne
    by apply (saved_names_not_read name filename "_actor_optimizer.p").
  rewrite lookup_insert_ne
    by apply (saved_names_not_read name filename "_actor.p").
  rewrite lookup_insert_ne
    by apply (saved_names_not_read name filename "_critic_optimizer.p").
  rewrite lookup_insert_ne
    by apply (saved_names_not_read name filename "_critic.p").
  by rewrite Hnone.
Qed.

End more_checkpoint_facts.

(** ** Closed examples of the further properties *)

Section more_closed_examples.
Local Existing Instances demo_conv demo_runtime demo_runtime_laws
  demo_conv_closed.
Local Open Scope R_scope.

(** Witness of [train_raises_after_critic_step]: the example trainer built
    with [policy_freq = 0]. *)
Lemma train_raises_after_critic_step_witness :
  TD3.policy_freq (example_td3 0) = 0%Z
  ∧ (TD3.train (example_td3 0) 0%nat (example_buffer 5) 256).2
    = Raised ZeroDivisionError
  ∧ TD3.total_it (TD3.train (example_td3 0) 0%nat (example_buffer 5) 256).1.1
    = 1%Z
  ∧ TD3.critic_target
      (TD3.train (example_td3 0) 0%nat (example_buffer 5) 256).1.1
    = TD3.critic_target (example_td3 0).
Proof.
  pose proof (train_raises_after_critic_step (example_td3 0) 0%nat
                (example_buffer 5) 256%nat eq_refl) as H.
  cbv zeta in H. destruct H as (H1 & _ & H3 & _ & _ & _ & _ & H8).
  split; [reflexivity|]. split; [exact H1|]. split; [exact H3|exact H8].
Defined.

(** Witness of [critic_step_ignores_live_actor]: the example trainer and the
    same trainer with another live actor. *)
Lemma critic_step_ignores_live_actor_witness :
  let self := example_td3 2 in
  let self2 := TD3.set_actor (TD3.actor_optimizer self) (example_actor 1 1) self in
  TD3.actor self2 = example_actor 1 1
  ∧ TD3.critic self2 = TD3.critic self
  ∧ TD3.critic_target self2 = TD3.critic_target self
  ∧ TD3.actor_target self2 = TD3.actor_target self
  ∧ (TD3.train self2 0%nat (example_buffer 5) 256).2
    = (TD3.train self 0%nat (example_buffer 5) 256).2
  ∧ TD3.critic (TD3.train self2 0%nat (example_buffer 5) 256).1.1
    = TD3.critic (TD3.train self 0%nat (example_buffer 5) 256).1.1.
Proof.
  intros self self2. do 4 (split; [reflexivity|]).
  pose proof (critic_step_ignores_live_actor self self2 0%nat
                (example_buffer 5) 256%nat eq_refl eq_refl eq_refl eq_refl
                eq_refl eq_refl eq_refl eq_refl eq_refl eq_refl) as H.
  cbv zeta in H. destruct H as (H1 & H2 & _). split; [exact H1|exact H2].
Defined.

(** Witness of [load_without_critic_file]: no files at all. *)
Lemma load_without_critic_file_witness :
  (∅ : files xreal) !! "ckpt_critic" = None
  ∧ TD3.load ∅ "ckpt" (example_td3 2)
    = (example_td3 2, Raised FileNotFoundError).
Proof.
  assert ((∅ : files xreal) !! "ckpt_critic" = None) as Hnone
    by (unfold files; apply lookup_empty).
  split; [exact Hnone|].
  exact (load_without_critic_file ∅ "ckpt" (example_td3 2) Hnone).
Defined.

(** Witness of [load_interrupted_after_critic]: the critic's snapshot is the
    only file. *)
Lemma load_interrupted_after_critic_witness :
  let fs : files xreal :=
    <["ckpt_critic" := CriticSnapshot (example_critic 0 1)]> ∅ in
  fs !! "ckpt_critic" = Some (CriticSnapshot (example_critic 0 1))
  ∧ Critic.load_state_dict (TD3.critic (example_td3 2)) (example_critic 0 1)
    = Some (example_critic 0 1)
  ∧ fs !! "ckpt_critic_optimizer" = None
  ∧ (TD3.load fs "ckpt" (example_td3 2)).2 = Raised FileNotFoundError
  ∧ TD3.critic (TD3.load fs "ckpt" (example_td3 2)).1 = example_critic 0 1
  ∧ TD3.critic_target (TD3.load fs "ckpt" (example_td3 2)).1
    = TD3.critic_target (example_td3 2).
Proof.
  intros fs.
  assert (fs !! "ckpt_critic" = Some (CriticSnapshot (example_critic 0 1)))
    as Hc by (subst fs; unfold files; apply lookup_insert_eq).
  assert (Critic.load_state_dict (TD3.critic (example_td3 2))
            (example_critic 0 1) = Some (example_critic 0 1)) as Hsd
    by (apply Critic_load_state_dict_restores; [reflexivity|repeat split]).
  assert (fs !! "ckpt_critic_optimizer" = None) as Hco
    by (subst fs; unfold files; rewrite lookup_insert_ne by (intros [=]);
        apply lookup_empty).
  do 3 (split; [done|]).
  pose proof (load_interrupted_after_critic fs "ckpt" (example_td3 2)
                (example_critic 0 1) (example_critic 0 1) Hc Hsd Hco) as H.
  cbv zeta in H. destruct H as (H1 & H2 & _ & H4 & _).
  split; [exact H1|]. split; [exact H2|exact H4].
Defined.

(** Witness of [load_rejects_unfit_critic_snapshot]: the snapshot of a
    critic whose first head has one row more. *)
Lemma load_rejects_unfit_critic_snapshot_witness :
  let fs : files xreal :=
    <["ckpt_critic" := CriticSnapshot example_critic_wider]> ∅ in
  fs !! "ckpt_critic" = Some (CriticSnapshot example_critic_wider)
  ∧ Critic.shape example_critic_wider
    ≠ Critic.shape (TD3.critic (example_td3 2))
  ∧ (TD3.load fs "ckpt" (example_td3 2)).2 = Raised RuntimeError
  ∧ TD3.critic_target (TD3.load fs "ckpt" (example_td3 2)).1
    = TD3.critic_target (example_td3 2).
Proof.
  intros fs.
  assert (fs !! "ckpt_critic" = Some (CriticSnapshot example_critic_wider))
    as Hc by (subst fs; unfold files; apply lookup_insert_eq).
  assert (Critic.shape example_critic_wider
          ≠ Critic.shape (TD3.critic (example_td3 2))) as Hshape.
  { intros E.
    apply (f_equal (λ s, (λ l : list (list ()) * list (), length l.2)
                           <$> s.1.1.1.2)) in E.
    lazy in E. discriminate E. }
  assert (∀ sd, CriticSnapshot example_critic_wider = CriticSnapshot sd →
                Critic.shape sd ≠ Critic.shape (TD3.critic (example_td3 2)))
    as Hunfit by (by intros sd [= <-]).
  do 2 (split; [done|]).
  pose proof (load_rejects_unfit_critic_snapshot fs "ckpt" (example_td3 2)
                (CriticSnapshot example_critic_wider) Hc Hunfit) as H.
  cbv zeta in H. destruct H as (H1 & _ & H3 & _). split; [exact H1|exact H3].
Defined.

Lemma example_checkpoint_loads :
  TD3.load example_checkpoint "ckpt" (example_td3 2) =
    (TD3.set_actor_target (TD3.actor (example_td3 1))
       (TD3.set_actor (TD3.actor_optimizer (example_td3 1))
          (TD3.actor (example_td3 1))
          (TD3.set_critic_target (TD3.critic (example_td3 1))
             (TD3.set_critic (TD3.critic_optimizer (example_td3 1))
                (TD3.critic (example_td3 1)) (example_td3 2)))),
     Returned tt).
Proof.
  apply load_unfold; unfold example_checkpoint, files.
  - apply lookup_insert_eq.
  - rewrite lookup_insert_ne by (intros [=]). apply lookup_insert_eq.
  - do 2 (rewrite lookup_insert_ne by (intros [=])). apply lookup_insert_eq.
  - do 3 (rewrite lookup_insert_ne by (intros [=])). apply lookup_insert_eq.
  - reflexivity.
  - repeat split.
  - reflexivity.
  - repeat split.
Qed.

(** Witness of [load_returns_with_cloned_targets]: a checkpoint of another
    trainer, loaded. *)
Lemma load_returns_with_cloned_targets_witness :
  (TD3.load example_checkpoint "ckpt" (example_td3 2)).2 = Returned tt
  ∧ TD3.critic_target (TD3.load example_checkpoint "ckpt" (example_td3 2)).1
    = TD3.critic (TD3.load example_checkpoint "ckpt" (example_td3 2)).1
  ∧ TD3.actor_target (TD3.load example_checkpoint "ckpt" (example_td3 2)).1
    = TD3.actor (TD3.load example_checkpoint "ckpt" (example_td3 2)).1.
Proof.
  assert ((TD3.load example_checkpoint "ckpt" (example_td3 2)).2
          = Returned tt) as Hret by (by rewrite example_checkpoint_loads).
  split; [exact Hret|].
  exact (load_returns_with_cloned_targets example_checkpoint "ckpt"
           (example_td3 2) Hret).
Defined.

(** Witness of [save_without_logger]: the trainer as constructed by
    default. *)
Lemma save_without_logger_witness :
  TD3.logger example_td3_no_logger = None
  ∧ TD3.save example_td3_no_logger "ckpt" false ∅ = (∅, Raised AttributeError).
Proof.
  split; [reflexivity|].
  exact (save_without_logger example_td3_no_logger "ckpt" false ∅ eq_refl).
Defined.

(** Witness of [save_stores_all_four_snapshots]. *)
Lemma save_stores_all_four_snapshots_witness :
  TD3.logger (example_td3 2) = Some spec_logger
  ∧ (TD3.save (example_td3 2) "ckpt" false ∅).2 = Returned tt
  ∧ (TD3.save (example_td3 2) "ckpt" false ∅).1 !! "ckpt_critic.pt"
    = Some (CriticSnapshot (Critic.state_dict (TD3.critic (example_td3 2))))
  ∧ (TD3.save (example_td3 2) "ckpt" false ∅).1 !! "ckpt_actor_optimizer.pt"
    = Some (ActorOptimizerSnapshot (TD3.actor_optimizer (example_td3 2))).
Proof.
  split; [reflexivity|].
  pose proof (save_stores_all_four_snapshots (example_td3 2) "ckpt" false ∅
                eq_refl) as H.
  cbv zeta in H. destruct H as (H1 & H2 & _ & _ & H5 & _).
  split; [exact H1|]. split; [exact H2|exact H5].
Defined.

(** Witness of [load_never_finds_what_save_wrote]: saved and loaded under
    the same prefix. *)
Lemma load_never_finds_what_save_wrote_witness :
  TD3.logger (example_td3 2) = Some spec_logger
  ∧ (∅ : files xreal) !! "ckpt_critic" = None
  ∧ TD3.load (TD3.save (example_td3 2) "ckpt" false ∅).1 "ckpt" (example_td3 1)
    = (example_td3 1, Raised FileNotFoundError).
Proof.
  assert ((∅ : files xreal) !! "ckpt_critic" = None) as Hnone
    by (unfold files; apply lookup_empty).
  split; [reflexivity|]. split; [exact Hnone|].
  exact (load_never_finds_what_save_wrote (example_td3 2) (example_td3 1)
           "ckpt" "ckpt" false ∅ eq_refl Hnone).
Defined.

(** Witness of [kth_call_is_policy_step_iff_policy_freq_divides_k]: with
    [policy_freq = 2], after one call and one action selection the next
    call is the second, a policy-update step. *)
Lemma kth_call_is_policy_step_iff_policy_freq_divides_k_witness :
  let ops : list (op xreal) :=
    [Train 0%nat (example_buffer 5) 256;
     SelectAction (unsqueeze2 example_state)] in
  let self := run ops (example_td3 2) in
  let self' := (TD3.train self 1%nat (example_buffer 5) 256).1.1 in
  py_mod (Z.of_nat (train_calls ops + 1)) 2 = Some 0%Z
  ∧ TD3.critic_target self' =
      Critic.zip_parameters (lerp (Some (5 / 1000))) (TD3.critic self')
        (TD3.critic_target self).
Proof.
  intros ops self self'.
  assert (py_mod (Z.of_nat (train_calls ops + 1)) 2 = Some 0%Z) as Hdue
    by reflexivity.
  split; [exact Hdue|].
  exact (proj1 (proj1 (kth_call_is_policy_step_iff_policy_freq_divides_k ops
           (example_actor 0 0) (example_critic 0 0) (Some 1) (Some (99 / 100))
           (Some (5 / 1000)) (Some (2 / 10)) (Some (5 / 10)) 2%Z 1%nat
           (Some spec_logger) 1%nat (example_buffer 5) 256%nat) Hdue)).
Defined.

(** Witness of [architecture_fixed_at_construction]: a call of [train] and
    a failing [load]. *)
Lemma architecture_fixed_at_construction_witness :
  let ops : list (op xreal) :=
    [Train 0%nat (example_buffer 5) 256; Load ∅ "ckpt"] in
  RuntimeLaws xreal
  ∧ Critic.shape (TD3.critic_target (run ops (example_td3 2)))
    = Critic.shape (example_critic 0 0)
  ∧ Actor.shape (TD3.actor_target (run ops (example_td3 2)))
    = Actor.shape (example_actor 0 0).
Proof.
  intros ops. split; [exact demo_runtime_laws|].
  pose proof (architecture_fixed_at_construction ops (example_actor 0 0)
                (example_critic 0 0) (Some 1) (Some (99 / 100))
                (Some (5 / 1000)) (Some (2 / 10)) (Some (5 / 10)) 2%Z 1%nat
                (Some spec_logger)) as H.
  cbv zeta in H. destruct H as (_ & H2 & _ & H4). split; [exact H2|exact H4].
Defined.

Lemma example_eps_finite (x y z : R) :
  all3 finite [[ [Some x; Some y; Some z] ]].
Proof. repeat constructor; by eexists. Qed.

(** Witness of [smoothing_noise_within_noise_clip]: samples far out in the
    tails. *)
Lemma smoothing_noise_within_noise_clip_witness :
  TD3.policy_noise (example_td3 2) = Some (2 / 10)
  ∧ TD3.noise_clip (example_td3 2) = Some (5 / 10)
  ∧ 0 <= 5 / 10
  ∧ all3 finite [[ [Some 100; Some (-100); Some 0] ]]
  ∧ all3 (within (5 / 10))
      (TD3.train_noise (example_td3 2) [[ [Some 100; Some (-100); Some 0] ]]).
Proof.
  assert (0 <= 5 / 10) as Hnc by lra.
  do 2 (split; [reflexivity|]). split; [exact Hnc|].
  split; [apply example_eps_finite|].
  exact (smoothing_noise_within_noise_clip (example_td3 2)
           [[ [Some 100; Some (-100); Some 0] ]] (2 / 10) (5 / 10)
           eq_refl eq_refl Hnc (example_eps_finite 100 (-100) 0)).
Defined.

(** Witness of [clamped_reward_within_max_action]: a reward of 7 under
    [max_action = 1]. *)
Lemma clamped_reward_within_max_action_witness :
  TD3.max_action (example_td3 2) = Some 1
  ∧ 0 <= 1
  ∧ all3 finite (b_reward (example_batch 7))
  ∧ all3 (within 1) (TD3.train_reward (example_td3 2) (example_batch 7)).
Proof.
  assert (0 <= 1) as Hm by lra.
  assert (all3 finite (b_reward (example_batch 7))) as Hr
    by (repeat constructor; by eexists).
  split; [reflexivity|]. split; [exact Hm|]. split; [exact Hr|].
  exact (clamped_reward_within_max_action (example_td3 2) (example_batch 7) 1
           eq_refl Hm Hr).
Defined.

(** Witness of [next_action_within_max_action]. *)
Lemma next_action_within_max_action_witness :
  TD3.max_action (example_td3 2) = Some 1
  ∧ 0 <= 1
  ∧ all_trainer finite (example_td3 2)
  ∧ all_batch finite (example_batch 5)
  ∧ all3 finite [[ [Some 100; Some (-100); Some 0] ]]
  ∧ all3 (within 1)
      (TD3.train_next_action (example_td3 2) (example_batch 5)
         (TD3.train_noise (example_td3 2)
            [[ [Some 100; Some (-100); Some 0] ]])).
Proof.
  assert (0 <= 1) as Hm by lra.
  split; [reflexivity|]. split; [exact Hm|].
  split; [apply example_td3_finite|]. split; [apply example_batch_finite|].
  split; [apply example_eps_finite|].
  exact (next_action_within_max_action (example_td3 2) (example_batch 5)
           [[ [Some 100; Some (-100); Some 0] ]] 1 eq_refl Hm
           (example_td3_finite 2) (example_batch_finite 5)
           (example_eps_finite 100 (-100) 0)).
Defined.

Lemma example_terminal_batch_finite r :
  all_batch finite (example_terminal_batch r).
Proof.
  unfold all_batch, example_terminal_batch.
  cbn [b_state b_action b_next_state b_reward b_not_done].
  split; [apply example_state_finite|].
  split; [repeat constructor; by eexists|].
  split; [apply example_state_finite|].
  split; repeat constructor; by eexists.
Qed.

(** Witness of [terminal_target_is_clamped_reward]: a terminal transition
    with reward 7. *)
Lemma terminal_target_is_clamped_reward_witness :
  let self := example_td3 2 in
  let batch := example_terminal_batch 7 in
  let eps : list (list (list xreal)) := [[ [Some 0; Some 0; Some 0] ]] in
  all_trainer finite self
  ∧ all_batch finite batch
  ∧ all3 finite eps
  ∧ at3 (b_reward batch) 0 0 0 = Some (Some 7)
  ∧ at3 (b_not_done batch) 0 0 0 = Some (Some 0)
  ∧ is_Some (at3 (TD3.bootstrapped_target self batch eps) 0 0 0)
  ∧ at3 (TD3.bootstrapped_target self batch eps) 0 0 0
    = Some (Spec.clamped_reward (Some 1) (Some 7)).
Proof.
  intros self batch eps.
  assert (is_Some (at3 (TD3.bootstrapped_target self batch eps) 0 0 0))
    as Ht by (eexists; reflexivity).
  split; [apply example_td3_finite|].
  split; [apply example_terminal_batch_finite|].
  split; [apply example_eps_finite|].
  do 2 (split; [reflexivity|]). split; [exact Ht|].
  exact (terminal_target_is_clamped_reward self batch eps 0%nat 0%nat 0%nat 7
           (example_td3_finite 2) (example_terminal_batch_finite 7)
           (example_eps_finite 0 0 0) eq_refl eq_refl Ht).
Defined.

Lemma example_drifted_tau_architecture tau :
  same_architecture (example_drifted_tau tau).
Proof. by split. Qed.

(** Witness of [soft_update_stays_between]: with [tau = 1/2], a bias of the
    target critic that has drifted to 1 moves to a value between the live
    bias 0 and 1. *)
Lemma soft_update_stays_between_witness :
  let self := example_drifted_tau (1 / 2) in
  let self' := (TD3.train self 0%nat (example_buffer 5) 256).1.1 in
  same_architecture self
  ∧ py_mod (TD3.total_it self + 1) (TD3.policy_freq self) = Some 0%Z
  ∧ TD3.tau self = Some (1 / 2)
  ∧ 0 <= 1 / 2 <= 1
  ∧ at2 (Critic.parameters (TD3.critic self')) 1 0 = Some (Some 0)
  ∧ at2 (Critic.parameters (TD3.critic_target self)) 1 0 = Some (Some 1)
  ∧ ∃ r, at2 (Critic.parameters (TD3.critic_target self')) 1 0
         = Some (Some r)
         ∧ Rmin 0 1 <= r <= Rmax 0 1.
Proof.
  intros self self'.
  assert (0 <= 1 / 2 <= 1) as Htau by lra.
  split; [apply example_drifted_tau_architecture|].
  do 2 (split; [reflexivity|]). split; [exact Htau|].
  do 2 (split; [reflexivity|]).
  exact (proj1 (soft_update_stays_between self 0%nat (example_buffer 5)
                  256%nat (1 / 2) (example_drifted_tau_architecture _)
                  eq_refl eq_refl Htau)
           1%nat 0%nat 0 1 eq_refl eq_refl).
Defined.

(** Witness of [tau_one_copies_live_into_targets]: the drifted bias is
    overwritten by the live bias 0. *)
Lemma tau_one_copies_live_into_targets_witness :
  let self := example_drifted_tau 1 in
  let self' := (TD3.train self 0%nat (example_buffer 5) 256).1.1 in
  same_architecture self
  ∧ py_mod (TD3.total_it self + 1) (TD3.policy_freq self) = Some 0%Z
  ∧ TD3.tau self = Some 1
  ∧ at2 (Critic.parameters (TD3.critic self')) 1 0 = Some (Some 0)
  ∧ at2 (Critic.parameters (TD3.critic_target self)) 1 0 = Some (Some 1)
  ∧ at2 (Critic.parameters (TD3.critic_target self')) 1 0 = Some (Some 0).
Proof.
  intros self self'.
  split; [apply example_drifted_tau_architecture|].
  do 4 (split; [reflexivity|]).
  exact (proj1 (tau_one_copies_live_into_targets self 0%nat (example_buffer 5)
                  256%nat (example_drifted_tau_architecture _) eq_refl
                  eq_refl)
           1%nat 0%nat 0 1 eq_refl eq_refl).
Defined.

(** Witness of [tau_zero_freezes_targets]: the drifted bias stays 1. *)
Lemma tau_zero_freezes_targets_witness :
  let self := example_drifted_tau 0 in
  let self' := (TD3.train self 0%nat (example_buffer 5) 256).1.1 in
  same_architecture self
  ∧ py_mod (TD3.total_it self + 1) (TD3.policy_freq self) = Some 0%Z
  ∧ TD3.tau self = Some 0
  ∧ at2 (Critic.parameters (TD3.critic self')) 1 0 = Some (Some 0)
  ∧ at2 (Critic.parameters (TD3.critic_target self)) 1 0 = Some (Some 1)
  ∧ at2 (Critic.parameters (TD3.critic_target self')) 1 0 = Some (Some 1).
Proof.
  intros self self'.
  split; [apply example_drifted_tau_architecture|].
  do 4 (split; [reflexivity|]).
  exact (proj1 (tau_zero_freezes_targets self 0%nat (example_buffer 5)
                  256%nat (example_drifted_tau_architecture _) eq_refl
                  eq_refl)
           1%nat 0%nat 0 1 eq_refl eq_refl).
Defined.

Lemma example_diverged_architecture : same_architecture example_diverged.
Proof. by split. Qed.

(** Witness of [non_finite_live_parameter_reaches_target]: a live critic
    whose parameters are all non-finite. *)
Lemma non_finite_live_parameter_reaches_target_witness :
  let self := example_diverged in
  let self' := (TD3.train self 0%nat (example_buffer 5) 256).1.1 in
  same_architecture self
  ∧ py_mod (TD3.total_it self + 1) (TD3.policy_freq self) = Some 0%Z
  ∧ at2 (Critic.parameters (TD3.critic self')) 1 0 = Some None
  ∧ at2 (Critic.parameters (TD3.critic_target self)) 1 0 = Some (Some 0)
  ∧ at2 (Critic.parameters (TD3.critic_target self')) 1 0 = Some None.
Proof.
  intros self self'.
  split; [apply example_diverged_architecture|].
  do 3 (split; [reflexivity|]).
  exact (proj1 (non_finite_live_parameter_reaches_target self 0%nat
                  (example_buffer 5) 256%nat example_diverged_architecture
                  eq_refl)
           1%nat 0%nat (Some 0) eq_refl eq_refl).
Defined.

(** Witness of [agent_action_from_own_head_and_observation]: two actors for
    two agents that differ in the second agent's head, on states that
    differ in the second agent's observation, agree on the first agent. *)
Lemma agent_action_from_own_head_and_observation_witness :
  let a := example_actor_two_agents 0 0 in
  let a' := example_actor_two_agents 1 1 in
  let state := example_two_agent_state 0 in
  let state' := example_two_agent_state 1 in
  Actor.actor1 a' !!! 0%nat = Actor.actor1 a !!! 0%nat
  ∧ Actor.actor2 a' !!! 0%nat = Actor.actor2 a !!! 0%nat
  ∧ select1 0 state' = select1 0 state
  ∧ ∃ y y',
      at3 (Actor.forward a state) 0 0 0 = Some y
      ∧ at3 (Actor.forward a' state') 0 0 0 = Some y'
      ∧ y' = y.
Proof.
  intros a a' state state'.
  do 3 (split; [reflexivity|]).
  assert (is_Some (at3 (Actor.forward a state) 0 0 0)) as [y Hy]
    by (eexists; reflexivity).
  assert (is_Some (at3 (Actor.forward a' state') 0 0 0)) as [y' Hy']
    by (eexists; reflexivity).
  exists y, y'. split; [exact Hy|]. split; [exact Hy'|].
  exact (agent_action_from_own_head_and_observation a a' state state'
           0%nat 0%nat 0%nat y y' eq_refl eq_refl eq_refl eq_refl eq_refl
           eq_refl eq_refl eq_refl Hy Hy').
Defined.

End more_closed_examples.
